(** * LinkedIn profile scraper: a shallow embedding of [src/index.ts]

    The development follows the class [LinkedInProfileScraper]:
    - JavaScript values the scraper manipulates (strings, Numbers, BigInts);
    - the identifier-to-timestamp decoder [extractUnixTimestamp];
    - the [page.evaluate] callbacks of the section extractors, run over an
      abstract description of the rendered page;
    - the session controller ([createPage], [close], [getPosts], ..., [run])
      written in a state-and-exception monad over the browser state.

    Everything that lives outside [src/index.ts] (the rendered DOM, the
    Puppeteer calls that may throw, the helpers imported from [./utils], the
    [Date] builtin) is supplied by an environment record [Env].

    Strings are held as their UTF-8 bytes: a character outside ASCII, such as
    the middle dot or a no-break space, takes two or three bytes. *)

From Stdlib Require Import String Ascii List Bool Arith ZArith NArith Lia.
From Stdlib Require Import Decimal DecimalString.
From Stdlib Require DecimalFacts DecimalNat DecimalPos DecimalN.
Import ListNotations.

Local Open Scope list_scope.
Local Open Scope string_scope.

(* ================================================================== *)
(** * JavaScript exceptions *)

Inductive Exn : Type :=
| Error (msg : string)      (* [throw new Error(msg)] *)
| TypeError                 (* property access on [undefined] / [null] *)
| SyntaxError               (* [BigInt] of a string that is not an integer *)
| External (code : nat)     (* an exception raised inside a Puppeteer call *)
| TargetClosed.             (* a Puppeteer call on a tab that has been closed *)

(** [Result A] is a computation that either throws or returns. *)
Definition Result (A : Type) : Type := (Exn + A)%type.

Definition rbind {A B} (r : Result A) (k : A -> Result B) : Result B :=
  match r with
  | inl e => inl e
  | inr a => k a
  end.

Definition ok {A} (a : A) : Result A := inr a.
Definition raise {A} (e : Exn) : Result A := inl e.

(** Indexing that throws [TypeError] when the next operation dereferences
    [undefined], as in [xs[i].split(...)]. *)
Definition defined {A} (o : option A) : Result A :=
  match o with
  | Some a => ok a
  | None => raise TypeError
  end.

(* ================================================================== *)
(** * JavaScript string operations *)

Module JSString.

Definition nl : string := String "010"%char EmptyString.

(** [s.startsWith(p)] *)
Fixpoint startsWith (p s : string) : bool :=
  match p, s with
  | EmptyString, _ => true
  | String a p', String b s' => Ascii.eqb a b && startsWith p' s'
  | String _ _, EmptyString => false
  end.

(** [s.includes(needle)] *)
Fixpoint includes (needle s : string) : bool :=
  startsWith needle s ||
  match s with
  | EmptyString => false
  | String _ s' => includes needle s'
  end.

(** [s.endsWith(p)] *)
Fixpoint endsWith (p s : string) : bool :=
  String.eqb p s ||
  match s with
  | EmptyString => false
  | String _ s' => endsWith p s'
  end.

Definition rev_string (s : string) : string :=
  string_of_list_ascii (List.rev (list_ascii_of_string s)).

(** The worker of [split]: [cur] is the current field, reversed; [skip]
    counts the characters of a separator occurrence still to be dropped. *)
Fixpoint split_from (sep : string) (skip : nat) (cur : string) (s : string)
  : list string :=
  match s with
  | EmptyString => [rev_string cur]
  | String c s' =>
      match skip with
      | S k => split_from sep k cur s'
      | O =>
          if startsWith sep s
          then rev_string cur :: split_from sep (String.length sep - 1) EmptyString s'
          else split_from sep 0 (String c cur) s'
      end
  end.

(** [s.split(sep)] for a non-empty separator [sep]. *)
Definition split (sep s : string) : list string :=
  split_from sep 0 EmptyString s.

(** [xs.join(sep)] *)
Definition join (sep : string) (xs : list string) : string :=
  String.concat sep xs.

(** [s.slice(b, e)] for [0 <= b <= e]. *)
Definition slice (s : string) (b e : nat) : string :=
  substring b (e - b) s.

(** [xs.filter((value, index) => index % 2 == 0)] *)
Fixpoint even_indexed {A} (xs : list A) : list A :=
  match xs with
  | [] => []
  | x :: [] => [x]
  | x :: _ :: rest => x :: even_indexed rest
  end.

(** Decimal rendering of an array index, as used for property keys. *)
Definition of_nat (n : nat) : string :=
  NilZero.string_of_uint (Nat.to_uint n).

(** White space, for [trim], [parseInt], [Number] and [BigInt] alike: TAB,
    LF, VT, FF, CR and SP, one byte each; U+00A0, two bytes; U+1680,
    U+2000 to U+200A, U+2028, U+2029, U+202F, U+205F, U+3000 and U+FEFF,
    three bytes each. *)
Definition is_space1 (a : ascii) : bool :=
  let x := nat_of_ascii a in
  ((9 <=? x) && (x <=? 13) || (x =? 32))%nat.

Definition is_space2 (a b : ascii) : bool :=
  ((nat_of_ascii a =? 194) && (nat_of_ascii b =? 160))%nat.

Definition is_space3 (a b c : ascii) : bool :=
  let x := nat_of_ascii a in
  let y := nat_of_ascii b in
  let z := nat_of_ascii c in
  ((x =? 225) && (y =? 154) && (z =? 128)
   || (x =? 226) && (y =? 128)
      && ((128 <=? z) && (z <=? 138) || (z =? 168) || (z =? 169) || (z =? 175))
   || (x =? 226) && (y =? 129) && (z =? 159)
   || (x =? 227) && (y =? 128) && (z =? 128)
   || (x =? 239) && (y =? 187) && (z =? 191))%nat.

(** Drop the white space at the head of [s].  With [backwards] the bytes
    of [s] come last first, as when the end of a string is trimmed. *)
Fixpoint drop_space (backwards : bool) (s : string) : string :=
  match s with
  | EmptyString => EmptyString
  | String a s1 =>
      if is_space1 a then drop_space backwards s1
      else
        match s1 with
        | EmptyString => s
        | String b s2 =>
            if (if backwards then is_space2 b a else is_space2 a b)
            then drop_space backwards s2
            else
              match s2 with
              | EmptyString => s
              | String c s3 =>
                  if (if backwards then is_space3 c b a else is_space3 a b c)
                  then drop_space backwards s3
                  else s
              end
        end
  end.

(** [s.trimStart()] *)
Definition trimStart (s : string) : string := drop_space false s.

(** [s.trimEnd()] *)
Definition trimEnd (s : string) : string :=
  rev_string (drop_space true (rev_string s)).

(** [s.trim()] *)
Definition trim (s : string) : string := trimEnd (trimStart s).

End JSString.

Import JSString.

(* ================================================================== *)
(** * JavaScript Numbers

    [Fin z] is the double whose value is the integer [z]; the two zeros are
    not told apart, which neither [>] nor [||] does.  [Dyadic m k] is a
    double that is not an integer: [m / 2^k] with [m] odd. *)

Inductive Number : Type :=
| NaN
| Fin (z : Z)
| Infinity
| NegInfinity
| Dyadic (m : Z) (k : positive).

Module JSNumber.

(** Round a natural number to the nearest integer with a 53-bit
    significand, ties to even: the value of the IEEE-754 double nearest
    to [n]. *)
Definition round_to_double (n : N) : N :=
  if (n <? 2 ^ 53)%N then n
  else
    let e := (N.log2 n - 52)%N in
    let q := N.shiftr n e in
    let r := (n mod 2 ^ e)%N in
    let half := (2 ^ (e - 1))%N in
    let down := (q * 2 ^ e)%N in
    let up := ((q + 1) * 2 ^ e)%N in
    if (r <? half)%N then down
    else if (half <? r)%N then up
    else if N.even q then down else up.

(** The Number value for a mathematical natural number. *)
Definition of_N (n : N) : Number :=
  let r := round_to_double n in
  if (r <? 2 ^ 1024)%N then Fin (Z.of_N r) else Infinity.

(** [-n] *)
Definition neg (n : Number) : Number :=
  match n with
  | NaN => NaN
  | Fin z => Fin (- z)
  | Infinity => NegInfinity
  | NegInfinity => Infinity
  | Dyadic m k => Dyadic (- m) k
  end.

(** The Number value for a mathematical integer. *)
Definition of_Z (z : Z) : Number :=
  if (z <? 0)%Z then neg (of_N (Z.abs_N z)) else of_N (Z.abs_N z).

(** [m / 2^k] in lowest terms. *)
Fixpoint dyadic (m : positive) (k : nat) : Number :=
  match k with
  | O => Fin (Zpos m)
  | S k' =>
      match m with
      | xO m' => dyadic m' k'
      | _ => Dyadic (Zpos m) (Pos.of_succ_nat k')
      end
  end.

(** The Number value for the positive rational [n / d]: the nearest
    double, ties to even, with gradual underflow below [2^-1022] and
    [Infinity] from [2^1024 - 2^970] on. *)
Definition of_ratio (n d : positive) : Number :=
  let n := Zpos n in
  let d := Zpos d in
  let e0 := (Z.log2 n - Z.log2 d)%Z in
  let below :=
    if (0 <=? e0)%Z then (n <? d * 2 ^ e0)%Z else (n * 2 ^ (- e0) <? d)%Z in
  (* [2^e <= n / d < 2^(e + 1)] *)
  let e := if below then (e0 - 1)%Z else e0 in
  (* the weight of the last place of the significand *)
  let q := Z.max (e - 52) (-1074) in
  let num := if (0 <=? q)%Z then n else (n * 2 ^ (- q))%Z in
  let den := if (0 <=? q)%Z then (d * 2 ^ q)%Z else d in
  let m := (num / den)%Z in
  let r := (num mod den)%Z in
  let m :=
    if (2 * r <? den)%Z then m
    else if (den <? 2 * r)%Z then (m + 1)%Z
    else if Z.even m then m else (m + 1)%Z in
  if (0 <=? q)%Z then
    if (m * 2 ^ q <? 2 ^ 1024)%Z then Fin (m * 2 ^ q) else Infinity
  else
    match m with
    | Zpos p => dyadic p (Z.to_nat (- q))
    | _ => Fin 0
    end.

(** The Number value for [d * 10^e]. *)
Definition of_decimal (d : N) (e : Z) : Number :=
  match d with
  | N0 => Fin 0
  | Npos p =>
      if (0 <=? e)%Z then of_N (Npos p * 10 ^ Z.to_N e)
      else of_ratio p (10 ^ Z.to_pos (- e))
  end.

(** [a > b] on Numbers. *)
Definition gt (a b : Number) : bool :=
  match a, b with
  | NaN, _ | _, NaN => false
  | Fin x, Fin y => (y <? x)%Z
  | Fin x, Dyadic m k => (m <? x * 2 ^ Zpos k)%Z
  | Dyadic m k, Fin y => (y * 2 ^ Zpos k <? m)%Z
  | Dyadic m k, Dyadic m' k' => (m' * 2 ^ Zpos k <? m * 2 ^ Zpos k')%Z
  | _, Infinity => false
  | NegInfinity, _ => false
  | Infinity, _ => true
  | _, NegInfinity => true
  end.

(** Truthiness of a Number, as in [n || 0]. *)
Definition truthy (n : Number) : bool :=
  match n with
  | NaN => false
  | Fin z => negb (z =? 0)%Z
  | _ => true
  end.

(** A Number that really is a double: an integer whose magnitude rounds
    to itself, or an odd multiple of a power of two no smaller than
    [2^-1074] with a significand of at most 53 bits. *)
Definition is_double (n : Number) : bool :=
  match n with
  | Fin z => (round_to_double (Z.abs_N z) =? Z.abs_N z)%N && (Z.abs z <? 2 ^ 1024)%Z
  | Dyadic m k => Z.odd m && (Z.abs m <? 2 ^ 53)%Z && (k <=? 1074)%positive
  | _ => true
  end.

End JSNumber.

(* ================================================================== *)
(** * Numeric literals in strings

    The lexical grammar [Number(s)] and [BigInt(s)] share. *)

Module Literal.

(** The value of [c] as a digit of the given radix (at most 16). *)
Definition digit (radix : N) (c : ascii) : option N :=
  let x := N_of_ascii c in
  let v :=
    if ((48 <=? x) && (x <=? 57))%N then Some (x - 48)%N
    else if ((97 <=? x) && (x <=? 102))%N then Some (x - 87)%N
    else if ((65 <=? x) && (x <=? 70))%N then Some (x - 55)%N
    else None in
  match v with
  | Some d => if (d <? radix)%N then Some d else None
  | None => None
  end.

(** The longest run of digits at the head of [s], read after the digits
    already worth [value]: the value, the number of digits in the run, and
    what follows it. *)
Fixpoint digits_from (radix : N) (s : string) (value : N) (count : nat)
  : N * nat * string :=
  match s with
  | EmptyString => (value, count, s)
  | String c s' =>
      match digit radix c with
      | Some d => digits_from radix s' (value * radix + d)%N (S count)
      | None => (value, count, s)
      end
  end.

Definition digits (radix : N) (s : string) : N * nat * string :=
  digits_from radix s 0%N 0.

(** A string that consists of one or more digits. *)
Definition numeral (radix : N) (s : string) : option N :=
  match digits radix s with
  | (v, S _, EmptyString) => Some v
  | _ => None
  end.

(** The prefix [0x], [0o] or [0b] of a literal in another radix, in
    either case: the radix, and what follows the prefix. *)
Definition radix_prefix (s : string) : option (N * string) :=
  match s with
  | String "0" (String c rest) =>
      if (Ascii.eqb c "x" || Ascii.eqb c "X")%bool then Some (16%N, rest)
      else if (Ascii.eqb c "o" || Ascii.eqb c "O")%bool then Some (8%N, rest)
      else if (Ascii.eqb c "b" || Ascii.eqb c "B")%bool then Some (2%N, rest)
      else None
  | _ => None
  end.

(** An optional sign: whether it is [-], and what follows it. *)
Definition signed (s : string) : bool * string :=
  match s with
  | String "-" rest => (true, rest)
  | String "+" rest => (false, rest)
  | _ => (false, s)
  end.

(** An unsigned decimal literal, [digits], [digits.digits], [.digits],
    each with an optional exponent [e+digits]: the pair [(d, e)] whose
    value is [d * 10^e]. *)
Definition decimal (s : string) : option (N * Z) :=
  let '(int, int_count, rest) := digits 10 s in
  let '(mantissa, frac_count, rest) :=
    match rest with
    | String "." rest' => digits_from 10 rest' int 0
    | _ => (int, 0, rest)
    end in
  match int_count + frac_count with
  | O => None
  | S _ =>
      match rest with
      | EmptyString => Some (mantissa, (- Z.of_nat frac_count)%Z)
      | String c rest' =>
          if (Ascii.eqb c "e" || Ascii.eqb c "E")%bool then
            let '(negative, body) := signed rest' in
            match numeral 10 body with
            | Some x =>
                let exponent := if negative then (- Z.of_N x)%Z else Z.of_N x in
                Some (mantissa, (exponent - Z.of_nat frac_count)%Z)
            | None => None
            end
          else None
      end
  end.

End Literal.

(* ================================================================== *)
(** * BigInt and the timestamp decoder (lines 515-522) *)

Module BigInt.

(** [BigInt(s)]: white space around the literal is dropped; nothing is
    [0n]; a [0x], [0o] or [0b] literal, or a run of decimal digits with an
    optional sign, is its value; any other string raises [SyntaxError]. *)
Definition of_string (s : string) : Result Z :=
  let t := trim s in
  match t with
  | EmptyString => ok 0%Z
  | _ =>
      match Literal.radix_prefix t with
      | Some (radix, body) =>
          match Literal.numeral radix body with
          | Some v => ok (Z.of_N v)
          | None => raise SyntaxError
          end
      | None =>
          let '(negative, body) := Literal.signed t in
          match Literal.numeral 10 body with
          | Some v => ok (if negative then (- Z.of_N v)%Z else Z.of_N v)
          | None => raise SyntaxError
          end
      end
  end.

Fixpoint pos_toString2 (p : positive) (acc : string) : string :=
  match p with
  | xH => String "1" acc
  | xO q => pos_toString2 q (String "0" acc)
  | xI q => pos_toString2 q (String "1" acc)
  end.

(** [x.toString(2)] *)
Definition toString2 (x : Z) : string :=
  match x with
  | Z0 => "0"
  | Zpos p => pos_toString2 p EmptyString
  | Zneg p => String "-" (pos_toString2 p EmptyString)
  end.

End BigInt.

(** The longest prefix of binary digits of [s], read as a number; [None]
    when [s] does not start with a binary digit. *)
Fixpoint binary_prefix (s : string) (acc : option N) : option N :=
  let a := match acc with Some v => v | None => 0%N end in
  match s with
  | String "0" s' => binary_prefix s' (Some (2 * a)%N)
  | String "1" s' => binary_prefix s' (Some (2 * a + 1)%N)
  | _ => acc
  end.

(** [parseInt(s, 2)]: leading white space is skipped, a sign is read, and
    the longest run of binary digits that follows is the magnitude; [NaN]
    when there is no such digit. *)
Definition parseInt2 (s : string) : Number :=
  let '(negative, body) := Literal.signed (trimStart s) in
  match binary_prefix body None with
  | Some v => if negative then JSNumber.neg (JSNumber.of_N v) else JSNumber.of_N v
  | None => NaN
  end.

(** [extractUnixTimestamp(postId)], lines 515-522. *)
Definition extractUnixTimestamp (postId : string) : Result Number :=
  rbind (BigInt.of_string postId) (fun big =>
  let asBinary := BigInt.toString2 big in
  let first41Chars := slice asBinary 0 41 in
  let timestamp := parseInt2 first41Chars in
  ok timestamp).

(** What the specification calls "the integer value of the leading 41 bits
    of the binary representation" of [x]: drop all but the 41 most
    significant bits. *)
Definition spec_leading41 (x : N) : N :=
  N.shiftr x (N.size x - 41).

(* ================================================================== *)
(** * Identifier values

    A post identifier is the string cut out of the [data-urn] attribute, or
    [null] when the post carries none (lines 596-610).  A comment identifier
    is the string cut out of [data-id], or the Number [0] supplied by
    [|| 0] (line 702). *)

Inductive IdValue : Type :=
| IdStr (s : string)
| IdZero
| IdNull.

Module Id.

(** [StringToNumber], the conversion [>] applies to a string operand:
    white space around the literal is dropped; nothing is [0]; a [0x],
    [0o] or [0b] literal is its value; otherwise an optional sign is
    followed by [Infinity] or by a decimal literal, which may have a
    fraction and an exponent; the value is rounded to the nearest double.
    Any other string is [NaN]. *)
Definition StringToNumber (s : string) : Number :=
  let t := trim s in
  match t with
  | EmptyString => Fin 0
  | _ =>
      match Literal.radix_prefix t with
      | Some (radix, body) =>
          match Literal.numeral radix body with
          | Some v => JSNumber.of_N v
          | None => NaN
          end
      | None =>
          let '(negative, body) := Literal.signed t in
          let magnitude :=
            if String.eqb body "Infinity" then Infinity
            else
              match Literal.decimal body with
              | Some (d, e) => JSNumber.of_decimal d e
              | None => NaN
              end in
          if negative then JSNumber.neg magnitude else magnitude
      end
  end.

(** [ToNumber], the conversion applied by [>] to a non-Number operand. *)
Definition ToNumber (v : IdValue) : Number :=
  match v with
  | IdStr s => StringToNumber s
  | IdZero => Fin 0
  | IdNull => Fin 0
  end.

(** Interpolation into a template literal. *)
Definition ToString (v : IdValue) : string :=
  match v with
  | IdStr s => s
  | IdZero => "0"
  | IdNull => "null"
  end.

(** [BigInt(v)] *)
Definition ToBigInt (v : IdValue) : Result Z :=
  match v with
  | IdStr s => BigInt.of_string s
  | IdZero => ok 0%Z
  | IdNull => raise TypeError
  end.

(** The exact natural number an identifier denotes, when it denotes one:
    what [BigInt] reads, unless that is negative. *)
Definition exact (v : IdValue) : option N :=
  match ToBigInt v with
  | inr z => if (0 <=? z)%Z then Some (Z.to_N z) else None
  | inl _ => None
  end.

(** [v || 0] for the string taken from [data-id]. *)
Definition string_or_zero (s : string) : IdValue :=
  match s with
  | EmptyString => IdZero
  | _ => IdStr s
  end.

End Id.

(** [post.postId > lastPostID] and [comment.commentId > lastCommentID]. *)
Definition id_gt (id : IdValue) (watermark : Number) : bool :=
  JSNumber.gt (Id.ToNumber id) watermark.

(* ================================================================== *)
(** * Records (lines 9-109 and the object literals of the extractors) *)

Module Location.
Record t := mk { city : option string; province : option string; country : option string }.
End Location.

Module RawProfile.
Record t := mk {
  fullName : string; pronouns : string; title : string; location : string;
  about : string; photo : string; url : string }.
End RawProfile.

Module Profile.
Record t := mk {
  fullName : option string; pronouns : option string; title : option string;
  location : option Location.t; about : option string; photo : string;
  url : string }.
End Profile.

Module Experience.
Record t := mk {
  title : string; company : option string; startDate : option string;
  endDate : option string; description : string }.
End Experience.

Module RawEducation.
Record t := mk {
  schoolName : option string; degreeName : string;
  startDate : option string; endDate : option string }.
End RawEducation.

Module Education.
Record t := mk {
  schoolName : option string; degreeName : option string;
  startDate : option string; endDate : option string;
  durationInDays : option Number }.
End Education.

Module RawLicense.
Record t := mk { licenseName : option string; licenseBody : string }.
End RawLicense.

Module License.
Record t := mk { licenseName : option string; licenseBody : option string }.
End License.

Module RawLanguage.
Record t := mk { languageName : option string; languageLevel : option string }.
End RawLanguage.

Module Language.
Record t := mk { languageName : option string; languageLevel : option string }.
End Language.

Module Skill.
Record t := mk { skillName : option string }.
End Skill.

Module Volunteering.
Record t := mk {
  title : string; company : option string; startDate : option string;
  endDate : option string; description : string }.
End Volunteering.

Module Honor.
Record t := mk {
  title : string; company : option string; date : option string;
  description : string }.
End Honor.

Module PostData.
Record t := mk {
  postId : IdValue; postText : option string; postDateDetails : option string;
  postLikes : Number; postComments : option Number; postShares : option Number;
  postUrl : string }.
End PostData.

Module CommentData.
Record t := mk {
  commentId : IdValue; commentPostId : IdValue; commentText : string;
  commentDateDetails : string; commentUrl : string }.
End CommentData.

(** What the profile-page callback (lines 1022-1109) hands back. *)
Module RawProfilePage.
Record t := mk {
  raw_profile : RawProfile.t;
  raw_education : list RawEducation.t;
  raw_license : list RawLicense.t;
  raw_language : list RawLanguage.t }.
End RawProfilePage.

(* ================================================================== *)
(** * The rendered page, as the callbacks read it *)

(** One [.profile-creator-shared-feed-update__container] element.  The three
    counters hold what [parseInt] made of the counter texts ([NaN] when the
    element is missing); their decimal parsing is not modelled. *)
Module PostElement.
Record t := mk {
  data_urn : option string;      (* [querySelector('[data-urn]')?.dataset?.urn] *)
  break_words : option string;   (* [querySelector('.break-words')?.textContent] *)
  reactions : Number;
  comments : Number;
  reposts : Number }.
End PostElement.

(** The [.comments-post-meta__name-text] element of a comment. *)
Module AuthorSpan.
Record t := mk {
  aria_hidden : option string;   (* [innerText] of [span[aria-hidden="true"]] *)
  innerText : string }.
End AuthorSpan.

(** One [.comments-comment-item] element. *)
Module CommentElement.
Record t := mk {
  author_span : option AuthorSpan.t;
  main_content : option string;  (* [.comments-comment-item__main-content] *)
  data_id : option string }.     (* [getAttribute('data-id')] *)
End CommentElement.

(* ================================================================== *)
(** * The [page.evaluate] callbacks *)

(** A [for] loop over the matched elements that pushes onto [data]: [step]
    sees what was pushed so far and either throws, skips the element, or
    yields the record to push. *)
Fixpoint for_push {E D} (step : list D -> E -> Result (option D))
    (items : list E) (data : list D) : Result (list D) :=
  match items with
  | [] => ok data
  | item :: rest =>
      rbind (step data item) (fun pushed =>
      match pushed with
      | Some d => for_push step rest (data ++ [d])%list
      | None => for_push step rest data
      end)
  end.

Definition middle_dot : string :=
  " " ++ String "194"%char (String "183"%char " ").

Definition empty_state_marker : string := "Nothing to see".

(** [innerText.split('\n').filter((value, index) => index % 2 == 0)] *)
Definition fields_of (innerText : string) : list string :=
  even_indexed (split nl innerText).

(** Lines 769-789: one [.pvs-list__paged-list-item] of the experience page. *)
Definition experience_of (innerText : string) : Result (option Experience.t) :=
  let exps := fields_of innerText in
  rbind (defined (nth_error exps 0)) (fun exps0 =>
  if negb (includes empty_state_marker exps0) then
    let title := exps0 in
    let company := nth_error exps 1 in
    rbind (defined (nth_error exps 2)) (fun dates =>
    rbind (defined (nth_error (split middle_dot dates) 0)) (fun range =>
    let startDate := nth_error (split " - " range) 0 in
    let endDate := nth_error (split " - " range) 1 in
    let description := join ", " (skipn 3 exps) in
    ok (Some (Experience.mk title company startDate endDate description))))
  else ok None).

Definition experiences_callback (items : list string) : Result (list Experience.t) :=
  for_push (fun _ => experience_of) items [].

(** Lines 835-843: one [[data-field="skill_page_skill_topic"]] element. *)
Definition skill_of (innerText : string) : Result (option Skill.t) :=
  let skillName := nth_error (split nl innerText) 0 in
  match skillName with
  | Some EmptyString => ok None
  | _ => ok (Some (Skill.mk skillName))
  end.

Definition skills_callback (items : list string) : Result (list Skill.t) :=
  for_push (fun _ => skill_of) items [].

(** Lines 885-905: one list item of the volunteering page. *)
Definition volunteering_of (innerText : string) : Result (option Volunteering.t) :=
  let vols := fields_of innerText in
  rbind (defined (nth_error vols 0)) (fun vols0 =>
  if negb (includes empty_state_marker vols0) then
    let title := vols0 in
    let company := nth_error vols 1 in
    rbind (defined (nth_error vols 2)) (fun dates =>
    rbind (defined (nth_error (split middle_dot dates) 0)) (fun range =>
    let startDate := nth_error (split " - " range) 0 in
    let endDate := nth_error (split " - " range) 1 in
    let description := join ", " (skipn 3 vols) in
    ok (Some (Volunteering.mk title company startDate endDate description))))
  else ok None).

Definition volunteerings_callback (items : list string) : Result (list Volunteering.t) :=
  for_push (fun _ => volunteering_of) items [].

(** Lines 947-964: one list item of the honors page. *)
Definition honor_of (innerText : string) : Result (option Honor.t) :=
  let hons := fields_of innerText in
  rbind (defined (nth_error hons 0)) (fun hons0 =>
  if negb (includes empty_state_marker hons0) then
    let title := hons0 in
    rbind (defined (nth_error hons 1)) (fun hons1 =>
    let company := nth_error (split middle_dot hons1) 0 in
    let date := nth_error (split middle_dot hons1) 1 in
    let description := join ", " (skipn 2 hons) in
    ok (Some (Honor.mk title company date description)))
  else ok None).

Definition honors_callback (items : list string) : Result (list Honor.t) :=
  for_push (fun _ => honor_of) items [].

(** [new Date(timestamp).toUTCString() + " (UTC)"]; [toUTCString] is the
    builtin rendering, taken from the environment. *)
Definition humanDate (toUTCString : Number -> string) (timestamp : Number) : string :=
  toUTCString timestamp ++ " (UTC)".

(** [n || 0] and [n || null] on the parsed counters. *)
Definition or_zero (n : Number) : Number :=
  if JSNumber.truthy n then n else Fin 0.

Definition or_null (n : Number) : option Number :=
  if JSNumber.truthy n then Some n else None.

(** [s || null] on an optional string. *)
Definition str_or_null (s : option string) : option string :=
  match s with
  | Some EmptyString => None
  | _ => s
  end.

(** Lines 592-637: one post container. *)
Definition post_of (toUTCString : Number -> string) (post : PostElement.t)
  : Result (option PostData.t) :=
  let postIdDict := str_or_null (PostElement.data_urn post) in
  rbind
    match postIdDict with
    | Some urn =>
        rbind (defined (nth_error (split ":" urn) 3)) (fun postId =>
        rbind (BigInt.of_string postId) (fun big =>
        let asBinary := BigInt.toString2 big in
        let first41Chars := slice asBinary 0 41 in
        let timestamp := parseInt2 first41Chars in
        ok (IdStr postId, Some (humanDate toUTCString timestamp))))
    | None => ok (IdNull, None)
    end
    (fun '(postId, postDateDetails) =>
  let postUrl := "https://www.linkedin.com/feed/update/urn:li:activity:" ++ Id.ToString postId in
  let postText := str_or_null (PostElement.break_words post) in
  let postLikes := or_zero (PostElement.reactions post) in
  let postComments := or_null (PostElement.comments post) in
  let postShares := or_null (PostElement.reposts post) in
  ok (Some (PostData.mk postId postText postDateDetails postLikes postComments
              postShares postUrl))).

Definition posts_callback (toUTCString : Number -> string)
    (items : list PostElement.t) : Result (list PostData.t) :=
  for_push (fun _ => post_of toUTCString) items [].

(** [document.title.split(" | ")[1]] *)
Definition profile_owner_of (document_title : string) : option string :=
  nth_error (split " | " document_title) 1.

(** The author shown on a comment (lines 693-698). *)
Definition author_of (span : AuthorSpan.t) : string :=
  match AuthorSpan.aria_hidden span with
  | Some hidden => hidden
  | None => AuthorSpan.innerText span
  end.

(** [author == profile_owner] *)
Definition is_owner (profile_owner : option string) (author : string) : bool :=
  match profile_owner with
  | Some owner => String.eqb author owner
  | None => false
  end.

(** Lines 702-716: the record built for a comment that is kept. *)
Definition commentData_of (toUTCString : Number -> string)
    (comment : CommentElement.t) (commentText : string) : Result CommentData.t :=
  rbind
    match CommentElement.data_id comment with
    | None => ok (IdZero, IdZero)
    | Some data_id =>
        rbind (defined (nth_error (split ":" data_id) 4)) (fun part =>
        rbind (defined (nth_error (split "," part) 1)) (fun tail =>
        rbind (defined (nth_error (split ")" tail) 0)) (fun cid =>
        rbind (defined (nth_error (split "," part) 0)) (fun pid =>
        ok (Id.string_or_zero cid, Id.string_or_zero pid)))))
    end
    (fun '(commentId, commentPostId) =>
  rbind (Id.ToBigInt commentId) (fun big =>
  let asBinary := BigInt.toString2 big in
  let first41Chars := slice asBinary 0 41 in
  let timestamp := parseInt2 first41Chars in
  let humanDateFormat := humanDate toUTCString timestamp in
  let p := Id.ToString commentPostId in
  let c := Id.ToString commentId in
  ok (CommentData.mk commentId commentPostId commentText humanDateFormat
        ("https://www.linkedin.com/feed/update/urn:li:activity:" ++ p
         ++ "/?commentUrn=urn:li:comment:(activity:" ++ p ++ "," ++ c
         ++ ")&dashCommentUrn=urn:li:fsd_comment:(" ++ c
         ++ ",urn:li:activity:" ++ p ++ ")")))).

(** Lines 692-720: one iteration of the comment loop. *)
Definition comment_step (toUTCString : Number -> string)
    (profile_owner : option string)
    (profile_owner_comments : list CommentData.t) (comment : CommentElement.t)
  : Result (option CommentData.t) :=
  rbind (defined (CommentElement.author_span comment)) (fun author_span =>
  let author := author_of author_span in
  rbind (defined (CommentElement.main_content comment)) (fun commentText =>
  if is_owner profile_owner author then
    if negb (existsb (String.eqb commentText)
               (map CommentData.commentText profile_owner_comments))
    then rbind (commentData_of toUTCString comment commentText) (fun d => ok (Some d))
    else ok None
  else ok None)).

Definition comments_callback (toUTCString : Number -> string)
    (document_title : string) (items : list CommentElement.t)
  : Result (list CommentData.t) :=
  for_push (comment_step toUTCString (profile_owner_of document_title)) items [].

(* ================================================================== *)
(** * The incremental-sync filter (lines 642-644 and 724-726) *)

(** [rawUserPostData.filter((post) => post.postId > lastPostID)] *)
Definition filter_posts (rawUserPostData : list PostData.t) (lastPostID : Number)
  : list PostData.t :=
  filter (fun post => id_gt (PostData.postId post) lastPostID) rawUserPostData.

(** [rawComment.filter((comment) => comment.commentId > lastCommentID)] *)
Definition filter_comments (rawComment : list CommentData.t) (lastCommentID : Number)
  : list CommentData.t :=
  filter (fun comment => id_gt (CommentData.commentId comment) lastCommentID) rawComment.

(** The comparison the specification asks for: the identifier, read as an
    exact integer, is strictly greater than the watermark. *)
Definition spec_newer (id : IdValue) (watermark : Z) : bool :=
  match Id.exact id with
  | Some n => (watermark <? Z.of_N n)%Z
  | None => false
  end.

(** [interface ScraperHistoryMemory] *)
Module ScraperHistoryMemory.
Record t := mk { lastPostID : Number; lastCommentID : Number }.
End ScraperHistoryMemory.

(** [options?.lastPostID || 0] and [options?.lastCommentID || 0], lines 985-986. *)
Definition lastPostID_of (options : option ScraperHistoryMemory.t) : Number :=
  match options with
  | Some o => or_zero (ScraperHistoryMemory.lastPostID o)
  | None => Fin 0
  end.

Definition lastCommentID_of (options : option ScraperHistoryMemory.t) : Number :=
  match options with
  | Some o => or_zero (ScraperHistoryMemory.lastCommentID o)
  | None => Fin 0
  end.

(* ================================================================== *)
(** * Values returned by the extractors *)

(** An extractor hands back either a true array or the plain object that
    [{...array}] builds, whose keys are the indices. *)
Inductive Listing (A : Type) : Type :=
| ArrayOf (items : list A)
| IndexedObject (fields : list (string * A)).

Arguments ArrayOf {A} items.
Arguments IndexedObject {A} fields.

(** [{...xs}] for an array [xs]. *)
Definition spread {A} (xs : list A) : Listing A :=
  IndexedObject (combine (map JSString.of_nat (seq 0 (List.length xs))) xs).

Definition is_array {A} (l : Listing A) : bool :=
  match l with
  | ArrayOf _ => true
  | IndexedObject _ => false
  end.

(** The value of one property of the object [run] returns. *)
Inductive SectionValue : Type :=
| VProfile (p : Profile.t)
| VExperiences (l : Listing Experience.t)
| VEducation (l : Listing Education.t)
| VSkills (l : Listing Skill.t)
| VVolunteerings (l : Listing Volunteering.t)
| VPosts (l : Listing PostData.t)
| VComments (l : Listing CommentData.t).

(** The object literal of lines 1208-1216: property names with their values. *)
Definition RunResult : Type := list (string * SectionValue).

Definition property (key : string) (r : RunResult) : option SectionValue :=
  option_map snd (find (fun kv => String.eqb key (fst kv)) r).

Definition keys (r : RunResult) : list string := map fst r.

(** A property holding a true array. *)
Definition holds_array (v : SectionValue) : bool :=
  match v with
  | VProfile _ => false
  | VExperiences l => is_array l
  | VEducation l => is_array l
  | VSkills l => is_array l
  | VVolunteerings l => is_array l
  | VPosts l => is_array l
  | VComments l => is_array l
  end.

(* ================================================================== *)
(** * The environment of a run *)

Inductive SectionId : Type :=
| SProfile | SExperiences | SSkills | SVolunteerings | SHonors | SPosts | SComments.

(** The Puppeteer calls a section makes, each of which may throw for
    reasons of its own (a time-out, a lost connection). *)
Inductive Call : Type :=
| CNewPage          (* [browser.newPage()] *)
| CFirstPageClose   (* [firstPage.close()] in [createPage] *)
| CPageSetup        (* CDP session, interception, user agent, viewport, cookie *)
| CGoto             (* [page.goto(url)] *)
| CWait             (* first [page.waitForTimeout(5000)] *)
| CAutoScroll       (* [autoScroll(page)] *)
| CSettle           (* second [page.waitForTimeout(5000)] *)
| CEvaluate         (* [page.evaluate(callback)], the transport *)
| CPageClose.       (* [page.close()] at the end of [run] *)

Record Env := mkEnv {
  (* Puppeteer: which call throws, and what *)
  fault : SectionId -> Call -> option Exn;
  (* the rendered pages *)
  profile_page : RawProfilePage.t;
  experience_items : list string;
  skill_items : list string;
  volunteering_items : list string;
  honor_items : list string;
  post_items : list PostElement.t;
  comments_title : string;
  comment_items : list CommentElement.t;
  (* helpers imported from ./utils *)
  getCleanText : option string -> option string;
  getLocationFromText : string -> option Location.t;
  formatDate : option string -> option string;
  getDurationInDays : option string -> option string -> option Number;
  (* Date.prototype.toUTCString *)
  toUTCString : Number -> string
}.

(* ================================================================== *)
(** * The scraper object and its browser

    [browser_open] and [process_alive] can only be cleared by
    [browser.close()] and [treeKill], which the source calls nowhere but in
    the part of [close] that follows its first [return]. *)

Record Scraper := mkScraper {
  keepAlive : bool;                   (* [this.options.keepAlive] *)
  browser : bool;                     (* [this.browser] is not [null] *)
  pages : list nat;                   (* [browser.pages()], oldest first *)
  next_page : nat;                    (* the handle [newPage] returns next *)
  browser_open : bool;                (* [browser.close()] has not run *)
  process_alive : bool;               (* the browser process was not killed *)
  navigations : list (nat * string)   (* [page.goto] calls, oldest first *)
}.

(** Asynchronous methods: a state transformer that returns or throws. *)
Definition M (A : Type) : Type := Scraper -> Result A * Scraper.

Definition ret {A} (a : A) : M A := fun s => (ok a, s).
Definition throw {A} (e : Exn) : M A := fun s => (raise e, s).
Definition lift {A} (r : Result A) : M A := fun s => (r, s).

Definition bind {A B} (m : M A) (k : A -> M B) : M B :=
  fun s =>
    match m s with
    | (inl e, s') => (inl e, s')
    | (inr a, s') => k a s'
    end.

Definition try_catch {A} (body : M A) (handler : Exn -> M A) : M A :=
  fun s =>
    match body s with
    | (inl e, s') => handler e s'
    | (inr a, s') => (inr a, s')
    end.

Definition get : M Scraper := fun s => (ok s, s).

Declare Scope async_scope.
Delimit Scope async_scope with async.
Notation "x <- c1 ;; c2" := (bind c1 (fun x => c2))
  (at level 61, c1 at next level, right associativity) : async_scope.
Notation "c1 ;; c2" := (bind c1 (fun _ => c2))
  (at level 61, right associativity) : async_scope.
Local Open Scope async_scope.

Module Puppeteer.

(** A call that only succeeds or throws. *)
Definition call (env : Env) (sec : SectionId) (c : Call) : M unit :=
  fun s =>
    match fault env sec c with
    | Some e => (raise e, s)
    | None => (ok tt, s)
    end.

(** Whether a tab is still listed by [browser.pages()]. *)
Definition is_open (page : nat) (s : Scraper) : bool :=
  existsb (Nat.eqb page) (pages s).

(** A call that talks to a tab: it throws when the tab has been closed,
    and otherwise succeeds or throws as the environment says. *)
Definition on_page (env : Env) (sec : SectionId) (c : Call) (page : nat) : M unit :=
  fun s =>
    if is_open page s then call env sec c s
    else (raise TargetClosed, s).

(** [browser.newPage()]: a fresh tab, listed last. *)
Definition newPage (env : Env) (sec : SectionId) : M nat :=
  call env sec CNewPage ;;
  fun s =>
    (ok (next_page s),
     mkScraper (keepAlive s) (browser s) (pages s ++ [next_page s])%list
       (S (next_page s)) (browser_open s) (process_alive s) (navigations s)).

(** [page.close()]: the tab leaves [browser.pages()]. *)
Definition closePage (env : Env) (sec : SectionId) (c : Call) (page : nat) : M unit :=
  on_page env sec c page ;;
  fun s =>
    (ok tt,
     mkScraper (keepAlive s) (browser s)
       (filter (fun p => negb (Nat.eqb p page)) (pages s))
       (next_page s) (browser_open s) (process_alive s) (navigations s)).

(** [page.goto(url)]: on an open tab the request is recorded, then
    succeeds or throws. *)
Definition goto (env : Env) (sec : SectionId) (page : nat) (url : string) : M unit :=
  fun s =>
    if is_open page s then
      call env sec CGoto
        (mkScraper (keepAlive s) (browser s) (pages s) (next_page s)
           (browser_open s) (process_alive s) (navigations s ++ [(page, url)])%list)
    else (raise TargetClosed, s).

(** [page.waitForTimeout(ms)]: a timer, which asks nothing of the tab. *)
Definition waitForTimeout (env : Env) (sec : SectionId) (c : Call) : M unit :=
  call env sec c.

(** [page.evaluate(callback)]: the transport may throw, and so may the
    callback. *)
Definition evaluate {A} (env : Env) (sec : SectionId) (page : nat)
    (callback : Result A) : M A :=
  on_page env sec CEvaluate page ;;
  lift callback.

End Puppeteer.

(** [autoScroll(page)], lines 161-178, as a call of its own: one
    [page.evaluate]. *)
Definition autoScroll_page (env : Env) (sec : SectionId) (page : nat) : M unit :=
  Puppeteer.on_page env sec CAutoScroll page.

(* ================================================================== *)
(** * The session controller *)

(** [close(page?)], lines 432-482.  The method returns the promise built at
    lines 434-437, which resolves at once; the promise built at lines
    439-480 (close the page, close the browser, kill the process) comes
    after that [return] and is never constructed. *)
Definition close (page : option nat) : M unit :=
  ret tt.

(** [createPage()], lines 304-390. *)
Definition createPage (env : Env) (sec : SectionId) : M nat :=
  s <- get ;;
  if negb (browser s) then throw (Error "Browser not set.")
  else
    try_catch
      (page <- Puppeteer.newPage env sec ;;
       s' <- get ;;
       firstPage <- lift (defined (nth_error (pages s') 0)) ;;
       Puppeteer.closePage env sec CFirstPageClose firstPage ;;
       Puppeteer.on_page env sec CPageSetup page ;;
       ret page)
      (fun err =>
         close None ;;
         throw err).

(** [getPosts(scraperSessionId, profileUrl, lastPostID)], lines 539-662. *)
Definition getPosts (env : Env) (profileUrl : string) (lastPostID : Number)
  : M (Listing PostData.t) :=
  try_catch
    (page <- createPage env SPosts ;;
     Puppeteer.goto env SPosts page (profileUrl ++ "recent-activity/all/") ;;
     Puppeteer.waitForTimeout env SPosts CWait ;;
     autoScroll_page env SPosts page ;;
     rawUserPostData <- Puppeteer.evaluate env SPosts page
                          (posts_callback (toUTCString env) (post_items env)) ;;
     let filteredUserPostData := filter_posts rawUserPostData lastPostID in
     let userPostData := spread filteredUserPostData in
     ret userPostData)
    (fun err => throw err).

(** [getComments(scraperSessionId, profileUrl, lastCommentID)], lines 664-742. *)
Definition getComments (env : Env) (profileUrl : string) (lastCommentID : Number)
  : M (Listing CommentData.t) :=
  try_catch
    (page <- createPage env SComments ;;
     Puppeteer.goto env SComments page (profileUrl ++ "/recent-activity/comments/") ;;
     Puppeteer.waitForTimeout env SComments CWait ;;
     autoScroll_page env SComments page ;;
     Puppeteer.waitForTimeout env SComments CSettle ;;
     rawComment <- Puppeteer.evaluate env SComments page
                     (comments_callback (toUTCString env) (comments_title env)
                        (comment_items env)) ;;
     let filteredUserCommentData := filter_comments rawComment lastCommentID in
     let userCommentData := spread filteredUserCommentData in
     ret userCommentData)
    (fun err => throw err).

(** [getExperiences(scraperSessionId, profileUrl)], lines 744-809. *)
Definition getExperiences (env : Env) (profileUrl : string)
  : M (Listing Experience.t) :=
  try_catch
    (page <- createPage env SExperiences ;;
     Puppeteer.goto env SExperiences page (profileUrl ++ "details/experience/") ;;
     Puppeteer.waitForTimeout env SExperiences CWait ;;
     autoScroll_page env SExperiences page ;;
     Puppeteer.waitForTimeout env SExperiences CSettle ;;
     rawExperiences <- Puppeteer.evaluate env SExperiences page
                         (experiences_callback (experience_items env)) ;;
     let experiences := spread rawExperiences in
     ret experiences)
    (fun err => throw err).

(** [getSkills(scraperSessionId, profileUrl)], lines 811-857. *)
Definition getSkills (env : Env) (profileUrl : string) : M (Listing Skill.t) :=
  try_catch
    (page <- createPage env SSkills ;;
     Puppeteer.goto env SSkills page (profileUrl ++ "details/skills/") ;;
     Puppeteer.waitForTimeout env SSkills CWait ;;
     autoScroll_page env SSkills page ;;
     Puppeteer.waitForTimeout env SSkills CSettle ;;
     skills <- Puppeteer.evaluate env SSkills page (skills_callback (skill_items env)) ;;
     ret (ArrayOf skills))
    (fun err => throw err).

(** [getVolunteerings(scraperSessionId, profileUrl)], lines 860-919. *)
Definition getVolunteerings (env : Env) (profileUrl : string)
  : M (Listing Volunteering.t) :=
  try_catch
    (page <- createPage env SVolunteerings ;;
     Puppeteer.goto env SVolunteerings page
       (profileUrl ++ "details/volunteering-experiences/") ;;
     Puppeteer.waitForTimeout env SVolunteerings CWait ;;
     autoScroll_page env SVolunteerings page ;;
     Puppeteer.waitForTimeout env SVolunteerings CSettle ;;
     volunteerings <- Puppeteer.evaluate env SVolunteerings page
                        (volunteerings_callback (volunteering_items env)) ;;
     ret (ArrayOf volunteerings))
    (fun err => throw err).

(** [getHonors(scraperSessionId, profileUrl)], lines 922-978. *)
Definition getHonors (env : Env) (profileUrl : string) : M (Listing Honor.t) :=
  try_catch
    (page <- createPage env SHonors ;;
     Puppeteer.goto env SHonors page (profileUrl ++ "details/honors/") ;;
     Puppeteer.waitForTimeout env SHonors CWait ;;
     autoScroll_page env SHonors page ;;
     Puppeteer.waitForTimeout env SHonors CSettle ;;
     honors <- Puppeteer.evaluate env SHonors page (honors_callback (honor_items env)) ;;
     ret (ArrayOf honors))
    (fun err => throw err).

(** Lines 1122-1130. *)
Definition userProfile_of (env : Env) (rawUserProfileData : RawProfile.t) : Profile.t :=
  Profile.mk
    (getCleanText env (Some (RawProfile.fullName rawUserProfileData)))
    (getCleanText env (Some (RawProfile.pronouns rawUserProfileData)))
    (getCleanText env (Some (RawProfile.title rawUserProfileData)))
    (match RawProfile.location rawUserProfileData with
     | EmptyString => None
     | location => getLocationFromText env location
     end)
    (getCleanText env (Some (RawProfile.about rawUserProfileData)))
    (RawProfile.photo rawUserProfileData)
    (RawProfile.url rawUserProfileData).

(** Lines 1134-1146. *)
Definition education_of (env : Env) (rawEducation : RawEducation.t) : Education.t :=
  let startDate := formatDate env (RawEducation.startDate rawEducation) in
  let endDate := formatDate env (RawEducation.endDate rawEducation) in
  Education.mk
    (getCleanText env (RawEducation.schoolName rawEducation))
    (getCleanText env (Some (RawEducation.degreeName rawEducation)))
    startDate endDate
    (getDurationInDays env startDate endDate).

(** Lines 1149-1155. *)
Definition license_of (env : Env) (rawLicense : RawLicense.t) : License.t :=
  License.mk
    (getCleanText env (RawLicense.licenseName rawLicense))
    (getCleanText env (Some (RawLicense.licenseBody rawLicense))).

(** Lines 1159-1165. *)
Definition language_of (env : Env) (rawLanguage : RawLanguage.t) : Language.t :=
  Language.mk
    (getCleanText env (RawLanguage.languageName rawLanguage))
    (getCleanText env (RawLanguage.languageLevel rawLanguage)).

(** [run(profileUrl, options?)], lines 982-1224. *)
Definition run (env : Env) (profileUrl : string)
    (options : option ScraperHistoryMemory.t) : M RunResult :=
  let lastPostID := lastPostID_of options in
  let lastCommentID := lastCommentID_of options in
  s <- get ;;
  if negb (browser s) then
    throw (Error "Browser is not set. Please run the setup method first.")
  else if String.eqb profileUrl EmptyString then
    throw (Error "No profileUrl given.")
  else if negb (includes "linkedin.com/" profileUrl) then
    throw (Error "The given URL to scrape is not a linkedin.com url.")
  else
    try_catch
      (page <- createPage env SProfile ;;
       Puppeteer.goto env SProfile page profileUrl ;;
       Puppeteer.waitForTimeout env SProfile CWait ;;
       autoScroll_page env SProfile page ;;
       rawUserProfilePageData <- Puppeteer.evaluate env SProfile page
                                   (ok (profile_page env)) ;;
       let rawUserProfileData := RawProfilePage.raw_profile rawUserProfilePageData in
       let rawEducationData := RawProfilePage.raw_education rawUserProfilePageData in
       let rawLicenseData := RawProfilePage.raw_license rawUserProfilePageData in
       let rawLanguageData := RawProfilePage.raw_language rawUserProfilePageData in
       let userProfile := userProfile_of env rawUserProfileData in
       let education := map (education_of env) rawEducationData in
       let license := map (license_of env) rawLicenseData in
       let language := map (language_of env) rawLanguageData in
       experiences <- getExperiences env profileUrl ;;
       skills <- getSkills env profileUrl ;;
       volunteerings <- getVolunteerings env profileUrl ;;
       honors <- getHonors env profileUrl ;;
       posts <- getPosts env profileUrl lastPostID ;;
       comments <- getComments env profileUrl lastCommentID ;;
       s' <- get ;;
       (if negb (keepAlive s') then close (Some page)
        else Puppeteer.closePage env SProfile CPageClose page) ;;
       ret [ ("userProfile", VProfile userProfile);
             ("experiences", VExperiences experiences);
             ("education", VEducation (ArrayOf education));
             ("skills", VSkills skills);
             ("volunteerings", VVolunteerings volunteerings);
             ("posts", VPosts posts);
             ("comments", VComments comments) ])
      (fun err =>
         close None ;;
         throw err).

(* ================================================================== *)
(** * The site a URL belongs to, in the specification's sense *)

(** The host of [scheme://host/path]: the text between the second and the
    third slash. *)
Definition spec_hostname (url : string) : option string :=
  nth_error (split "/" url) 2.

(** A URL belongs to linkedin.com when its host is [linkedin.com] or one of
    its subdomains. *)
Definition spec_belongs_to_linkedin (url : string) : bool :=
  match spec_hostname url with
  | Some host => String.eqb host "linkedin.com" || endsWith ".linkedin.com" host
  | None => false
  end.

(* ================================================================== *)
(** * Binary digit lists

    The digits of [toString(2)] as a list, most significant first; used to
    reason about [toString2], [slice] and [parseInt2]. *)

Fixpoint bits_of_pos (p : positive) : list bool :=
  match p with
  | xH => [true]
  | xO q => (bits_of_pos q ++ [false])%list
  | xI q => (bits_of_pos q ++ [true])%list
  end.

Definition bit_char (b : bool) : ascii :=
  if b then "1"%char else "0"%char.

Fixpoint string_of_bits (l : list bool) : string :=
  match l with
  | [] => EmptyString
  | b :: l' => String (bit_char b) (string_of_bits l')
  end.

Definition bit_step (a : N) (b : bool) : N :=
  (2 * a + (if b then 1 else 0))%N.

Definition bits_value (l : list bool) : N :=
  fold_left bit_step l 0%N.

(* ================================================================== *)
(** * Predicates used to state the extractor properties *)

(** The primary label of a list item is its first parsed field; the item is
    an empty-state placeholder when that label matches the marker. *)
Definition is_empty_state (innerText : string) : bool :=
  match nth_error (fields_of innerText) 0 with
  | Some label => includes empty_state_marker label
  | None => false
  end.

(** A comment element written by [profile_owner] whose text is [text]. *)
Definition owner_comment_with_text (profile_owner : option string) (text : string)
    (comment : CommentElement.t) : bool :=
  match CommentElement.author_span comment, CommentElement.main_content comment with
  | Some span, Some commentText =>
      is_owner profile_owner (author_of span) && String.eqb commentText text
  | _, _ => false
  end.

(** The decimal numeral of [x], as LinkedIn writes an identifier in a
    URN. *)
Definition decimal_numeral (x : N) : string :=
  NilZero.string_of_uint (N.to_uint x).

(** An identifier as the extractors write it: [null] for a post without
    [data-urn], or a value [BigInt] has read. *)
Definition extracted_id (id : IdValue) : Prop :=
  id = IdNull \/ exists z, Id.ToBigInt id = ok z.

(** Every record of a successful extraction satisfies [P]. *)
Definition all_records {D} (P : D -> Prop) (r : Result (list D)) : Prop :=
  match r with
  | inr data => Forall P data
  | inl _ => True
  end.

(** What the comment loop maintains after the elements [seen]: texts are
    unique, each record stems from the first owner comment with its text, and
    every owner text seen so far is recorded. *)
Definition dedup_invariant (toUTC : Number -> string) (owner : option string)
    (seen : list CommentElement.t) (data : list CommentData.t) : Prop :=
  NoDup (map CommentData.commentText data) /\
  (forall d, In d data ->
     exists c,
       find (owner_comment_with_text owner (CommentData.commentText d)) seen = Some c /\
       commentData_of toUTC c (CommentData.commentText d) = ok d) /\
  (forall c t, In c seen -> owner_comment_with_text owner t c = true ->
     In t (map CommentData.commentText data)).

(* ================================================================== *)
(** * Outcomes as functions of the environment

    The definitions below restate what the session controller returns
    without the browser state; the theorems relate them to the monadic
    code. *)

(** What a method leaves untouched in the scraper: the options, the
    [browser] field, and whether the browser and its process still run. *)
Definition same_session (s s' : Scraper) : Prop :=
  keepAlive s' = keepAlive s /\
  browser s' = browser s /\
  browser_open s' = browser_open s /\
  process_alive s' = process_alive s.

(** A method that leaves the session as it found it, however it ends. *)
Definition preserves_session {A} (m : M A) : Prop :=
  forall s, same_session s (snd (m s)).

(** The first of the listed calls that throws. *)
Fixpoint first_fault (env : Env) (sec : SectionId) (cs : list Call) : option Exn :=
  match cs with
  | [] => None
  | c :: cs' =>
      match fault env sec c with
      | Some e => Some e
      | None => first_fault env sec cs'
      end
  end.

Definition createPage_calls : list Call :=
  [CNewPage; CFirstPageClose; CPageSetup].

(** The calls of one section, in order; [settle] tells whether the section
    waits a second time before evaluating. *)
Definition section_calls (settle : bool) : list Call :=
  (createPage_calls ++ [CGoto; CWait; CAutoScroll]
   ++ (if settle then [CSettle] else []) ++ [CEvaluate])%list.

Definition section_outcome {R A} (env : Env) (sec : SectionId) (settle : bool)
    (callback : Result R) (finish : R -> A) : Result A :=
  match first_fault env sec (section_calls settle) with
  | Some e => inl e
  | None => rbind callback (fun raw => ok (finish raw))
  end.

(** The shape shared by the six [get...] methods. *)
Definition section_body {R A} (env : Env) (sec : SectionId) (url : string)
    (settle : bool) (callback : Result R) (finish : R -> A) : M A :=
  try_catch
    (page <- createPage env sec ;;
     Puppeteer.goto env sec page url ;;
     Puppeteer.waitForTimeout env sec CWait ;;
     autoScroll_page env sec page ;;
     (if settle then Puppeteer.waitForTimeout env sec CSettle else ret tt) ;;
     raw <- Puppeteer.evaluate env sec page callback ;;
     ret (finish raw))
    (fun err => throw err).

(** The profile section of [run] (lines 1003-1109) taken by itself: the
    page is opened, loaded and scrolled, and the callback's result is
    handed back. *)
Definition profile_section (env : Env) (profileUrl : string) : M RawProfilePage.t :=
  page <- createPage env SProfile ;;
  Puppeteer.goto env SProfile page profileUrl ;;
  Puppeteer.waitForTimeout env SProfile CWait ;;
  autoScroll_page env SProfile page ;;
  Puppeteer.evaluate env SProfile page (ok (profile_page env)).

Definition experiences_outcome (env : Env) : Result (Listing Experience.t) :=
  section_outcome env SExperiences true
    (experiences_callback (experience_items env)) spread.

Definition skills_outcome (env : Env) : Result (Listing Skill.t) :=
  section_outcome env SSkills true (skills_callback (skill_items env)) ArrayOf.

Definition volunteerings_outcome (env : Env) : Result (Listing Volunteering.t) :=
  section_outcome env SVolunteerings true
    (volunteerings_callback (volunteering_items env)) ArrayOf.

Definition honors_outcome (env : Env) : Result (Listing Honor.t) :=
  section_outcome env SHonors true (honors_callback (honor_items env)) ArrayOf.

Definition posts_outcome (env : Env) (lastPostID : Number) : Result (Listing PostData.t) :=
  section_outcome env SPosts false
    (posts_callback (toUTCString env) (post_items env))
    (fun raw => spread (filter_posts raw lastPostID)).

Definition comments_outcome (env : Env) (lastCommentID : Number)
  : Result (Listing CommentData.t) :=
  section_outcome env SComments true
    (comments_callback (toUTCString env) (comments_title env) (comment_items env))
    (fun raw => spread (filter_comments raw lastCommentID)).

(** The profile section of [run] (lines 1003-1109). *)
Definition profile_outcome (env : Env) : Result RawProfilePage.t :=
  section_outcome env SProfile false (ok (profile_page env)) (fun raw => raw).

(** The release step at the end of a successful [run] (lines 1196-1206)
    of a scraper that had a single tab open: with [keepAlive] off nothing
    can throw; with [keepAlive] on, [page.close()] is called on the profile
    tab, which the [createPage] of [getExperiences] has closed. *)
Definition release_outcome (keep : bool) : Result unit :=
  if keep then inl TargetClosed else ok tt.

(** The value [run] returns or the exception it throws, once its three
    guards have passed, on a scraper that had a single tab open. *)
Definition run_outcome (env : Env) (options : option ScraperHistoryMemory.t)
    (keep : bool) : Result RunResult :=
  rbind (profile_outcome env) (fun page =>
  rbind (experiences_outcome env) (fun experiences =>
  rbind (skills_outcome env) (fun skills =>
  rbind (volunteerings_outcome env) (fun volunteerings =>
  rbind (honors_outcome env) (fun honors =>
  rbind (posts_outcome env (lastPostID_of options)) (fun posts =>
  rbind (comments_outcome env (lastCommentID_of options)) (fun comments =>
  rbind (release_outcome keep) (fun _ =>
  ok [ ("userProfile", VProfile (userProfile_of env (RawProfilePage.raw_profile page)));
       ("experiences", VExperiences experiences);
       ("education",
        VEducation (ArrayOf (map (education_of env) (RawProfilePage.raw_education page))));
       ("skills", VSkills skills);
       ("volunteerings", VVolunteerings volunteerings);
       ("posts", VPosts posts);
       ("comments", VComments comments) ])))))))).

(** A scraper ready for a section: the browser is set and shows a single
    tab, as after [setup] and after every section that returned. *)
Definition ready (s : Scraper) : Prop :=
  browser s = true /\ exists p, pages s = [p] /\ p < next_page s.

(** The scraper after one section has opened its page and navigated to
    [url], when a single tab was open before: the new tab is the only one
    left. *)
Definition after_visit (s : Scraper) (url : string) : Scraper :=
  mkScraper (keepAlive s) (browser s) [next_page s] (S (next_page s))
    (browser_open s) (process_alive s)
    (navigations s ++ [(next_page s, url)])%list.

(** The scraper after a run whose seven sections all opened their page:
    the tab of the comments page is the only one left. *)
Definition after_run (s : Scraper) (profileUrl : string) : Scraper :=
  let s1 := after_visit s profileUrl in
  let s2 := after_visit s1 (profileUrl ++ "details/experience/") in
  let s3 := after_visit s2 (profileUrl ++ "details/skills/") in
  let s4 := after_visit s3 (profileUrl ++ "details/volunteering-experiences/") in
  let s5 := after_visit s4 (profileUrl ++ "details/honors/") in
  let s6 := after_visit s5 (profileUrl ++ "recent-activity/all/") in
  after_visit s6 (profileUrl ++ "/recent-activity/comments/").

(** The same scraper constructed with [keepAlive: true]. *)
Definition kept_alive (s : Scraper) : Scraper :=
  mkScraper true (browser s) (pages s) (next_page s) (browser_open s)
    (process_alive s) (navigations s).

(** A method that returns [v] from every ready scraper, and one that
    throws [e] from every ready scraper. *)
Definition returns {A} (m : M A) (v : A) : Prop :=
  forall s, ready s -> exists s', m s = (inr v, s').

Definition throws {A} (m : M A) (e : Exn) : Prop :=
  forall s, ready s -> exists s', m s = (inl e, s').

Definition succeeds {A} (m : M A) : Prop := exists v, returns m v.

Definition fails {A} (m : M A) : Prop := exists e, throws m e.

(** A section of [run], whatever it returns. *)
Inductive Attempt : Type :=
| attempt {A : Type} (m : M A).

(** The seven sections of [run], in the order it calls them. *)
Definition sections (env : Env) (profileUrl : string)
    (options : option ScraperHistoryMemory.t) : list Attempt :=
  [ attempt (profile_section env profileUrl);
    attempt (getExperiences env profileUrl);
    attempt (getSkills env profileUrl);
    attempt (getVolunteerings env profileUrl);
    attempt (getHonors env profileUrl);
    attempt (getPosts env profileUrl (lastPostID_of options));
    attempt (getComments env profileUrl (lastCommentID_of options)) ].

Definition attempt_fails (a : Attempt) : Prop :=
  match a with
  | attempt m => fails m
  end.

(** [e] is what the first failing section throws: the sections before it
    succeed. *)
Fixpoint first_to_throw (attempts : list Attempt) (e : Exn) : Prop :=
  match attempts with
  | [] => False
  | attempt m :: rest => throws m e \/ (succeeds m /\ first_to_throw rest e)
  end.

(* ================================================================== *)
(** * A concrete profile, used to evaluate the model *)

Module Demo.

Definition profileUrl : string := "https://www.linkedin.com/in/ann-lee/".

Definition foreignUrl : string := "https://notlinkedin.com/in/ann-lee/".

Definition page : RawProfilePage.t :=
  RawProfilePage.mk
    (RawProfile.mk "Ann Lee" "She/Her" "Engineer" "Berlin, Germany" EmptyString EmptyString profileUrl)
    [RawEducation.mk (Some "TU Berlin") "MSc" (Some "2010") (Some "2012")]
    [RawLicense.mk (Some "Solutions Architect") "Amazon Web Services"]
    [RawLanguage.mk (Some "German") (Some "Native")].

Definition experience_item : string :=
  "Engineer" ++ nl ++ "Engineer" ++ nl ++ "Acme" ++ nl ++ "Acme" ++ nl
  ++ "Jan 2020 - Present" ++ middle_dot ++ "3 yrs".

Definition honor_item : string :=
  "Best Paper" ++ nl ++ "Best Paper" ++ nl ++ "Issued by ACM" ++ middle_dot ++ "2021".

Definition post_item : PostElement.t :=
  PostElement.mk (Some "urn:li:activity:7193453098040102912") (Some "Hello")
    (Fin 12) NaN NaN.

Definition comment_item : CommentElement.t :=
  CommentElement.mk (Some (AuthorSpan.mk (Some "Ann Lee") "Ann Lee"))
    (Some "Congratulations!")
    (Some "urn:li:comment:(activity:7193453098040102912,7193453098040209999)").

(** Helpers standing in for [./utils] and [Date]. *)
Definition clean (s : option string) : option string := str_or_null s.
Definition location (s : string) : option Location.t :=
  Some (Location.mk None None (Some s)).

Definition env_with (fault : SectionId -> Call -> option Exn) : Env :=
  mkEnv fault page [experience_item] ["Rocq" ++ nl ++ "Rocq"]
    ["Nothing to see for now"] [honor_item] [post_item]
    "Activity | Ann Lee | LinkedIn" [comment_item]
    clean location (fun d => d) (fun _ _ => None) (fun _ => "date").

(** Every Puppeteer call succeeds. *)
Definition env : Env := env_with (fun _ _ => None).

(** Navigation to the skills page times out. *)
Definition failing_env : Env :=
  env_with (fun sec c =>
              match sec, c with
              | SSkills, CGoto => Some (External 1)
              | _, _ => None
              end).

(** A scraper after [setup]: one blank tab, [keepAlive] off. *)
Definition scraper : Scraper := mkScraper false true [0] 1 true true [].

(** The same with [keepAlive] on. *)
Definition kept_scraper : Scraper := mkScraper true true [0] 1 true true [].

Definition honor : Honor.t :=
  Honor.mk "Best Paper" (Some "Issued by ACM") (Some "2021") EmptyString.

(** Items used to evaluate the filters and the comment loop. *)
Definition large_id_post : PostData.t :=
  PostData.mk (IdStr "7193453098040102913") (Some "a newer post")
    (Some "date (UTC)") (Fin 0) None None
    "https://www.linkedin.com/feed/update/urn:li:activity:7193453098040102913".

Definition large_id_comment : CommentData.t :=
  CommentData.mk (IdStr "7193453098040102913") (IdStr "7193453098040100000")
    "a newer comment" EmptyString EmptyString.

Definition large_id_post_element : PostElement.t :=
  PostElement.mk (Some "urn:li:activity:7193453098040102913") (Some "a newer post")
    NaN NaN NaN.

Definition unidentified_post_element : PostElement.t :=
  PostElement.mk None (Some "a post without data-urn") (Fin 4) NaN NaN.

Definition owner_comment (text data_id : string) : CommentElement.t :=
  CommentElement.mk (Some (AuthorSpan.mk (Some "Ann Lee") "Ann Lee (She/Her)"))
    (Some text) (Some data_id).

(** Two comments of the profile owner with the same text and different
    identifiers, and the record built from the first. *)
Definition repeated_comments : list CommentElement.t :=
  [ owner_comment "Congratulations!" "urn:li:comment:(activity:7100,7193453098040102912)";
    owner_comment "Congratulations!" "urn:li:comment:(activity:7200,7193453098040209999)" ].

Definition first_comment_record : CommentData.t :=
  CommentData.mk (IdStr "7193453098040102912") (IdStr "7100") "Congratulations!"
    "date (UTC)"
    ("https://www.linkedin.com/feed/update/urn:li:activity:7100"
     ++ "/?commentUrn=urn:li:comment:(activity:7100,7193453098040102912)"
     ++ "&dashCommentUrn=urn:li:fsd_comment:(7193453098040102912,urn:li:activity:7100)").

Definition post_with_id (id : string) : PostData.t :=
  PostData.mk (IdStr id) None (Some "date (UTC)") (Fin 0) None None
    ("https://www.linkedin.com/feed/update/urn:li:activity:" ++ id).

Definition post_element_with_id (id : string) : PostElement.t :=
  PostElement.mk (Some ("urn:li:activity:" ++ id)) None NaN NaN NaN.

(** Containers whose identifiers are written in the ways [BigInt] reads:
    hexadecimal, padded with white space, negative, zero, plain. *)
Definition mixed_post_elements : list PostElement.t :=
  map post_element_with_id ["0x1F"; " 12 "; "-5"; "0"; "42"].

Definition mixed_posts : list PostData.t :=
  map post_with_id ["0x1F"; " 12 "; "-5"; "0"; "42"].

(** The record the comment loop builds from [comment_item]. *)
Definition first_comment_of_item : CommentData.t :=
  CommentData.mk (IdStr "7193453098040209999") (IdStr "7193453098040102912")
    "Congratulations!" "date (UTC)"
    ("https://www.linkedin.com/feed/update/urn:li:activity:7193453098040102912"
     ++ "/?commentUrn=urn:li:comment:(activity:7193453098040102912,7193453098040209999)"
     ++ "&dashCommentUrn=urn:li:fsd_comment:(7193453098040209999,urn:li:activity:7193453098040102912)").

Definition newer_post : PostData.t := post_with_id "7193453098040104000".
Definition newest_post : PostData.t := post_with_id "7193453098040209999".
Definition small_id_post : PostData.t := post_with_id "42".

(** A hosts file with a comment, a loopback entry and two blocked hosts,
    the first on a line ending in a carriage return. *)
Definition hosts_file : string :=
  "# hosts" ++ nl
  ++ "0.0.0.0 ads.example.com" ++ String "013"%char EmptyString ++ nl
  ++ "127.0.0.1 localhost" ++ nl
  ++ "0.0.0.0 tracker.example.org # note".

End Demo.

(* ================================================================== *)
(** * Reading a listing back *)

(** [listing[i]]: on an array the element at index [i]; on the object
    [{...array}] builds, the property whose name is the decimal rendering
    of [i]. *)
Definition at_index {A} (l : Listing A) (i : nat) : option A :=
  match l with
  | ArrayOf items => nth_error items i
  | IndexedObject fields =>
      option_map snd (find (fun kv => String.eqb (JSString.of_nat i) (fst kv)) fields)
  end.

(** [Object.values(listing)] *)
Definition values {A} (l : Listing A) : list A :=
  match l with
  | ArrayOf items => items
  | IndexedObject fields => map snd fields
  end.

(* ================================================================== *)
(** * Well-formed list items *)

(** The first parsed field of a list item. *)
Definition primary_label (innerText : string) : string :=
  hd EmptyString (fields_of innerText).

(** An experience or volunteering item the loop body can process: the
    empty-state placeholder, or an item with at least three fields. *)
Definition experience_item_ok (innerText : string) : bool :=
  is_empty_state innerText || (3 <=? List.length (fields_of innerText))%nat.

(** An honors item the loop body can process: the placeholder, or an item
    with at least two fields. *)
Definition honor_item_ok (innerText : string) : bool :=
  is_empty_state innerText || (2 <=? List.length (fields_of innerText))%nat.

(** The third field with what follows the first middle dot cut off, split
    at [" - "]: start date, then end date. *)
Definition date_range (fields : list string) : list string :=
  split " - " (hd EmptyString (split middle_dot (nth 2 fields EmptyString))).

Definition experience_matches (innerText : string) (d : Experience.t) : Prop :=
  Experience.title d = primary_label innerText /\
  Experience.company d = nth_error (fields_of innerText) 1 /\
  Experience.startDate d = nth_error (date_range (fields_of innerText)) 0 /\
  Experience.endDate d = nth_error (date_range (fields_of innerText)) 1 /\
  Experience.description d = join ", " (skipn 3 (fields_of innerText)).

Definition volunteering_matches (innerText : string) (d : Volunteering.t) : Prop :=
  Volunteering.title d = primary_label innerText /\
  Volunteering.company d = nth_error (fields_of innerText) 1 /\
  Volunteering.startDate d = nth_error (date_range (fields_of innerText)) 0 /\
  Volunteering.endDate d = nth_error (date_range (fields_of innerText)) 1 /\
  Volunteering.description d = join ", " (skipn 3 (fields_of innerText)).

Definition honor_matches (innerText : string) (d : Honor.t) : Prop :=
  Honor.title d = primary_label innerText /\
  Honor.company d
  = nth_error (split middle_dot (nth 1 (fields_of innerText) EmptyString)) 0 /\
  Honor.date d
  = nth_error (split middle_dot (nth 1 (fields_of innerText) EmptyString)) 1 /\
  Honor.description d = join ", " (skipn 2 (fields_of innerText)).

(** The first line of an element's text. *)
Definition first_line (innerText : string) : string :=
  hd EmptyString (split nl innerText).

(** A string of one or more digits of the given radix. *)
Definition all_digits (radix : N) (s : string) : bool :=
  negb (String.eqb s EmptyString)
  && forallb (fun c => match Literal.digit radix c with
                       | Some _ => true
                       | None => false
                       end) (list_ascii_of_string s).

(** An integer literal as [BigInt] reads it: between white space, nothing
    at all, or decimal digits with an optional sign, or [0x], [0o] or [0b]
    and digits of that radix. *)
Definition is_integer_literal (s : string) : bool :=
  let t := trim s in
  String.eqb t EmptyString
  || match Literal.radix_prefix t with
     | Some (radix, body) => all_digits radix body
     | None => all_digits 10 (snd (Literal.signed t))
     end.

(** A post container the loop body can process: no [data-urn] (or an empty
    one), or a urn whose fourth colon-separated segment is an integer
    literal. *)
Definition post_element_ok (post : PostElement.t) : bool :=
  match str_or_null (PostElement.data_urn post) with
  | None => true
  | Some urn =>
      match nth_error (split ":" urn) 3 with
      | Some postId => is_integer_literal postId
      | None => false
      end
  end.

Definition post_matches (post : PostElement.t) (d : PostData.t) : Prop :=
  PostData.postId d
  = match str_or_null (PostElement.data_urn post) with
    | None => IdNull
    | Some urn => IdStr (nth 3 (split ":" urn) EmptyString)
    end /\
  (PostData.postDateDetails d = None <-> PostData.postId d = IdNull) /\
  PostData.postText d = str_or_null (PostElement.break_words post) /\
  PostData.postUrl d
  = "https://www.linkedin.com/feed/update/urn:li:activity:" ++ Id.ToString (PostData.postId d).

(* ================================================================== *)
(** * The host block list (lines 337-359 and 398-426) *)

(** A JavaScript object used as a map from host names to booleans: own
    properties, the most recently written first. *)
Definition HostMap : Type := list (string * bool).

Module HostMap.

(** [o[k]]; [None] is [undefined]. *)
Definition get (o : HostMap) (k : string) : option bool :=
  option_map snd (find (fun kv => String.eqb k (fst kv)) o).

(** [o[k] = v].  Writing a boolean to [__proto__] leaves the object as it
    is. *)
Definition set (k : string) (v : bool) (o : HostMap) : HostMap :=
  if String.eqb k "__proto__" then o else (k, v) :: o.

(** [o[k] === true] *)
Definition is_true (o : HostMap) (k : string) : bool :=
  match get o k with
  | Some true => true
  | _ => false
  end.

End HostMap.

(** The reducer of lines 401-409: one line of the hosts file. *)
Definition blocked_line (prev : HostMap) (curr : string) : HostMap :=
  let frags := split " " curr in
  match nth_error frags 0, nth_error frags 1 with
  | Some frag0, Some frag1 =>
      if String.eqb frag0 "0.0.0.0" then HostMap.set (trim frag1) true prev else prev
  | _, _ => prev
  end.

(** The hosts added by the object literal of lines 411-423. *)
Definition tracker_hosts : list string :=
  [ "static.chartbeat.com"; "scdn.cxense.com"; "api.cxense.com";
    "www.googletagmanager.com"; "connect.facebook.net"; "platform.twitter.com";
    "tags.tiqcdn.com"; "dev.visualwebsiteoptimizer.com"; "smartlock.google.com";
    "cdn.embedly.com" ].

(** [getBlockedHosts()], lines 398-426; [blockedHostsList] is the text
    imported from [./blocked-hosts]. *)
Definition getBlockedHosts (blockedHostsList : string) : HostMap :=
  let blockedHostsArray := split nl blockedHostsList in
  let blockedHostsObject := fold_left blocked_line blockedHostsArray [] in
  (List.rev (map (fun h => (h, true)) tracker_hosts) ++ blockedHostsObject)%list.

Definition blockedResources : list string :=
  ["media"; "font"; "texttrack"; "object"; "beacon"; "csp_report"; "imageset"].

Definition blockedResourcesByHost : list string :=
  ["script"; "xhr"; "fetch"; "document"].

Inductive Decision : Type :=
| Abort       (* [req.abort()] *)
| Continue.   (* [req.continue()] *)

(** [array.includes(s)] on an array of strings. *)
Definition array_includes (xs : list string) (s : string) : bool :=
  existsb (String.eqb s) xs.

(** The request handler of lines 345-359.  [getHostname] is the helper
    imported from [./utils]; [None] stands for [null]. *)
Definition on_request (getHostname : string -> option string) (blockedHosts : HostMap)
    (resourceType url : string) : Decision :=
  if array_includes blockedResources resourceType then Abort
  else
    let hostname := getHostname url in
    if array_includes blockedResourcesByHost resourceType
       && match hostname with
          | Some EmptyString | None => false
          | Some h => HostMap.is_true blockedHosts h
          end
    then Abort
    else Continue.

(** A line of the hosts file that blocks [host]. *)
Definition line_blocks (host : string) (line : string) : Prop :=
  exists frag1,
    nth_error (split " " line) 0 = Some "0.0.0.0" /\
    nth_error (split " " line) 1 = Some frag1 /\
    trim frag1 = host.

(* ================================================================== *)
(** * The constructor (lines 181-222) *)

(** The values an option can be given. *)
Inductive JSValue : Type :=
| VUndefined
| VNull
| VBool (b : bool)
| VNumber (n : Number)
| VString (s : string)
| VObject.

Module JSValue.

Definition typeof (v : JSValue) : string :=
  match v with
  | VUndefined => "undefined"
  | VNull => "object"
  | VBool _ => "boolean"
  | VNumber _ => "number"
  | VString _ => "string"
  | VObject => "object"
  end.

(** [ToBoolean] *)
Definition truthy (v : JSValue) : bool :=
  match v with
  | VUndefined => false
  | VNull => false
  | VBool b => b
  | VNumber n => JSNumber.truthy n
  | VString s => negb (String.eqb s EmptyString)
  | VObject => true
  end.

(** [v !== undefined] *)
Definition defined (v : JSValue) : bool :=
  match v with
  | VUndefined => false
  | _ => true
  end.

End JSValue.

(** [interface ScraperUserDefinedOptions] as an object: [None] is a
    property the caller did not write. *)
Module UserDefinedOptions.
Record t := mk {
  sessionCookieValue : option JSValue;
  keepAlive : option JSValue;
  userAgent : option JSValue;
  timeout : option JSValue;
  headless : option JSValue }.
End UserDefinedOptions.

(** [this.options] *)
Module ScraperOptions.
Record t := mk {
  sessionCookieValue : JSValue;
  keepAlive : JSValue;
  userAgent : JSValue;
  timeout : JSValue;
  headless : JSValue }.
End ScraperOptions.

(** [object.property]: [undefined] when the property is absent. *)
Definition prop (p : option JSValue) : JSValue :=
  match p with
  | Some v => v
  | None => VUndefined
  end.

(** One property of [Object.assign(target, source)]. *)
Definition assigned (target : JSValue) (source : option JSValue) : JSValue :=
  match source with
  | Some v => v
  | None => target
  end.

Definition default_userAgent : string :=
  "Mozilla/5.0 (Windows NT 10.0; Win64; x64) AppleWebKit/537.36 (KHTML, like Gecko) Chrome/69.0.3497.100 Safari/537.36".

(** Lines 181-187. *)
Definition default_options : ScraperOptions.t :=
  ScraperOptions.mk (VString EmptyString) (VBool false) (VString default_userAgent)
    (VNumber (Fin 10000)) (VBool false).

Definition quoted (name : string) : string :=
  String "034"%char name ++ String "034"%char EmptyString.

Definition option_error (name complaint : string) : Exn :=
  Error ("Error during setup. Option " ++ quoted name ++ complaint).

(** [constructor(userDefinedOptions)], lines 191-222. *)
Definition new_scraper (userDefinedOptions : UserDefinedOptions.t)
  : Result ScraperOptions.t :=
  let sessionCookieValue := prop (UserDefinedOptions.sessionCookieValue userDefinedOptions) in
  let userAgent := prop (UserDefinedOptions.userAgent userDefinedOptions) in
  let keepAlive := prop (UserDefinedOptions.keepAlive userDefinedOptions) in
  let timeout := prop (UserDefinedOptions.timeout userDefinedOptions) in
  let headless := prop (UserDefinedOptions.headless userDefinedOptions) in
  if negb (JSValue.truthy sessionCookieValue) then
    raise (option_error "sessionCookieValue" " is required.")
  else if JSValue.truthy sessionCookieValue
          && negb (String.eqb (JSValue.typeof sessionCookieValue) "string") then
    raise (option_error "sessionCookieValue" " needs to be a string.")
  else if JSValue.truthy userAgent
          && negb (String.eqb (JSValue.typeof userAgent) "string") then
    raise (option_error "userAgent" " needs to be a string.")
  else if JSValue.defined keepAlive
          && negb (String.eqb (JSValue.typeof keepAlive) "boolean") then
    raise (option_error "keepAlive" " needs to be a boolean.")
  else if JSValue.defined timeout
          && negb (String.eqb (JSValue.typeof timeout) "number") then
    raise (option_error "timeout" " needs to be a number.")
  else if JSValue.defined headless
          && negb (String.eqb (JSValue.typeof headless) "boolean") then
    raise (option_error "headless" " needs to be a boolean.")
  else
    ok (ScraperOptions.mk
          (assigned (ScraperOptions.sessionCookieValue default_options)
             (UserDefinedOptions.sessionCookieValue userDefinedOptions))
          (assigned (ScraperOptions.keepAlive default_options)
             (UserDefinedOptions.keepAlive userDefinedOptions))
          (assigned (ScraperOptions.userAgent default_options)
             (UserDefinedOptions.userAgent userDefinedOptions))
          (assigned (ScraperOptions.timeout default_options)
             (UserDefinedOptions.timeout userDefinedOptions))
          (assigned (ScraperOptions.headless default_options)
             (UserDefinedOptions.headless userDefinedOptions))).




(* ================================================================== *)
(** * [autoScroll] (lines 161-178) *)

(** The interval timer of [autoScroll].  [scrollHeight i] is what
    [document.body.scrollHeight] reads when the timer fires for the [i]-th
    time (counting from zero); [fuel] bounds the firings observed.  The
    result is the number of firings after which the promise resolves. *)
Fixpoint autoScroll_from (scrollHeight : nat -> nat) (fuel tick totalHeight : nat)
  : option nat :=
  match fuel with
  | O => None
  | S fuel' =>
      let distance := 500 in
      let height := scrollHeight tick in
      let totalHeight := totalHeight + distance in
      if (height <=? totalHeight)%nat then Some (S tick)
      else autoScroll_from scrollHeight fuel' (S tick) totalHeight
  end.

Definition autoScroll (scrollHeight : nat -> nat) (fuel : nat) : option nat :=
  autoScroll_from scrollHeight fuel 0 0.

(* ================================================================== *)
(** * [setup], [checkIfLoggedIn] and [getDate] *)

(** [setup()], lines 227-299.  [launch] tells whether [puppeteer.launch]
    throws; a launched browser shows one blank tab. *)
Definition setup (launch : option Exn) : M unit :=
  try_catch
    (fun s =>
       match launch with
       | Some e => (raise e, s)
       | None =>
           (ok tt,
            mkScraper (keepAlive s) true [next_page s] (S (next_page s)) true true
              (navigations s))
       end)
    (fun err =>
       close None ;;
       throw err)%async.

(** [new SessionExpired(message)], a class of [./errors]. *)
Definition SessionExpired (message : string) : Exn := Error message.

Definition session_expired_message : string :=
  "Bad news, we are not logged in! Your session seems to be expired. Use your browser to login again with your LinkedIn credentials and extract the "
  ++ quoted "li_at" ++ " cookie value for the " ++ quoted "sessionCookieValue"
  ++ " option.".

(** [checkIfLoggedIn()], lines 487-513.  The Puppeteer calls are looked up
    in the environment under [sec]; [landed] is what [page.url()] returns
    after the navigation. *)
Definition checkIfLoggedIn (env : Env) (sec : SectionId) (landed : string) : M unit :=
  (page <- createPage env sec ;;
   Puppeteer.goto env sec page "https://www.linkedin.com/login" ;;
   let url := landed in
   let isLoggedIn := negb (endsWith "/login" url) in
   Puppeteer.closePage env sec CPageClose page ;;
   if isLoggedIn then ret tt
   else throw (SessionExpired session_expired_message))%async.

(** [unixTimestampToHumanDate(timestamp)], lines 524-528. *)
Definition unixTimestampToHumanDate (toUTCString : Number -> string)
    (timestamp : Number) : string :=
  toUTCString timestamp ++ " (UTC)".

(** [getDate(postId)], lines 530-537: the pair
    [{unixTimestamp, humanDateFormat}]. *)
Definition getDate (toUTCString : Number -> string) (postId : string)
  : Result (Number * string) :=
  rbind (extractUnixTimestamp postId) (fun unixTimestamp =>
  let humanDateFormat := unixTimestampToHumanDate toUTCString unixTimestamp in
  ok (unixTimestamp, humanDateFormat)).

(** The seven pages a run visits, in order, the first in tab [n]. *)
Definition run_navigations (profileUrl : string) (n : nat) : list (nat * string) :=
  [ (n, profileUrl);
    (n + 1, profileUrl ++ "details/experience/");
    (n + 2, profileUrl ++ "details/skills/");
    (n + 3, profileUrl ++ "details/volunteering-experiences/");
    (n + 4, profileUrl ++ "details/honors/");
    (n + 5, profileUrl ++ "recent-activity/all/");
    (n + 6, profileUrl ++ "/recent-activity/comments/") ].

(** No call of [createPage] throws. *)
Definition createPage_succeeds (env : Env) (sec : SectionId) : Prop :=
  first_fault env sec createPage_calls = None.

(* ================================================================== *)
(** * The JavaScript primitives on examples *)

Example split_examples :
  split " - " "Jan 2020 - Present" = ["Jan 2020"; "Present"] /\
  split ":" "urn:li:activity:7193453098040102912"
  = ["urn"; "li"; "activity"; "7193453098040102912"] /\
  split nl EmptyString = [EmptyString] /\
  split " | " "no separator" = ["no separator"] /\
  split "," "a,,b," = ["a"; EmptyString; "b"; EmptyString].
Proof. repeat split. Qed.

Example includes_examples :
  includes "linkedin.com/" "https://www.linkedin.com/in/ann-lee/" = true /\
  includes "linkedin.com/" "https://www.linkedin.com" = false /\
  includes "Nothing to see" "Nothing to see for now" = true.
Proof. repeat split. Qed.

(** Round to nearest, ties to even, at the first integers doubles skip and
    at the size of real identifiers (where doubles are 1024 apart). *)
Example round_to_double_examples :
  JSNumber.round_to_double 9007199254740992 = 9007199254740992%N /\
  JSNumber.round_to_double 9007199254740993 = 9007199254740992%N /\
  JSNumber.round_to_double 9007199254740995 = 9007199254740996%N /\
  JSNumber.round_to_double 7193453098040103424 = 7193453098040102912%N /\
  JSNumber.round_to_double 7193453098040103425 = 7193453098040103936%N.
Proof. repeat split. Qed.

Example toString2_examples :
  BigInt.toString2 0 = "0" /\ BigInt.toString2 5 = "101" /\
  BigInt.toString2 (-5) = "-101" /\
  parseInt2 "101" = Fin 5 /\ parseInt2 "-101" = Fin (-5) /\
  parseInt2 EmptyString = NaN.
Proof. repeat split. Qed.

(** The literals [BigInt] and [Number] read, and where they part. *)
Example literal_examples :
  BigInt.of_string "0x1F" = ok 31%Z /\ Id.StringToNumber "0x1F" = Fin 31 /\
  BigInt.of_string " 12 " = ok 12%Z /\ Id.StringToNumber " 12 " = Fin 12 /\
  BigInt.of_string "-5" = ok (-5)%Z /\ Id.StringToNumber "-5" = Fin (-5) /\
  BigInt.of_string EmptyString = ok 0%Z /\ Id.StringToNumber EmptyString = Fin 0 /\
  BigInt.of_string "1.5" = raise SyntaxError /\ Id.StringToNumber "1.5" = Dyadic 3 1 /\
  BigInt.of_string "1e3" = raise SyntaxError /\ Id.StringToNumber "1e3" = Fin 1000 /\
  BigInt.of_string "12a" = raise SyntaxError /\ Id.StringToNumber "12a" = NaN /\
  Id.StringToNumber "0.1" = Dyadic 3602879701896397 55 /\
  Id.StringToNumber "-Infinity" = NegInfinity.
Proof. repeat split. Qed.

Example trim_examples :
  trim (" " ++ String "194" (String "160" "a b") ++ String "009" nl) = "a b" /\
  trim (String "226" (String "128" (String "160" EmptyString)))
  = String "226" (String "128" (String "160" EmptyString)).
Proof. repeat split. Qed.

(* ================================================================== *)
(** * Timestamp decoder: [toString2], [slice] and [parseInt2] *)

Section BinaryDigits.

Lemma string_of_bits_app (l1 l2 : list bool) :
  string_of_bits (l1 ++ l2) = string_of_bits l1 ++ string_of_bits l2.
Proof.
  induction l1 as [|b l1 IH]; simpl; [reflexivity|].
  now rewrite IH.
Qed.

Lemma string_app_assoc (a b c : string) : (a ++ b) ++ c = a ++ (b ++ c).
Proof.
  induction a as [|x a IH]; simpl; [reflexivity|].
  now rewrite IH.
Qed.

Lemma string_app_empty_r (a : string) : a ++ EmptyString = a.
Proof.
  induction a as [|x a IH]; simpl; [reflexivity|].
  now rewrite IH.
Qed.

Lemma pos_toString2_bits (p : positive) (acc : string) :
  BigInt.pos_toString2 p acc = string_of_bits (bits_of_pos p) ++ acc.
Proof.
  revert acc.
  induction p as [q IH|q IH|]; intros acc; simpl.
  - rewrite IH, string_of_bits_app, string_app_assoc. reflexivity.
  - rewrite IH, string_of_bits_app, string_app_assoc. reflexivity.
  - reflexivity.
Qed.

Lemma toString2_pos (p : positive) :
  BigInt.toString2 (Zpos p) = string_of_bits (bits_of_pos p).
Proof.
  unfold BigInt.toString2.
  now rewrite pos_toString2_bits, string_app_empty_r.
Qed.

Lemma substring_bits (k : nat) (l : list bool) :
  substring 0 k (string_of_bits l) = string_of_bits (firstn k l).
Proof.
  revert k.
  induction l as [|b l IH]; intros [|k]; simpl; try reflexivity.
  now rewrite IH.
Qed.

Lemma binary_prefix_bits (l : list bool) (a : N) :
  binary_prefix (string_of_bits l) (Some a) = Some (fold_left bit_step l a).
Proof.
  revert a.
  induction l as [|b l IH]; intros a; [reflexivity|].
  destruct b.
  - change (binary_prefix (string_of_bits (true :: l)) (Some a))
      with (binary_prefix (string_of_bits l) (Some (2 * a + 1)%N)).
    rewrite IH. reflexivity.
  - change (binary_prefix (string_of_bits (false :: l)) (Some a))
      with (binary_prefix (string_of_bits l) (Some (2 * a)%N)).
    rewrite IH. cbn [fold_left].
    replace (bit_step a false) with (2 * a)%N by (unfold bit_step; lia).
    reflexivity.
Qed.

Lemma binary_prefix_bits_fresh (l : list bool) :
  l <> [] ->
  binary_prefix (string_of_bits l) None = Some (bits_value l).
Proof.
  destruct l as [|b l]; [congruence|]; intros _.
  unfold bits_value.
  destruct b.
  - change (binary_prefix (string_of_bits (true :: l)) None)
      with (binary_prefix (string_of_bits l) (Some (2 * 0 + 1)%N)).
    rewrite binary_prefix_bits. reflexivity.
  - change (binary_prefix (string_of_bits (false :: l)) None)
      with (binary_prefix (string_of_bits l) (Some (2 * 0)%N)).
    rewrite binary_prefix_bits. reflexivity.
Qed.

Lemma bits_value_snoc (l : list bool) (b : bool) :
  bits_value (l ++ [b]) = bit_step (bits_value l) b.
Proof.
  unfold bits_value. now rewrite fold_left_app.
Qed.

Lemma bits_value_pos (p : positive) : bits_value (bits_of_pos p) = Npos p.
Proof.
  induction p as [q IH|q IH|]; simpl; try reflexivity;
    rewrite bits_value_snoc, IH; reflexivity.
Qed.

Lemma bits_value_bound (l : list bool) :
  (bits_value l < 2 ^ N.of_nat (List.length l))%N.
Proof.
  induction l as [|b l IH] using rev_ind.
  - cbn. lia.
  - rewrite bits_value_snoc, length_app, Nat.add_comm. cbn [List.length Nat.add].
    rewrite Nat2N.inj_succ, N.pow_succ_r'.
    unfold bit_step. destruct b; lia.
Qed.

Lemma bits_of_pos_length (p : positive) :
  N.of_nat (List.length (bits_of_pos p)) = N.size (Npos p).
Proof.
  induction p as [q IH|q IH|]; simpl; try reflexivity;
    rewrite length_app, Nat.add_comm; cbn [List.length Nat.add];
    rewrite Nat2N.inj_succ, IH; simpl; lia.
Qed.

Lemma bits_of_pos_nonempty (p : positive) : bits_of_pos p <> [].
Proof.
  destruct p; simpl; try discriminate;
    intros H; apply app_eq_nil in H; destruct H; discriminate.
Qed.

Lemma shiftr_bit_step (a : N) (b : bool) (n : N) :
  N.shiftr (bit_step a b) (N.succ n) = N.shiftr a n.
Proof.
  rewrite <- N.add_1_l, <- N.shiftr_shiftr.
  f_equal.
  rewrite N.shiftr_div_pow2. change (2 ^ 1)%N with 2%N.
  unfold bit_step. destruct b.
  - symmetry. apply (N.div_unique _ 2 a 1); lia.
  - symmetry. apply (N.div_unique _ 2 a 0); lia.
Qed.

(** The first [k] digits denote the number shifted right by the digits
    dropped. *)
Lemma bits_value_firstn (p : positive) (k : nat) :
  bits_value (firstn k (bits_of_pos p))
  = N.shiftr (Npos p) (N.of_nat (List.length (bits_of_pos p) - k)).
Proof.
  revert k.
  assert (step : forall q b,
    (forall k, bits_value (firstn k (bits_of_pos q))
               = N.shiftr (Npos q) (N.of_nat (List.length (bits_of_pos q) - k))) ->
    bits_value (bits_of_pos q ++ [b]) = bit_step (Npos q) b ->
    forall k, bits_value (firstn k (bits_of_pos q ++ [b]))
              = N.shiftr (bit_step (Npos q) b)
                  (N.of_nat (List.length (bits_of_pos q ++ [b]) - k))).
  { intros q b IH Hv k.
    rewrite length_app. cbn [List.length].
    destruct (Nat.le_gt_cases k (List.length (bits_of_pos q))) as [Hk|Hk].
    - rewrite firstn_app.
      replace (k - List.length (bits_of_pos q)) with 0 by lia.
      cbn [firstn]. rewrite app_nil_r, IH.
      replace (List.length (bits_of_pos q) + 1 - k)
        with (S (List.length (bits_of_pos q) - k)) by lia.
      rewrite Nat2N.inj_succ, shiftr_bit_step. reflexivity.
    - rewrite firstn_all2 by (rewrite length_app; cbn [List.length]; lia).
      replace (List.length (bits_of_pos q) + 1 - k) with 0 by lia.
      rewrite Hv. cbn [N.of_nat]. now rewrite N.shiftr_0_r. }
  induction p as [q IH|q IH|]; intros k.
  - apply (step q true IH). now rewrite bits_value_snoc, bits_value_pos.
  - apply (step q false IH). now rewrite bits_value_snoc, bits_value_pos.
  - destruct k as [|[|k]]; reflexivity.
Qed.

Lemma round_to_double_small (n : N) :
  (n < 2 ^ 53)%N -> JSNumber.round_to_double n = n.
Proof.
  intros H. unfold JSNumber.round_to_double.
  apply N.ltb_lt in H. now rewrite H.
Qed.

Lemma of_N_small (n : N) :
  (n < 2 ^ 53)%N -> JSNumber.of_N n = Fin (Z.of_N n).
Proof.
  intros H. unfold JSNumber.of_N.
  rewrite (round_to_double_small n H).
  assert (Hlt : (n <? 2 ^ 1024)%N = true).
  { apply N.ltb_lt. eapply N.lt_trans; [exact H|].
    apply N.pow_lt_mono_r; lia. }
  now rewrite Hlt.
Qed.

(** A string of binary digits has neither white space nor a sign in
    front. *)
Lemma parseInt2_bits (l : list bool) :
  parseInt2 (string_of_bits l)
  = match binary_prefix (string_of_bits l) None with
    | Some v => JSNumber.of_N v
    | None => NaN
    end.
Proof. destruct l as [|[|] [|b1 [|b2 l]]]; reflexivity. Qed.

(** What the three middle lines of [extractUnixTimestamp] compute. *)
Lemma decode_leading41 (x : N) :
  parseInt2 (slice (BigInt.toString2 (Z.of_N x)) 0 41)
  = Fin (Z.of_N (spec_leading41 x)).
Proof.
  unfold slice, spec_leading41.
  destruct x as [|p]; [reflexivity|].
  cbn [Z.of_N].
  rewrite toString2_pos. change (41 - 0) with 41.
  rewrite substring_bits, parseInt2_bits.
  rewrite binary_prefix_bits_fresh.
  - rewrite of_N_small.
    + rewrite bits_value_firstn. do 3 f_equal.
      rewrite Nat2N.inj_sub, bits_of_pos_length. reflexivity.
    + pose proof (bits_value_bound (firstn 41 (bits_of_pos p))) as Hb.
      assert (Hle : (2 ^ N.of_nat (List.length (firstn 41 (bits_of_pos p)))
                     <= 2 ^ 41)%N).
      { apply N.pow_le_mono_r; [lia|]. rewrite length_firstn. lia. }
      assert (Hlt : (2 ^ 41 < 2 ^ 53)%N) by (apply N.pow_lt_mono_r; lia).
      lia.
  - pose proof (bits_of_pos_nonempty p) as Hne.
    destruct (bits_of_pos p); [congruence|discriminate].
Qed.

End BinaryDigits.

(** C2.  For every identifier string that [BigInt] accepts, with value [x]
    (of any size, also beyond 2^53), [extractUnixTimestamp] returns the
    integer value of the leading 41 bits of the binary representation of
    [x]. *)
Theorem extractUnixTimestamp_leading41 (postId : string) (x : N) :
  BigInt.of_string postId = ok (Z.of_N x) ->
  extractUnixTimestamp postId = ok (Fin (Z.of_N (spec_leading41 x))).
Proof.
  intros Hx. unfold extractUnixTimestamp. rewrite Hx. cbn [rbind ok].
  now rewrite decode_leading41.
Qed.

Lemma extractUnixTimestamp_leading41_witness :
  BigInt.of_string "7193453098040102912" = ok (Z.of_N 7193453098040102912) /\
  extractUnixTimestamp "7193453098040102912" = ok (Fin 1715052866468).
Proof.
  split; [reflexivity|].
  exact (extractUnixTimestamp_leading41 "7193453098040102912"
           7193453098040102912%N eq_refl).
Defined.

Lemma spec_leading41_small (x : N) :
  (x < 2 ^ 41)%N -> spec_leading41 x = x.
Proof.
  intros H. unfold spec_leading41.
  replace (N.size x - 41)%N with 0%N; [apply N.shiftr_0_r|].
  destruct x as [|p]; [reflexivity|].
  assert (N.size (Npos p) <= 41)%N; [|lia].
  rewrite N.size_log2 by discriminate.
  assert (N.log2 (Npos p) < 41)%N; [|lia].
  apply N.log2_lt_pow2; lia.
Qed.

(** C9.  An identifier below 2^40, whose binary representation has fewer
    than 41 digits, decodes to its own value: nothing is padded and nothing
    is thrown. *)
Theorem extractUnixTimestamp_small_id (postId : string) (x : N) :
  BigInt.of_string postId = ok (Z.of_N x) ->
  (x < 2 ^ 40)%N ->
  extractUnixTimestamp postId = ok (Fin (Z.of_N x)).
Proof.
  intros Hx Hlt.
  unfold extractUnixTimestamp. rewrite Hx. cbn [rbind ok].
  rewrite decode_leading41, spec_leading41_small; [reflexivity|].
  eapply N.lt_trans; [exact Hlt|]. apply N.pow_lt_mono_r; lia.
Qed.

Lemma extractUnixTimestamp_small_id_witness :
  BigInt.of_string "1099511627775" = ok (Z.of_N 1099511627775) /\
  (1099511627775 < 2 ^ 40)%N /\
  extractUnixTimestamp "1099511627775" = ok (Fin 1099511627775).
Proof.
  split; [reflexivity|]. split; [reflexivity|].
  apply (extractUnixTimestamp_small_id "1099511627775" 1099511627775%N).
  - reflexivity.
  - reflexivity.
Defined.

(* ================================================================== *)
(** * The extraction loops *)

Section Loops.

Context {E D : Type}.

(** An element on which the loop body pushes nothing can be removed from
    the input without changing the outcome. *)
Lemma for_push_skip (f : E -> Result (option D)) (before after : list E)
    (item : E) (data : list D) :
  f item = ok None ->
  for_push (fun _ => f) (before ++ item :: after) data
  = for_push (fun _ => f) (before ++ after) data.
Proof.
  intros Hskip. revert data.
  induction before as [|x before IH]; intros data; simpl.
  - rewrite Hskip. reflexivity.
  - destruct (f x) as [e|[d|]]; cbn [rbind]; auto.
Qed.

(** Whatever holds of every record the body can yield holds of the
    result. *)
Lemma for_push_Forall (P : D -> Prop) (f : E -> Result (option D))
    (items : list E) (data out : list D) :
  (forall x d, f x = ok (Some d) -> P d) ->
  Forall P data ->
  for_push (fun _ => f) items data = ok out ->
  Forall P out.
Proof.
  intros Hf. revert data.
  induction items as [|x items IH]; intros data Hdata; cbn [for_push].
  - intros [= <-]. exact Hdata.
  - destruct (f x) as [e|[d|]] eqn:Hx; cbn [rbind]; [discriminate| |].
    + apply IH. apply Forall_app. split; [exact Hdata|].
      constructor; [|constructor]. eapply Hf; exact Hx.
    + apply IH; exact Hdata.
Qed.

End Loops.

Section EmptyState.

Lemma experience_of_marker (innerText : string) :
  is_empty_state innerText = true -> experience_of innerText = ok None.
Proof.
  unfold is_empty_state, experience_of.
  destruct (nth_error (fields_of innerText) 0) as [label|]; [|discriminate].
  intros Hlabel. cbn [rbind defined ok]. rewrite Hlabel. reflexivity.
Qed.

Lemma volunteering_of_marker (innerText : string) :
  is_empty_state innerText = true -> volunteering_of innerText = ok None.
Proof.
  unfold is_empty_state, volunteering_of.
  destruct (nth_error (fields_of innerText) 0) as [label|]; [|discriminate].
  intros Hlabel. cbn [rbind defined ok]. rewrite Hlabel. reflexivity.
Qed.

Lemma honor_of_marker (innerText : string) :
  is_empty_state innerText = true -> honor_of innerText = ok None.
Proof.
  unfold is_empty_state, honor_of.
  destruct (nth_error (fields_of innerText) 0) as [label|]; [|discriminate].
  intros Hlabel. cbn [rbind defined ok]. rewrite Hlabel. reflexivity.
Qed.

Ltac unpack_record H :=
  repeat match type of H with
         | rbind (defined ?o) _ = _ => destruct o; cbn [rbind defined ok raise] in H
         | (if negb ?c then _ else _) = _ => destruct c eqn:?; cbn [negb] in H
         end;
  try discriminate.

Lemma experience_of_title (innerText : string) (d : Experience.t) :
  experience_of innerText = ok (Some d) ->
  includes empty_state_marker (Experience.title d) = false.
Proof.
  unfold experience_of. intros H. unpack_record H.
  injection H as <-. assumption.
Qed.

Lemma volunteering_of_title (innerText : string) (d : Volunteering.t) :
  volunteering_of innerText = ok (Some d) ->
  includes empty_state_marker (Volunteering.title d) = false.
Proof.
  unfold volunteering_of. intros H. unpack_record H.
  injection H as <-. assumption.
Qed.

Lemma honor_of_title (innerText : string) (d : Honor.t) :
  honor_of innerText = ok (Some d) ->
  includes empty_state_marker (Honor.title d) = false.
Proof.
  unfold honor_of. intros H. unpack_record H.
  injection H as <-. assumption.
Qed.

End EmptyState.

Lemma all_records_for_push {E D} (P : D -> Prop) (f : E -> Result (option D))
    (items : list E) :
  (forall x d, f x = ok (Some d) -> P d) ->
  all_records P (for_push (fun _ => f) items []).
Proof.
  intros Hf. unfold all_records.
  destruct (for_push (fun _ => f) items []) as [e|data] eqn:Hrun; [exact I|].
  eapply for_push_Forall; eauto.
Qed.

(** C8.  A list element whose primary label matches the empty-state marker
    is excluded by the experience, volunteering and honors extractors: the
    outcome is the one obtained without the element, and no extracted record
    carries a marker title. *)
Theorem empty_state_element_excluded (before after : list string) (item : string) :
  is_empty_state item = true ->
  (experiences_callback (before ++ item :: after)
   = experiences_callback (before ++ after) /\
   volunteerings_callback (before ++ item :: after)
   = volunteerings_callback (before ++ after) /\
   honors_callback (before ++ item :: after)
   = honors_callback (before ++ after)) /\
  (all_records (fun d => includes empty_state_marker (Experience.title d) = false)
     (experiences_callback (before ++ item :: after)) /\
   all_records (fun d => includes empty_state_marker (Volunteering.title d) = false)
     (volunteerings_callback (before ++ item :: after)) /\
   all_records (fun d => includes empty_state_marker (Honor.title d) = false)
     (honors_callback (before ++ item :: after))).
Proof.
  intros Hmarker. split; [repeat split|repeat split].
  - apply for_push_skip, experience_of_marker, Hmarker.
  - apply for_push_skip, volunteering_of_marker, Hmarker.
  - apply for_push_skip, honor_of_marker, Hmarker.
  - apply all_records_for_push, experience_of_title.
  - apply all_records_for_push, volunteering_of_title.
  - apply all_records_for_push, honor_of_title.
Qed.

Lemma empty_state_element_excluded_witness :
  is_empty_state "Nothing to see for now" = true /\
  experiences_callback
    [ "Engineer" ++ nl ++ "Engineer" ++ nl ++ "Acme" ++ nl ++ "Acme" ++ nl
      ++ "Jan 2020 - Present";
      "Nothing to see for now" ]
  = experiences_callback
      [ "Engineer" ++ nl ++ "Engineer" ++ nl ++ "Acme" ++ nl ++ "Acme" ++ nl
        ++ "Jan 2020 - Present" ].
Proof.
  split; [reflexivity|].
  exact (proj1 (proj1 (empty_state_element_excluded
    [ "Engineer" ++ nl ++ "Engineer" ++ nl ++ "Acme" ++ nl ++ "Acme" ++ nl
      ++ "Jan 2020 - Present" ] [] "Nothing to see for now" eq_refl))).
Defined.

(* ================================================================== *)
(** * The comment loop *)

Section Comments.

Variable toUTC : Number -> string.
Variable owner : option string.

Lemma find_app {A} (f : A -> bool) (l1 l2 : list A) :
  find f (l1 ++ l2)
  = match find f l1 with
    | Some x => Some x
    | None => find f l2
    end.
Proof.
  induction l1 as [|x l1 IH]; simpl; [reflexivity|].
  destruct (f x); [reflexivity|exact IH].
Qed.

Lemma existsb_eqb_In (t : string) (l : list string) :
  existsb (String.eqb t) l = true <-> In t l.
Proof.
  rewrite existsb_exists. split.
  - intros [x [Hin Heq]]. apply String.eqb_eq in Heq. now subst.
  - intros Hin. exists t. split; [exact Hin|apply String.eqb_refl].
Qed.

Lemma commentData_of_text (c : CommentElement.t) (t : string) (d : CommentData.t) :
  commentData_of toUTC c t = ok d -> CommentData.commentText d = t.
Proof.
  unfold commentData_of. intros H.
  destruct (CommentElement.data_id c) as [data_id|].
  - repeat match type of H with
           | rbind (rbind (defined ?o) _) _ = _ =>
               destruct o; cbn [rbind defined ok raise] in H; try discriminate
           end.
    destruct (Id.ToBigInt _); cbn [rbind] in H; [discriminate|].
    injection H as <-. reflexivity.
  - cbn [rbind ok] in H.
    destruct (Id.ToBigInt _); cbn [rbind] in H; [discriminate|].
    injection H as <-. reflexivity.
Qed.

Lemma dedup_invariant_step (seen : list CommentElement.t)
    (data : list CommentData.t) (c : CommentElement.t)
    (pushed : option CommentData.t) :
  dedup_invariant toUTC owner seen data ->
  comment_step toUTC owner data c = ok pushed ->
  dedup_invariant toUTC owner (seen ++ [c])
    (match pushed with Some d => data ++ [d] | None => data end)%list.
Proof.
  intros (Hnodup & Hfirst & Hall) Hstep.
  unfold comment_step in Hstep.
  destruct (CommentElement.author_span c) as [span|] eqn:Hspan;
    cbn [rbind defined ok raise] in Hstep; [|discriminate].
  destruct (CommentElement.main_content c) as [t|] eqn:Htext;
    cbn [rbind defined ok raise] in Hstep; [|discriminate].
  assert (Hc : forall t', owner_comment_with_text owner t' c
                          = is_owner owner (author_of span) && String.eqb t t').
  { intros t'. unfold owner_comment_with_text. now rewrite Hspan, Htext. }
  assert (Hkeep : forall d, In d data ->
            exists c0,
              find (owner_comment_with_text owner (CommentData.commentText d))
                (seen ++ [c]) = Some c0 /\
              commentData_of toUTC c0 (CommentData.commentText d) = ok d).
  { intros d Hd. destruct (Hfirst d Hd) as (c0 & Hfind & Hmk).
    exists c0. split; [|exact Hmk]. now rewrite find_app, Hfind. }
  destruct (is_owner owner (author_of span)) eqn:Hown.
  - destruct (existsb (String.eqb t) (map CommentData.commentText data)) eqn:Hdup;
      cbn [negb] in Hstep.
    + (* the text was pushed before: nothing is pushed *)
      injection Hstep as <-.
      split; [exact Hnodup|]. split; [exact Hkeep|].
      intros c' t' Hin Hmatch. apply in_app_or in Hin as [Hin|[<-|[]]].
      * eapply Hall; eauto.
      * rewrite Hc in Hmatch. cbn [andb] in Hmatch.
        apply String.eqb_eq in Hmatch. subst t'.
        now apply existsb_eqb_In.
    + (* first comment with this text: its record is pushed *)
      destruct (commentData_of toUTC c t) as [e|d] eqn:Hmk;
        cbn [rbind ok] in Hstep; [discriminate|].
      injection Hstep as <-.
      pose proof (commentData_of_text c t d Hmk) as Hdt.
      assert (Hfresh : ~ In t (map CommentData.commentText data)).
      { intros Hin. apply existsb_eqb_In in Hin. congruence. }
      split; [|split].
      * rewrite map_app. cbn [map]. rewrite Hdt.
        apply NoDup_app; [exact Hnodup|repeat constructor; intros []|].
        intros a Ha [<-|[]]. exact (Hfresh Ha).
      * intros d' Hd'. apply in_app_or in Hd' as [Hd'|[<-|[]]]; [auto|].
        exists c. rewrite Hdt. split; [|exact Hmk].
        rewrite find_app.
        destruct (find (owner_comment_with_text owner t) seen) as [c0|] eqn:Hfind.
        -- exfalso. apply Hfresh.
           destruct (find_some _ _ Hfind) as [Hin Hmatch].
           eapply Hall; eauto.
        -- cbn [find]. now rewrite Hc, String.eqb_refl.
      * intros c' t' Hin Hmatch. rewrite map_app. apply in_or_app.
        apply in_app_or in Hin as [Hin|[<-|[]]].
        -- left. eapply Hall; eauto.
        -- right. rewrite Hc in Hmatch. cbn [andb] in Hmatch.
           apply String.eqb_eq in Hmatch. subst t'. cbn [map]. left. exact Hdt.
  - (* not written by the profile owner *)
    injection Hstep as <-.
    split; [exact Hnodup|]. split; [exact Hkeep|].
    intros c' t' Hin Hmatch. apply in_app_or in Hin as [Hin|[<-|[]]].
    + eapply Hall; eauto.
    + rewrite Hc in Hmatch. discriminate.
Qed.

Lemma dedup_invariant_loop (rest seen : list CommentElement.t)
    (data out : list CommentData.t) :
  dedup_invariant toUTC owner seen data ->
  for_push (comment_step toUTC owner) rest data = ok out ->
  dedup_invariant toUTC owner (seen ++ rest) out.
Proof.
  revert seen data.
  induction rest as [|c rest IH]; intros seen data Hinv; cbn [for_push].
  - intros [= <-]. now rewrite app_nil_r.
  - destruct (comment_step toUTC owner data c) as [e|pushed] eqn:Hstep;
      cbn [rbind]; [discriminate|].
    pose proof (dedup_invariant_step seen data c pushed Hinv Hstep) as Hnext.
    replace (seen ++ c :: rest)%list with ((seen ++ [c]) ++ rest)%list
      by (rewrite <- app_assoc; reflexivity).
    destruct pushed as [d|]; intros Hrun; eapply IH; eauto.
Qed.

End Comments.

(** C10.  The comment extractor deduplicates by text.  In a successful
    extraction no two records share a text; the record carrying a text is the
    one built from the first comment, in document order, that the profile
    owner wrote with that text, whatever identifiers later comments with the
    same text carry; and every text the owner wrote is represented. *)
Theorem comments_deduplicated_by_text (toUTC : Number -> string)
    (document_title : string) (items : list CommentElement.t)
    (data : list CommentData.t) :
  comments_callback toUTC document_title items = ok data ->
  NoDup (map CommentData.commentText data) /\
  (forall d, In d data ->
     exists c,
       find (owner_comment_with_text (profile_owner_of document_title)
               (CommentData.commentText d)) items = Some c /\
       commentData_of toUTC c (CommentData.commentText d) = ok d) /\
  (forall c t, In c items ->
     owner_comment_with_text (profile_owner_of document_title) t c = true ->
     In t (map CommentData.commentText data)).
Proof.
  intros Hrun.
  apply (dedup_invariant_loop toUTC (profile_owner_of document_title) items [] [] data).
  - split; [constructor|]. split; [intros d []|intros c t []].
  - exact Hrun.
Qed.

Lemma comments_deduplicated_by_text_witness :
  comments_callback (fun _ => "date") "Activity | Ann Lee | LinkedIn"
    Demo.repeated_comments = ok [Demo.first_comment_record] /\
  NoDup (map CommentData.commentText [Demo.first_comment_record]).
Proof.
  assert (Hrun : comments_callback (fun _ => "date") "Activity | Ann Lee | LinkedIn"
                   Demo.repeated_comments = ok [Demo.first_comment_record])
    by (vm_compute; reflexivity).
  split; [exact Hrun|].
  exact (proj1 (comments_deduplicated_by_text (fun _ => "date")
                  "Activity | Ann Lee | LinkedIn" Demo.repeated_comments
                  [Demo.first_comment_record] Hrun)).
Defined.
(* ================================================================== *)
(** * [Number] and [BigInt] read the same integers *)

Section Literals.

Lemma of_Z_of_N (n : N) : JSNumber.of_Z (Z.of_N n) = JSNumber.of_N n.
Proof.
  unfold JSNumber.of_Z.
  replace (Z.of_N n <? 0)%Z with false by (symmetry; apply Z.ltb_ge; lia).
  now rewrite Zabs2N.id.
Qed.

Lemma of_Z_opp_of_N (n : N) :
  JSNumber.of_Z (- Z.of_N n) = JSNumber.neg (JSNumber.of_N n).
Proof. destruct n as [|p]; reflexivity. Qed.

Lemma of_decimal_zero (d : N) : JSNumber.of_decimal d 0 = JSNumber.of_N d.
Proof.
  destruct d as [|p]; [reflexivity|].
  unfold JSNumber.of_decimal. cbn [Z.leb Z.compare Z.to_N].
  now rewrite N.pow_0_r, N.mul_1_r.
Qed.

(** A run of decimal digits is a decimal literal without fraction or
    exponent, and is not [Infinity]. *)
Lemma numeral_decimal (body : string) (v : N) :
  Literal.numeral 10 body = Some v ->
  Literal.decimal body = Some (v, 0%Z) /\ String.eqb body "Infinity" = false.
Proof.
  unfold Literal.numeral, Literal.decimal. intros H.
  destruct (Literal.digits 10 body) as [[x count] rest] eqn:Hd.
  destruct count as [|count]; [discriminate|].
  destruct rest; [|discriminate]. injection H as ->.
  split; [reflexivity|].
  destruct (String.eqb body "Infinity") eqn:Heq; [|reflexivity].
  apply String.eqb_eq in Heq. subst body. discriminate.
Qed.

(** Where [BigInt] reads an integer, the conversion to a Number yields
    the double nearest to it. *)
Lemma of_string_StringToNumber (s : string) (z : Z) :
  BigInt.of_string s = ok z -> Id.StringToNumber s = JSNumber.of_Z z.
Proof.
  unfold BigInt.of_string, Id.StringToNumber.
  destruct (trim s) as [|a t]; [now intros [= <-]|].
  destruct (Literal.radix_prefix (String a t)) as [[radix body]|].
  - destruct (Literal.numeral radix body) as [v|]; [|discriminate].
    intros [= <-]. symmetry. apply of_Z_of_N.
  - destruct (Literal.signed (String a t)) as [negative body].
    destruct (Literal.numeral 10 body) as [v|] eqn:Hnum; [|discriminate].
    intros [= <-].
    destruct (numeral_decimal body v Hnum) as [-> ->].
    rewrite of_decimal_zero.
    destruct negative; symmetry; [apply of_Z_opp_of_N|apply of_Z_of_N].
Qed.

Lemma ToBigInt_ToNumber (id : IdValue) (z : Z) :
  Id.ToBigInt id = ok z -> Id.ToNumber id = JSNumber.of_Z z.
Proof.
  destruct id as [s| |]; cbn [Id.ToBigInt Id.ToNumber].
  - apply of_string_StringToNumber.
  - now intros [= <-].
  - discriminate.
Qed.

Lemma exact_ToBigInt (id : IdValue) (n : N) :
  Id.exact id = Some n -> Id.ToBigInt id = ok (Z.of_N n).
Proof.
  unfold Id.exact.
  destruct (Id.ToBigInt id) as [e|z]; [discriminate|].
  destruct (0 <=? z)%Z eqn:Hz; [|discriminate].
  intros [= <-]. apply Z.leb_le in Hz. now rewrite Z2N.id.
Qed.

Lemma exact_ToNumber (id : IdValue) (n : N) :
  Id.exact id = Some n -> Id.ToNumber id = JSNumber.of_N n.
Proof.
  intros H. rewrite (ToBigInt_ToNumber id _ (exact_ToBigInt id n H)).
  apply of_Z_of_N.
Qed.

(** A negative identifier, like [null], has no exact natural value. *)
Lemma exact_negative (id : IdValue) (z : Z) :
  Id.ToBigInt id = ok z -> (z < 0)%Z -> Id.exact id = None.
Proof.
  intros H Hz. unfold Id.exact. rewrite H. unfold ok.
  now replace (0 <=? z)%Z with false by (symmetry; apply Z.leb_gt; lia).
Qed.

Lemma exact_nonnegative (id : IdValue) (z : Z) :
  Id.ToBigInt id = ok z -> (0 <= z)%Z -> Id.exact id = Some (Z.to_N z).
Proof.
  intros H Hz. unfold Id.exact. rewrite H. unfold ok.
  now replace (0 <=? z)%Z with true by (symmetry; apply Z.leb_le; lia).
Qed.

End Literals.

(* ================================================================== *)
(** * The incremental-sync filter *)

Section Watermark.

Lemma round_to_double_pos (n : N) :
  (0 < n)%N -> (0 < JSNumber.round_to_double n)%N.
Proof.
  intros Hn. unfold JSNumber.round_to_double.
  destruct (n <? 2 ^ 53)%N; [exact Hn|].
  set (e := (N.log2 n - 52)%N).
  assert (Hq : (0 < N.shiftr n e)%N).
  { rewrite N.shiftr_div_pow2.
    apply N.div_str_pos. split.
    - apply N.neq_0_lt_0, N.pow_nonzero. discriminate.
    - eapply N.le_trans; [|apply (N.log2_spec n Hn)].
      apply N.pow_le_mono_r; [discriminate|]. unfold e. lia. }
  assert (Hp : (0 < 2 ^ e)%N) by (apply N.neq_0_lt_0, N.pow_nonzero; discriminate).
  repeat match goal with |- context [if ?c then _ else _] => destruct c end; nia.
Qed.

Lemma of_N_gt_zero (n : N) :
  JSNumber.gt (JSNumber.of_N n) (Fin 0) = (0 <? Z.of_N n)%Z.
Proof.
  unfold JSNumber.of_N.
  destruct (N.eq_dec n 0) as [->|Hn]; [reflexivity|].
  assert (Hpos : (0 < n)%N) by lia.
  pose proof (round_to_double_pos n Hpos) as Hr.
  destruct (JSNumber.round_to_double n <? 2 ^ 1024)%N; cbn [JSNumber.gt].
  - transitivity true; [apply Z.ltb_lt; lia|symmetry; apply Z.ltb_lt; lia].
  - symmetry; apply Z.ltb_lt; lia.
Qed.

(** The double nearest to a negative integer exceeds no watermark that
    is not negative. *)
Lemma neg_of_N_gt (n : N) (w : Z) :
  (0 <= w)%Z -> JSNumber.gt (JSNumber.neg (JSNumber.of_N n)) (Fin w) = false.
Proof.
  intros Hw. unfold JSNumber.of_N.
  destruct (JSNumber.round_to_double n <? 2 ^ 1024)%N;
    cbn [JSNumber.neg JSNumber.gt]; [|reflexivity].
  apply Z.ltb_ge. lia.
Qed.

Lemma of_Z_gt_zero (z : Z) :
  JSNumber.gt (JSNumber.of_Z z) (Fin 0) = (0 <? z)%Z.
Proof.
  destruct (Z.ltb_spec z 0) as [Hneg|Hpos].
  - replace z with (- Z.of_N (Z.abs_N z))%Z by (rewrite N2Z.inj_abs_N; lia).
    rewrite of_Z_opp_of_N, neg_of_N_gt by lia.
    symmetry. apply Z.ltb_ge. lia.
  - replace z with (Z.of_N (Z.abs_N z)) at 1 by (rewrite N2Z.inj_abs_N; lia).
    rewrite of_Z_of_N, of_N_gt_zero. rewrite N2Z.inj_abs_N.
    now rewrite Z.abs_eq by lia.
Qed.

(** At watermark zero the Number comparison agrees with the exact one, on
    every identifier the extractors write. *)
Lemma id_gt_zero (id : IdValue) :
  extracted_id id -> id_gt id (Fin 0) = spec_newer id 0.
Proof.
  unfold id_gt, spec_newer. intros [->|[z Hz]]; [reflexivity|].
  rewrite (ToBigInt_ToNumber id z Hz), of_Z_gt_zero.
  destruct (Z.leb_spec 0 z) as [Hpos|Hneg].
  - rewrite (exact_nonnegative id z Hz Hpos). now rewrite Z2N.id.
  - rewrite (exact_negative id z Hz Hneg). apply Z.ltb_ge. lia.
Qed.

(** Below 2^53 the Number comparison agrees with the exact one. *)
Lemma id_gt_exact_below_2_53 (id : IdValue) (n : N) (w : Z) :
  Id.exact id = Some n -> (n < 2 ^ 53)%N ->
  id_gt id (Fin w) = spec_newer id w.
Proof.
  intros Hex Hn. unfold id_gt, spec_newer.
  rewrite (exact_ToNumber id n Hex), Hex.
  now rewrite of_N_small.
Qed.

End Watermark.

(* ================================================================== *)
(** * The identifiers of extracted records *)

Section ExtractedIds.

Variable toUTC : Number -> string.

(** Whatever holds of every record the loop body can yield holds of the
    result, also when the body looks at what was pushed before. *)
Lemma for_push_Forall_step {E D} (P : D -> Prop)
    (step : list D -> E -> Result (option D)) (items : list E)
    (data out : list D) :
  (forall seen x d, step seen x = ok (Some d) -> P d) ->
  Forall P data ->
  for_push step items data = ok out ->
  Forall P out.
Proof.
  intros Hstep. revert data.
  induction items as [|x items IH]; intros data Hdata; cbn [for_push].
  - intros [= <-]. exact Hdata.
  - destruct (step data x) as [e|[d|]] eqn:Hx; cbn [rbind]; [discriminate| |].
    + apply IH. apply Forall_app. split; [exact Hdata|].
      constructor; [|constructor]. eapply Hstep; exact Hx.
    + apply IH; exact Hdata.
Qed.

Lemma post_of_id (post : PostElement.t) (d : PostData.t) :
  post_of toUTC post = ok (Some d) -> extracted_id (PostData.postId d).
Proof.
  unfold post_of. intros H.
  destruct (str_or_null (PostElement.data_urn post)) as [urn|].
  - destruct (nth_error (split ":" urn) 3) as [postId|];
      cbn [rbind defined ok raise] in H; [|discriminate].
    destruct (BigInt.of_string postId) as [e|big] eqn:Hbig;
      cbn [rbind ok] in H; [discriminate|].
    injection H as <-. right. exists big. exact Hbig.
  - cbn [rbind ok] in H. injection H as <-. now left.
Qed.

Lemma commentData_of_id (c : CommentElement.t) (t : string) (d : CommentData.t) :
  commentData_of toUTC c t = ok d -> extracted_id (CommentData.commentId d).
Proof.
  unfold commentData_of. intros H.
  destruct (CommentElement.data_id c) as [data_id|].
  - repeat match type of H with
           | rbind (rbind (defined ?o) _) _ = _ =>
               destruct o; cbn [rbind defined ok raise] in H; try discriminate
           end.
    destruct (Id.ToBigInt _) as [e|big] eqn:Hbig; cbn [rbind] in H; [discriminate|].
    injection H as <-. right. exists big. exact Hbig.
  - cbn [rbind ok] in H.
    destruct (Id.ToBigInt _) as [e|big] eqn:Hbig; cbn [rbind] in H; [discriminate|].
    injection H as <-. right. exists big. exact Hbig.
Qed.

Lemma posts_callback_ids (items : list PostElement.t) (raw : list PostData.t) :
  posts_callback toUTC items = ok raw ->
  Forall (fun post => extracted_id (PostData.postId post)) raw.
Proof.
  apply for_push_Forall_step; [|constructor].
  intros _ post d. apply post_of_id.
Qed.

Lemma comments_callback_ids (title : string) (items : list CommentElement.t)
    (raw : list CommentData.t) :
  comments_callback toUTC title items = ok raw ->
  Forall (fun comment => extracted_id (CommentData.commentId comment)) raw.
Proof.
  apply for_push_Forall_step; [|constructor].
  intros seen c d. unfold comment_step. intros H.
  destruct (CommentElement.author_span c); cbn [rbind defined ok raise] in H;
    [|discriminate].
  destruct (CommentElement.main_content c) as [text|];
    cbn [rbind defined ok raise] in H; [|discriminate].
  destruct (is_owner _ _); [|discriminate].
  destruct (negb _); [|discriminate].
  destruct (commentData_of toUTC c text) as [e|d'] eqn:Hd; cbn [rbind ok] in H;
    [discriminate|].
  injection H as <-. eapply commentData_of_id; exact Hd.
Qed.

(** On the records of a successful extraction a filter may be replaced by
    any test that agrees with it on extracted identifiers. *)
Lemma filter_extracted {D} (id_of : D -> IdValue) (f g : D -> bool)
    (raw : list D) :
  Forall (fun d => extracted_id (id_of d)) raw ->
  (forall d, extracted_id (id_of d) -> f d = g d) ->
  filter f raw = filter g raw.
Proof.
  intros Hraw Hfg. apply filter_ext_in. intros d Hin.
  apply Hfg. rewrite Forall_forall in Hraw. now apply Hraw.
Qed.

End ExtractedIds.

(** C1 (defect).  The watermark 7193453098040102912 is a double.  A post and
    a comment whose identifier is 7193453098040102913 are strictly newer, yet
    the filters of [getPosts] and [getComments] drop them: the identifier is
    converted to the nearest double, which is the watermark itself. *)
Theorem filter_drops_newer_large_id :
  JSNumber.is_double (Fin 7193453098040102912) = true /\
  posts_callback (fun _ => "date") [Demo.large_id_post_element]
  = ok [Demo.large_id_post] /\
  spec_newer (PostData.postId Demo.large_id_post) 7193453098040102912 = true /\
  Id.ToNumber (PostData.postId Demo.large_id_post) = Fin 7193453098040102912 /\
  filter_posts [Demo.large_id_post] (Fin 7193453098040102912) = [] /\
  spec_newer (CommentData.commentId Demo.large_id_comment) 7193453098040102912 = true /\
  filter_comments [Demo.large_id_comment] (Fin 7193453098040102912) = [].
Proof.
  repeat split; vm_compute; reflexivity.
Qed.

(** C6 (counterexample).  A post container without a [data-urn] attribute is
    extracted with [postId = null]; with no watermark supplied the filter
    removes it, so the extracted item is suppressed. *)
Lemma zero_watermark_suppresses_unidentified_post :
  exists post,
    posts_callback (fun _ => "date") [Demo.unidentified_post_element] = ok [post] /\
    PostData.postId post = IdNull /\
    filter_posts [post] (lastPostID_of None) = [] /\
    filter_posts [post] (lastPostID_of None) <> [post].
Proof.
  eexists. repeat split; try reflexivity. discriminate.
Qed.

(** C6 (amended).  With a watermark of zero, or with no watermark supplied,
    the filters keep, of the items the extractors return, exactly those
    whose identifier denotes a positive integer, in their order; an item
    with no identifier ([null], or the [0] default of a comment), with
    identifier zero or with a negative one is suppressed. *)
Theorem zero_watermark_keeps_positive_ids (toUTC : Number -> string)
    (posts : list PostElement.t) (title : string) (comments : list CommentElement.t)
    (rawUserPostData : list PostData.t) (rawComment : list CommentData.t)
    (other : Number) :
  posts_callback toUTC posts = ok rawUserPostData ->
  comments_callback toUTC title comments = ok rawComment ->
  lastPostID_of None = Fin 0 /\
  lastCommentID_of None = Fin 0 /\
  lastPostID_of (Some (ScraperHistoryMemory.mk (Fin 0) other)) = Fin 0 /\
  lastCommentID_of (Some (ScraperHistoryMemory.mk other (Fin 0))) = Fin 0 /\
  filter_posts rawUserPostData (Fin 0)
  = filter (fun post => spec_newer (PostData.postId post) 0) rawUserPostData /\
  filter_comments rawComment (Fin 0)
  = filter (fun comment => spec_newer (CommentData.commentId comment) 0) rawComment.
Proof.
  intros Hposts Hcomments.
  repeat split; try reflexivity.
  - apply (filter_extracted PostData.postId);
      [eapply posts_callback_ids; exact Hposts|].
    intros post. apply id_gt_zero.
  - apply (filter_extracted CommentData.commentId);
      [eapply comments_callback_ids; exact Hcomments|].
    intros comment. apply id_gt_zero.
Qed.

Lemma zero_watermark_keeps_positive_ids_witness :
  posts_callback (fun _ => "date") Demo.mixed_post_elements = ok Demo.mixed_posts /\
  filter_posts Demo.mixed_posts (Fin 0)
  = [Demo.post_with_id "0x1F"; Demo.post_with_id " 12 "; Demo.post_with_id "42"].
Proof.
  split; [vm_compute; reflexivity|].
  rewrite (proj1 (proj2 (proj2 (proj2 (proj2
             (zero_watermark_keeps_positive_ids (fun _ => "date")
                Demo.mixed_post_elements "Activity | Ann Lee | LinkedIn"
                [Demo.comment_item] Demo.mixed_posts [Demo.first_comment_of_item]
                NaN ltac:(vm_compute; reflexivity) ltac:(vm_compute; reflexivity))))))).
  vm_compute. reflexivity.
Defined.
(* ================================================================== *)
(** * The session controller *)

Section Session.

Variable env : Env.

Lemma same_session_refl (s : Scraper) : same_session s s.
Proof. repeat split. Qed.

Lemma same_session_trans (s1 s2 s3 : Scraper) :
  same_session s1 s2 -> same_session s2 s3 -> same_session s1 s3.
Proof.
  unfold same_session. intros (? & ? & ? & ?) (? & ? & ? & ?).
  repeat split; congruence.
Qed.

(** ** No method closes the browser or kills its process *)

Lemma preserves_ret {A} (a : A) : preserves_session (ret a).
Proof. intros s. apply same_session_refl. Qed.

Lemma preserves_throw {A} (e : Exn) : preserves_session (@throw A e).
Proof. intros s. apply same_session_refl. Qed.

Lemma preserves_lift {A} (r : Result A) : preserves_session (lift r).
Proof. intros s. apply same_session_refl. Qed.

Lemma preserves_get : preserves_session get.
Proof. intros s. apply same_session_refl. Qed.

Lemma preserves_bind {A B} (m : M A) (k : A -> M B) :
  preserves_session m -> (forall a, preserves_session (k a)) ->
  preserves_session (bind m k).
Proof.
  intros Hm Hk s. unfold bind. specialize (Hm s).
  destruct (m s) as [[e|a] s1]; cbn [snd] in *; [exact Hm|].
  eapply same_session_trans; [exact Hm|apply Hk].
Qed.

Lemma preserves_try_catch {A} (body : M A) (handler : Exn -> M A) :
  preserves_session body -> (forall e, preserves_session (handler e)) ->
  preserves_session (try_catch body handler).
Proof.
  intros Hm Hk s. unfold try_catch. specialize (Hm s).
  destruct (body s) as [[e|a] s1]; cbn [snd] in *; [|exact Hm].
  eapply same_session_trans; [exact Hm|apply Hk].
Qed.

Lemma preserves_call (sec : SectionId) (c : Call) :
  preserves_session (Puppeteer.call env sec c).
Proof.
  intros s. unfold Puppeteer.call.
  destruct (fault env sec c); apply same_session_refl.
Qed.

Lemma preserves_on_page (sec : SectionId) (c : Call) (page : nat) :
  preserves_session (Puppeteer.on_page env sec c page).
Proof.
  intros s. unfold Puppeteer.on_page.
  destruct (Puppeteer.is_open page s); [apply preserves_call|apply same_session_refl].
Qed.

Lemma preserves_goto (sec : SectionId) (page : nat) (url : string) :
  preserves_session (Puppeteer.goto env sec page url).
Proof.
  intros s. unfold Puppeteer.goto, Puppeteer.call.
  destruct (Puppeteer.is_open page s); [|apply same_session_refl].
  destruct (fault env sec CGoto); repeat split.
Qed.

Lemma preserves_newPage (sec : SectionId) :
  preserves_session (Puppeteer.newPage env sec).
Proof.
  apply preserves_bind; [apply preserves_call|].
  intros _ s. repeat split.
Qed.

Lemma preserves_closePage (sec : SectionId) (c : Call) (page : nat) :
  preserves_session (Puppeteer.closePage env sec c page).
Proof.
  apply preserves_bind; [apply preserves_on_page|].
  intros _ s. repeat split.
Qed.

Lemma preserves_evaluate {A} (sec : SectionId) (page : nat) (callback : Result A) :
  preserves_session (Puppeteer.evaluate env sec page callback).
Proof.
  apply preserves_bind; [apply preserves_on_page|].
  intros _. apply preserves_lift.
Qed.

Lemma preserves_close (page : option nat) : preserves_session (close page).
Proof. apply preserves_ret. Qed.

Lemma preserves_rethrow {A} (e : Exn) :
  preserves_session (bind (close None) (fun _ => @throw A e)).
Proof.
  apply preserves_bind; [apply preserves_close|intros _; apply preserves_throw].
Qed.

Ltac preserve :=
  repeat first
    [ apply preserves_rethrow
    | apply preserves_throw
    | apply preserves_ret
    | apply preserves_lift
    | apply preserves_get
    | apply preserves_call
    | apply preserves_on_page
    | apply preserves_goto
    | apply preserves_newPage
    | apply preserves_closePage
    | apply preserves_evaluate
    | apply preserves_close
    | apply preserves_bind; [|intros ?]
    | apply preserves_try_catch; [|intros ?]
    | match goal with
      | |- preserves_session (if ?c then _ else _) => destruct c
      end ].

Lemma preserves_createPage (sec : SectionId) :
  preserves_session (createPage env sec).
Proof. unfold createPage. preserve. Qed.

Lemma preserves_section_body {R A} (sec : SectionId) (url : string) (settle : bool)
    (callback : Result R) (finish : R -> A) :
  preserves_session (section_body env sec url settle callback finish).
Proof.
  unfold section_body, Puppeteer.waitForTimeout, autoScroll_page.
  apply preserves_try_catch; [|intros ?; apply preserves_throw].
  apply preserves_bind; [apply preserves_createPage|intros ?].
  preserve.
Qed.

(** No path through [run] closes the browser or kills its process. *)
Lemma run_same_session (profileUrl : string)
    (options : option ScraperHistoryMemory.t) (s : Scraper) :
  same_session s (snd (run env profileUrl options s)).
Proof.
  revert s. change (preserves_session (run env profileUrl options)).
  unfold run, Puppeteer.waitForTimeout, autoScroll_page.
  apply preserves_bind; [apply preserves_get|intros s0].
  repeat match goal with
         | |- preserves_session (if ?c then _ else _) =>
             destruct c; [apply preserves_throw|]
         end.
  apply preserves_try_catch; [|intros ?; apply preserves_rethrow].
  apply preserves_bind; [apply preserves_createPage|intros ?].
  do 4 (apply preserves_bind; [preserve|intros ?]).
  apply preserves_bind;
    [apply (preserves_section_body SExperiences _ true _ spread)|intros ?].
  apply preserves_bind;
    [apply (preserves_section_body SSkills _ true _ ArrayOf)|intros ?].
  apply preserves_bind;
    [apply (preserves_section_body SVolunteerings _ true _ ArrayOf)|intros ?].
  apply preserves_bind;
    [apply (preserves_section_body SHonors _ true _ ArrayOf)|intros ?].
  apply preserves_bind;
    [apply (preserves_section_body SPosts _ false
              (posts_callback (toUTCString env) (post_items env))
              (fun raw => spread (filter_posts raw (lastPostID_of options))))
    |intros ?].
  apply preserves_bind;
    [apply (preserves_section_body SComments _ true
              (comments_callback (toUTCString env) (comments_title env)
                 (comment_items env))
              (fun raw => spread (filter_comments raw (lastCommentID_of options))))
    |intros ?].
  preserve.
Qed.

(** ** Sections run from a scraper that shows a single tab *)

Lemma ready_after_visit (s : Scraper) (url : string) :
  ready s -> ready (after_visit s url).
Proof.
  intros [Hb _]. split; [exact Hb|].
  exists (next_page s). split; [reflexivity|]. cbn. lia.
Qed.

Ltac tabs :=
  cbn -[Nat.eqb];
  rewrite ?Nat.eqb_refl;
  repeat match goal with
         | H : (_ =? _)%nat = false |- _ => rewrite !H
         end;
  cbn -[Nat.eqb].

Ltac arrived :=
  eexists; split; [reflexivity|]; intros; first [discriminate|reflexivity].

Ltac on_fault c :=
  match goal with
  | |- context [fault ?e ?sec c] =>
      destruct (fault e sec c); tabs; [solve [arrived]|]
  end.

Lemma section_body_spec {R A} (sec : SectionId) (url : string) (settle : bool)
    (callback : Result R) (finish : R -> A) (s : Scraper) :
  ready s ->
  exists s',
    section_body env sec url settle callback finish s
    = (section_outcome env sec settle callback finish, s') /\
    (forall v, section_outcome env sec settle callback finish = inr v ->
               s' = after_visit s url).
Proof.
  intros (Hb & p & Hpages & Hfresh).
  destruct s as [ka br pgs np bo pa nav]. cbn in Hb, Hpages, Hfresh. subst br pgs.
  assert (Hnp : (np =? p)%nat = false) by (apply Nat.eqb_neq; lia).
  unfold section_body, section_outcome, section_calls, createPage_calls,
    createPage, try_catch, bind, get, close, ret, throw, lift, autoScroll_page,
    Puppeteer.goto, Puppeteer.evaluate, Puppeteer.newPage, Puppeteer.closePage,
    Puppeteer.waitForTimeout, Puppeteer.on_page, Puppeteer.is_open,
    Puppeteer.call, bind, after_visit.
  tabs.
  destruct settle;
    on_fault CNewPage; on_fault CFirstPageClose; on_fault CPageSetup;
    on_fault CGoto; on_fault CWait; on_fault CAutoScroll;
    try on_fault CSettle; on_fault CEvaluate;
    destruct callback; tabs; arrived.
Qed.

Lemma getExperiences_spec (url : string) (s : Scraper) :
  ready s ->
  exists s',
    getExperiences env url s = (experiences_outcome env, s') /\
    (forall v, experiences_outcome env = inr v ->
               s' = after_visit s (url ++ "details/experience/")).
Proof. apply (section_body_spec SExperiences _ true). Qed.

Lemma getSkills_spec (url : string) (s : Scraper) :
  ready s ->
  exists s',
    getSkills env url s = (skills_outcome env, s') /\
    (forall v, skills_outcome env = inr v ->
               s' = after_visit s (url ++ "details/skills/")).
Proof. apply (section_body_spec SSkills _ true). Qed.

Lemma getVolunteerings_spec (url : string) (s : Scraper) :
  ready s ->
  exists s',
    getVolunteerings env url s = (volunteerings_outcome env, s') /\
    (forall v, volunteerings_outcome env = inr v ->
               s' = after_visit s (url ++ "details/volunteering-experiences/")).
Proof. apply (section_body_spec SVolunteerings _ true). Qed.

Lemma getHonors_spec (url : string) (s : Scraper) :
  ready s ->
  exists s',
    getHonors env url s = (honors_outcome env, s') /\
    (forall v, honors_outcome env = inr v ->
               s' = after_visit s (url ++ "details/honors/")).
Proof. apply (section_body_spec SHonors _ true). Qed.

Lemma getPosts_spec (url : string) (w : Number) (s : Scraper) :
  ready s ->
  exists s',
    getPosts env url w s = (posts_outcome env w, s') /\
    (forall v, posts_outcome env w = inr v ->
               s' = after_visit s (url ++ "recent-activity/all/")).
Proof.
  apply (section_body_spec SPosts _ false
           (posts_callback (toUTCString env) (post_items env))
           (fun raw => spread (filter_posts raw w))).
Qed.

Lemma getComments_spec (url : string) (w : Number) (s : Scraper) :
  ready s ->
  exists s',
    getComments env url w s = (comments_outcome env w, s') /\
    (forall v, comments_outcome env w = inr v ->
               s' = after_visit s (url ++ "/recent-activity/comments/")).
Proof.
  apply (section_body_spec SComments _ true
           (comments_callback (toUTCString env) (comments_title env)
              (comment_items env))
           (fun raw => spread (filter_comments raw w))).
Qed.

(** The profile section, with the tab it leaves open. *)
Lemma profile_section_spec (url : string) (s : Scraper) :
  ready s ->
  exists s',
    profile_section env url s = (profile_outcome env, s') /\
    (forall v, profile_outcome env = inr v -> s' = after_visit s url).
Proof.
  intros (Hb & p & Hpages & Hfresh).
  destruct s as [ka br pgs np bo pa nav]. cbn in Hb, Hpages, Hfresh. subst br pgs.
  assert (Hnp : (np =? p)%nat = false) by (apply Nat.eqb_neq; lia).
  unfold profile_section, profile_outcome, section_outcome, section_calls,
    createPage_calls,
    createPage, try_catch, bind, get, close, ret, throw, lift, autoScroll_page,
    Puppeteer.goto, Puppeteer.evaluate, Puppeteer.newPage, Puppeteer.closePage,
    Puppeteer.waitForTimeout, Puppeteer.on_page, Puppeteer.is_open,
    Puppeteer.call, bind, after_visit.
  tabs.
  on_fault CNewPage; on_fault CFirstPageClose; on_fault CPageSetup;
    on_fault CGoto; on_fault CWait; on_fault CAutoScroll; on_fault CEvaluate.
  arrived.
Qed.

Ltac held :=
  cbn -[getExperiences getSkills getVolunteerings getHonors getPosts getComments
        Nat.eqb];
  rewrite ?Nat.eqb_refl;
  repeat match goal with
         | H : (_ =? _)%nat = false |- _ => rewrite !H
         end;
  cbn -[getExperiences getSkills getVolunteerings getHonors getPosts getComments
        Nat.eqb].

Ltac ended :=
  eexists; split; [reflexivity|]; intros; first [discriminate|reflexivity].

Ltac on_profile_fault c :=
  match goal with
  | |- context [fault ?e SProfile c] =>
      destruct (fault e SProfile c); held; [solve [ended]|]
  end.

Ltac stage spec out :=
  match goal with
  | F : ready ?st |- _ =>
      let s' := fresh "s" in
      let Heq := fresh "Heq" in
      let Hafter := fresh "Hafter" in
      let Hout := fresh "Hout" in
      destruct (spec st F) as (s' & Heq & Hafter);
      rewrite Heq; clear Heq;
      destruct out eqn:Hout; held; [solve [ended]|];
      specialize (Hafter _ eq_refl); subst s';
      match type of F with
      | ready ?st0 =>
          match goal with
          | |- context [after_visit st0 ?u] =>
              apply (ready_after_visit st0 u) in F
          end
      end
  end.

(** What [run] does on a ready scraper once its guards have passed, and
    the scraper it leaves when it returns. *)
Lemma run_spec (profileUrl : string) (options : option ScraperHistoryMemory.t)
    (s : Scraper) :
  ready s ->
  profileUrl <> EmptyString ->
  includes "linkedin.com/" profileUrl = true ->
  exists s',
    run env profileUrl options s = (run_outcome env options (keepAlive s), s') /\
    (forall r, run_outcome env options (keepAlive s) = inr r ->
               s' = after_run s profileUrl).
Proof.
  intros Hready Hne Hin.
  pose proof Hready as (Hb & p & Hpages & Hfresh).
  destruct s as [ka br pgs np bo pa nav]. cbn in Hb, Hpages, Hfresh. subst br pgs.
  assert (Hnp : (np =? p)%nat = false) by (apply Nat.eqb_neq; lia).
  assert (Hclosed : (np =? S (S (S (S (S (S np))))))%nat = false)
    by (apply Nat.eqb_neq; lia).
  apply (ready_after_visit _ profileUrl) in Hready.
  unfold run. unfold bind at 1. unfold get at 1. cbn [browser negb ok].
  destruct (String.eqb profileUrl EmptyString) eqn:Hempty;
    [apply String.eqb_eq in Hempty; contradiction|].
  rewrite Hin. cbn [negb].
  unfold run_outcome, profile_outcome, release_outcome, after_run.
  unfold section_outcome at 1 2. unfold section_calls, createPage_calls.
  unfold createPage, try_catch, bind, get, close, ret, throw, lift, autoScroll_page,
    Puppeteer.goto, Puppeteer.evaluate, Puppeteer.newPage, Puppeteer.closePage,
    Puppeteer.waitForTimeout, Puppeteer.on_page, Puppeteer.is_open,
    Puppeteer.call.
  unfold bind. unfold after_visit in Hready. cbn in Hready.
  held.
  on_profile_fault CNewPage; on_profile_fault CFirstPageClose;
    on_profile_fault CPageSetup; on_profile_fault CGoto;
    on_profile_fault CWait; on_profile_fault CAutoScroll;
    on_profile_fault CEvaluate.
  change {| keepAlive := ka; browser := true; pages := [np]; next_page := S np;
            browser_open := bo; process_alive := pa;
            navigations := (nav ++ [(np, profileUrl)])%list |}
    with (after_visit (mkScraper ka true [p] np bo pa nav) profileUrl) in *.
  stage (getExperiences_spec profileUrl) (experiences_outcome env).
  stage (getSkills_spec profileUrl) (skills_outcome env).
  stage (getVolunteerings_spec profileUrl) (volunteerings_outcome env).
  stage (getHonors_spec profileUrl) (honors_outcome env).
  stage (getPosts_spec profileUrl (lastPostID_of options))
    (posts_outcome env (lastPostID_of options)).
  stage (getComments_spec profileUrl (lastCommentID_of options))
    (comments_outcome env (lastCommentID_of options)).
  destruct ka; held; ended.
Qed.

Lemma run_guards (profileUrl : string) (options : option ScraperHistoryMemory.t)
    (s : Scraper) :
  browser s = false \/ profileUrl = EmptyString \/ includes "linkedin.com/" profileUrl = false ->
  exists e, run env profileUrl options s = (inl e, s).
Proof.
  intros Hguard. unfold run. unfold bind at 1. unfold get at 1. cbn [ok].
  destruct (browser s); cbn [negb]; [|eexists; reflexivity].
  destruct (String.eqb profileUrl EmptyString) eqn:Hempty; [eexists; reflexivity|].
  destruct (includes "linkedin.com/" profileUrl); cbn [negb];
    [|eexists; reflexivity].
  destruct Hguard as [Hb|[->|Hin]]; discriminate.
Qed.

(** From a ready scraper [run] either stops at a guard, leaving the
    scraper as it was, or ends as [run_outcome] says. *)
Lemma run_cases (profileUrl : string) (options : option ScraperHistoryMemory.t)
    (s : Scraper) :
  ready s ->
  (exists e, run env profileUrl options s = (inl e, s)) \/
  (profileUrl <> EmptyString /\
   includes "linkedin.com/" profileUrl = true /\
   exists s', run env profileUrl options s
              = (run_outcome env options (keepAlive s), s')).
Proof.
  intros Hready.
  destruct (String.eqb profileUrl EmptyString) eqn:Hempty.
  { apply String.eqb_eq in Hempty. left. apply run_guards; auto. }
  destruct (includes "linkedin.com/" profileUrl) eqn:Hin;
    [|left; apply run_guards; auto].
  right. apply String.eqb_neq in Hempty. repeat split; auto.
  destruct (run_spec profileUrl options s Hready Hempty Hin) as (s' & Hrun & _).
  eauto.
Qed.

Lemma first_fault_none (sec : SectionId) (cs : list Call) :
  first_fault env sec cs = None <-> (forall c, In c cs -> fault env sec c = None).
Proof.
  induction cs as [|c cs IH]; cbn [first_fault].
  - split; [intros _ c []|reflexivity].
  - destruct (fault env sec c) eqn:Hc.
    + split; [discriminate|]. intros H. rewrite <- Hc. apply H. now left.
    + rewrite IH. split.
      * intros H c' [<-|Hin]; auto.
      * intros H c' Hin. apply H. now right.
Qed.

(** ** Sections that return and sections that throw *)

(** A scraper as [setup] leaves it. *)
Lemma ready_exists : ready (mkScraper false true [0] 1 true true []).
Proof. split; [reflexivity|]. exists 0. split; [reflexivity|]. cbn. lia. Qed.

(** A method whose outcome does not depend on the ready scraper it is run
    from returns, or throws, what that outcome says. *)
Lemma returns_iff {A} (m : M A) (out : Result A) (v : A) :
  (forall s, ready s -> exists s', m s = (out, s')) ->
  returns m v <-> out = inr v.
Proof.
  intros Hspec. split.
  - intros Hret.
    destruct (Hspec _ ready_exists) as (s1 & H1).
    destruct (Hret _ ready_exists) as (s2 & H2).
    rewrite H1 in H2. now injection H2.
  - intros -> s Hs. apply Hspec, Hs.
Qed.

Lemma throws_iff {A} (m : M A) (out : Result A) (e : Exn) :
  (forall s, ready s -> exists s', m s = (out, s')) ->
  throws m e <-> out = inl e.
Proof.
  intros Hspec. split.
  - intros Hthrow.
    destruct (Hspec _ ready_exists) as (s1 & H1).
    destruct (Hthrow _ ready_exists) as (s2 & H2).
    rewrite H1 in H2. now injection H2.
  - intros -> s Hs. apply Hspec, Hs.
Qed.

Lemma spec_outcome {A} (m : M A) (out : Result A) (url : string) :
  (forall s, ready s ->
     exists s', m s = (out, s') /\ (forall v, out = inr v -> s' = after_visit s url)) ->
  forall s, ready s -> exists s', m s = (out, s').
Proof. intros H s Hs. destruct (H s Hs) as (s' & Heq & _). eauto. Qed.

End Session.
(* ================================================================== *)
(** * Properties of [run] *)

Section Sections.

Variable env : Env.
Variable profileUrl : string.
Variable options : option ScraperHistoryMemory.t.

Lemma profile_section_outcome (s : Scraper) :
  ready s -> exists s', profile_section env profileUrl s = (profile_outcome env, s').
Proof. apply (spec_outcome _ _ _ (profile_section_spec env profileUrl)). Qed.

Lemma getExperiences_outcome (s : Scraper) :
  ready s -> exists s', getExperiences env profileUrl s = (experiences_outcome env, s').
Proof. apply (spec_outcome _ _ _ (getExperiences_spec env profileUrl)). Qed.

Lemma getSkills_outcome (s : Scraper) :
  ready s -> exists s', getSkills env profileUrl s = (skills_outcome env, s').
Proof. apply (spec_outcome _ _ _ (getSkills_spec env profileUrl)). Qed.

Lemma getVolunteerings_outcome (s : Scraper) :
  ready s ->
  exists s', getVolunteerings env profileUrl s = (volunteerings_outcome env, s').
Proof. apply (spec_outcome _ _ _ (getVolunteerings_spec env profileUrl)). Qed.

Lemma getHonors_outcome (s : Scraper) :
  ready s -> exists s', getHonors env profileUrl s = (honors_outcome env, s').
Proof. apply (spec_outcome _ _ _ (getHonors_spec env profileUrl)). Qed.

Lemma getPosts_outcome (s : Scraper) :
  ready s ->
  exists s', getPosts env profileUrl (lastPostID_of options) s
             = (posts_outcome env (lastPostID_of options), s').
Proof. apply (spec_outcome _ _ _ (getPosts_spec env profileUrl _)). Qed.

Lemma getComments_outcome (s : Scraper) :
  ready s ->
  exists s', getComments env profileUrl (lastCommentID_of options) s
             = (comments_outcome env (lastCommentID_of options), s').
Proof. apply (spec_outcome _ _ _ (getComments_spec env profileUrl _)). Qed.

Lemma profile_outcome_value (page : RawProfilePage.t) :
  profile_outcome env = inr page -> page = profile_page env.
Proof.
  unfold profile_outcome, section_outcome.
  destruct (first_fault env SProfile (section_calls false)); [discriminate|].
  cbv [rbind ok]. congruence.
Qed.

(** A section whose outcome is a value does not fail. *)
Lemma returned_not_fails {A} (m : M A) (out : Result A) (v : A) :
  (forall s, ready s -> exists s', m s = (out, s')) ->
  out = inr v -> ~ fails m.
Proof.
  intros Hspec Hout [e He].
  apply (throws_iff m out e Hspec) in He. congruence.
Qed.

Lemma returned_succeeds {A} (m : M A) (out : Result A) (v : A) :
  (forall s, ready s -> exists s', m s = (out, s')) ->
  out = inr v -> succeeds m.
Proof. intros Hspec Hout. exists v. now apply (returns_iff m out v Hspec). Qed.

Lemma thrown_throws {A} (m : M A) (out : Result A) (e : Exn) :
  (forall s, ready s -> exists s', m s = (out, s')) ->
  out = inl e -> throws m e.
Proof. intros Hspec Hout. now apply (throws_iff m out e Hspec). Qed.

End Sections.

(** C5.  [run] never returns a partial aggregation.  When a run started on
    a ready scraper returns an object, each of the seven sections returns,
    and the object holds exactly the values they return.  When some section
    fails, [run] throws, from every ready scraper, the very exception that
    the first failing section throws, and returns nothing. *)
Theorem run_returns_no_partial_result (env : Env) (profileUrl : string)
    (options : option ScraperHistoryMemory.t) :
  (forall s r s',
     ready s ->
     run env profileUrl options s = (inr r, s') ->
     exists experiences skills volunteerings honors posts comments,
       returns (profile_section env profileUrl) (profile_page env) /\
       returns (getExperiences env profileUrl) experiences /\
       returns (getSkills env profileUrl) skills /\
       returns (getVolunteerings env profileUrl) volunteerings /\
       returns (getHonors env profileUrl) honors /\
       returns (getPosts env profileUrl (lastPostID_of options)) posts /\
       returns (getComments env profileUrl (lastCommentID_of options)) comments /\
       r = [ ("userProfile",
              VProfile (userProfile_of env (RawProfilePage.raw_profile (profile_page env))));
             ("experiences", VExperiences experiences);
             ("education",
              VEducation (ArrayOf (map (education_of env)
                                     (RawProfilePage.raw_education (profile_page env)))));
             ("skills", VSkills skills);
             ("volunteerings", VVolunteerings volunteerings);
             ("posts", VPosts posts);
             ("comments", VComments comments) ]) /\
  (profileUrl <> EmptyString ->
   includes "linkedin.com/" profileUrl = true ->
   Exists attempt_fails (sections env profileUrl options) ->
   exists e,
     first_to_throw (sections env profileUrl options) e /\
     forall s, ready s -> exists s', run env profileUrl options s = (inl e, s')).
Proof.
  pose proof (profile_section_outcome env profileUrl) as S0.
  pose proof (getExperiences_outcome env profileUrl) as S1.
  pose proof (getSkills_outcome env profileUrl) as S2.
  pose proof (getVolunteerings_outcome env profileUrl) as S3.
  pose proof (getHonors_outcome env profileUrl) as S4.
  pose proof (getPosts_outcome env profileUrl options) as S5.
  pose proof (getComments_outcome env profileUrl options) as S6.
  split.
  - intros s r s' Hready Hrun.
    destruct (run_cases env profileUrl options s Hready)
      as [[e He]|(_ & _ & s'' & Heq)]; [congruence|].
    rewrite Heq in Hrun. injection Hrun as Hout _. clear Heq.
    unfold run_outcome in Hout.
    destruct (profile_outcome env) as [|page] eqn:H0; [discriminate|].
    destruct (experiences_outcome env) as [|experiences] eqn:H1; [discriminate|].
    destruct (skills_outcome env) as [|skills] eqn:H2; [discriminate|].
    destruct (volunteerings_outcome env) as [|volunteerings] eqn:H3; [discriminate|].
    destruct (honors_outcome env) as [|honors] eqn:H4; [discriminate|].
    destruct (posts_outcome env (lastPostID_of options)) as [|posts] eqn:H5;
      [discriminate|].
    destruct (comments_outcome env (lastCommentID_of options)) as [|comments] eqn:H6;
      [discriminate|].
    destruct (release_outcome (keepAlive s)); [discriminate|].
    cbn [rbind ok] in Hout. injection Hout as <-.
    pose proof (profile_outcome_value env page H0) as ->.
    exists experiences, skills, volunteerings, honors, posts, comments.
    repeat split.
    + now apply (returns_iff _ _ _ S0).
    + now apply (returns_iff _ _ _ S1).
    + now apply (returns_iff _ _ _ S2).
    + now apply (returns_iff _ _ _ S3).
    + now apply (returns_iff _ _ _ S4).
    + now apply (returns_iff _ _ _ S5).
    + now apply (returns_iff _ _ _ S6).
  - intros Hne Hin Hfail.
    assert (Hrun : forall s, ready s ->
              exists s', run env profileUrl options s
                         = (run_outcome env options (keepAlive s), s'))
      by (intros s Hs; destruct (run_spec env profileUrl options s Hs Hne Hin)
                         as (s' & Hs' & _); eauto).
    unfold run_outcome in Hrun.
    unfold sections, first_to_throw.
    destruct (profile_outcome env) as [e|v0] eqn:H0.
    { exists e. split; [left; exact (thrown_throws _ _ _ S0 eq_refl)|exact Hrun]. }
    pose proof (returned_succeeds _ _ _ S0 eq_refl) as Y0.
    destruct (experiences_outcome env) as [e|v1] eqn:H1.
    { exists e. split; [|exact Hrun].
      right. split; [exact Y0|]. left. exact (thrown_throws _ _ _ S1 eq_refl). }
    pose proof (returned_succeeds _ _ _ S1 eq_refl) as Y1.
    destruct (skills_outcome env) as [e|v2] eqn:H2.
    { exists e. split; [|exact Hrun].
      do 2 (right; split; [assumption|]). left. exact (thrown_throws _ _ _ S2 eq_refl). }
    pose proof (returned_succeeds _ _ _ S2 eq_refl) as Y2.
    destruct (volunteerings_outcome env) as [e|v3] eqn:H3.
    { exists e. split; [|exact Hrun].
      do 3 (right; split; [assumption|]). left. exact (thrown_throws _ _ _ S3 eq_refl). }
    pose proof (returned_succeeds _ _ _ S3 eq_refl) as Y3.
    destruct (honors_outcome env) as [e|v4] eqn:H4.
    { exists e. split; [|exact Hrun].
      do 4 (right; split; [assumption|]). left. exact (thrown_throws _ _ _ S4 eq_refl). }
    pose proof (returned_succeeds _ _ _ S4 eq_refl) as Y4.
    destruct (posts_outcome env (lastPostID_of options)) as [e|v5] eqn:H5.
    { exists e. split; [|exact Hrun].
      do 5 (right; split; [assumption|]). left. exact (thrown_throws _ _ _ S5 eq_refl). }
    pose proof (returned_succeeds _ _ _ S5 eq_refl) as Y5.
    destruct (comments_outcome env (lastCommentID_of options)) as [e|v6] eqn:H6.
    { exists e. split; [|exact Hrun].
      do 6 (right; split; [assumption|]). left. exact (thrown_throws _ _ _ S6 eq_refl). }
    exfalso. unfold sections in Hfail.
    repeat match goal with
           | H : Exists _ (_ :: _) |- _ => apply Exists_cons in H; destruct H as [H|H]
           | H : Exists _ [] |- _ => apply Exists_nil in H; contradiction
           end.
    + exact (returned_not_fails _ _ _ S0 eq_refl Hfail).
    + exact (returned_not_fails _ _ _ S1 eq_refl Hfail).
    + exact (returned_not_fails _ _ _ S2 eq_refl Hfail).
    + exact (returned_not_fails _ _ _ S3 eq_refl Hfail).
    + exact (returned_not_fails _ _ _ S4 eq_refl Hfail).
    + exact (returned_not_fails _ _ _ S5 eq_refl Hfail).
    + exact (returned_not_fails _ _ _ S6 eq_refl Hfail).
Qed.

Lemma run_returns_no_partial_result_witness :
  (exists r s',
     run Demo.env Demo.profileUrl None Demo.scraper = (inr r, s') /\
     returns (getSkills Demo.env Demo.profileUrl)
       (ArrayOf [Skill.mk (Some "Rocq")]) /\
     property "skills" r = Some (VSkills (ArrayOf [Skill.mk (Some "Rocq")]))) /\
  (throws (getSkills Demo.failing_env Demo.profileUrl) (External 1) /\
   exists s',
     run Demo.failing_env Demo.profileUrl None Demo.scraper = (inl (External 1), s')).
Proof.
  assert (Hready : ready Demo.scraper).
  { split; [reflexivity|]. exists 0. split; [reflexivity|]. cbn. lia. }
  split.
  - destruct (run Demo.env Demo.profileUrl None Demo.scraper) as [[e|r] s'] eqn:Hrun;
      [vm_compute in Hrun; discriminate|].
    exists r, s'. split; [reflexivity|].
    destruct (proj1 (run_returns_no_partial_result Demo.env Demo.profileUrl None)
                Demo.scraper r s' Hready Hrun)
      as (experiences & skills & volunteerings & honors & posts & comments
          & _ & _ & Hskills & _ & _ & _ & _ & ->).
    assert (Hvalue : skills = ArrayOf [Skill.mk (Some "Rocq")]).
    { destruct (Hskills _ Hready) as (s1 & H1). vm_compute in H1. now injection H1. }
    subst skills. split; [exact Hskills|reflexivity].
  - assert (Hthrows : throws (getSkills Demo.failing_env Demo.profileUrl) (External 1)).
    { apply (thrown_throws _ _ _ (getSkills_outcome Demo.failing_env Demo.profileUrl)).
      reflexivity. }
    split; [exact Hthrows|].
    destruct (proj2 (run_returns_no_partial_result Demo.failing_env Demo.profileUrl None))
      as (e & Hfirst & Hrun).
    + discriminate.
    + reflexivity.
    + apply Exists_cons_tl, Exists_cons_tl, Exists_cons_hd.
      exists (External 1). exact Hthrows.
    + destruct (Hrun _ Hready) as (s' & Hs').
      exists s'. rewrite Hs'. vm_compute in Hs'. now injection Hs' as ->.
Defined.

Section Inversion.

Variable env : Env.

Lemma bind_inr_inv {A B} (m : M A) (k : A -> M B) (s s' : Scraper) (b : B) :
  bind m k s = (inr b, s') ->
  exists a s1, m s = (inr a, s1) /\ k a s1 = (inr b, s').
Proof.
  unfold bind. destruct (m s) as [[e|a] s1]; [discriminate|eauto].
Qed.

Lemma try_catch_inr_inv {A} (body : M A) (handler : Exn -> M A)
    (s s' : Scraper) (a : A) :
  (forall e s1 s2 x, handler e s1 <> (inr x, s2)) ->
  try_catch body handler s = (inr a, s') -> body s = (inr a, s').
Proof.
  intros Hh. unfold try_catch.
  destruct (body s) as [[e|x] s1]; [|auto].
  intros H. exfalso. eapply Hh; exact H.
Qed.

Lemma rethrow_never_returns {A} (e : Exn) (s1 s2 : Scraper) (x : A) :
  throw e s1 <> (inr x, s2).
Proof. discriminate. Qed.

Lemma close_throw_never_returns {A} (e : Exn) (s1 s2 : Scraper) (x : A) :
  bind (close None) (fun _ => throw e) s1 <> (inr x, s2).
Proof. discriminate. Qed.

(** What a section returns is what its last statement builds from the
    callback's result. *)
Lemma section_body_returns {R A} (sec : SectionId) (url : string) (settle : bool)
    (callback : Result R) (finish : R -> A) (s s' : Scraper) (v : A) :
  section_body env sec url settle callback finish s = (inr v, s') ->
  exists raw, callback = inr raw /\ v = finish raw.
Proof.
  unfold section_body. intros H.
  apply try_catch_inr_inv in H; [|intros; apply rethrow_never_returns].
  do 5 (apply bind_inr_inv in H as (? & ? & _ & H)).
  apply bind_inr_inv in H as (raw & s1 & Heval & H).
  unfold Puppeteer.evaluate in Heval.
  apply bind_inr_inv in Heval as (? & ? & _ & Heval).
  unfold lift in Heval. injection Heval as Hraw _.
  injection H as <- _. exists raw. split; [exact Hraw|reflexivity].
Qed.

End Inversion.

(** Every object [run] returns has the seven properties of lines 1208-1216
    and no others; whatever [getHonors] returned is not among them. *)
Lemma run_result_keys (env : Env) (profileUrl : string)
    (options : option ScraperHistoryMemory.t) (s s' : Scraper) (r : RunResult) :
  run env profileUrl options s = (inr r, s') ->
  keys r = ["userProfile"; "experiences"; "education"; "skills";
            "volunteerings"; "posts"; "comments"] /\
  option_map holds_array (property "experiences" r) = Some false /\
  option_map holds_array (property "posts" r) = Some false /\
  option_map holds_array (property "comments" r) = Some false.
Proof.
  intros H. unfold run in H.
  apply bind_inr_inv in H as (s0 & s00 & _ & H).
  destruct (negb (browser s0)); [discriminate|].
  destruct (String.eqb profileUrl EmptyString); [discriminate|].
  destruct (negb (includes "linkedin.com/" profileUrl)); [discriminate|].
  apply try_catch_inr_inv in H; [|intros; apply close_throw_never_returns].
  do 5 (apply bind_inr_inv in H as (? & ? & _ & H)).
  apply bind_inr_inv in H as (experiences & s1 & He & H).
  do 3 (apply bind_inr_inv in H as (? & ? & _ & H)).
  apply bind_inr_inv in H as (posts & s5 & Hp & H).
  apply bind_inr_inv in H as (comments & s6 & Hc & H).
  do 2 (apply bind_inr_inv in H as (? & ? & _ & H)).
  injection H as <- _.
  apply (section_body_returns env SExperiences _ true _ spread) in He
    as (raw1 & _ & ->).
  apply (section_body_returns env SPosts _ false
           (posts_callback (toUTCString env) (post_items env))
           (fun raw => spread (filter_posts raw (lastPostID_of options)))) in Hp
    as (raw2 & _ & ->).
  apply (section_body_returns env SComments _ true
           (comments_callback (toUTCString env) (comments_title env) (comment_items env))
           (fun raw => spread (filter_comments raw (lastCommentID_of options)))) in Hc
    as (raw3 & _ & ->).
  repeat split; reflexivity.
Qed.

(** C3 (defect).  A successful run on the demonstration profile: the page
    yields a license, a language and an honor, which [run] computes, yet the
    returned object has no property for any of them; and its [experiences],
    [posts] and [comments] are index-keyed plain objects, not arrays. *)
Theorem run_result_misses_sections :
  exists r s',
    run Demo.env Demo.profileUrl None Demo.scraper = (inr r, s') /\
    keys r = ["userProfile"; "experiences"; "education"; "skills";
              "volunteerings"; "posts"; "comments"] /\
    map (license_of Demo.env) (RawProfilePage.raw_license (profile_page Demo.env))
    = [License.mk (Some "Solutions Architect") (Some "Amazon Web Services")] /\
    map (language_of Demo.env) (RawProfilePage.raw_language (profile_page Demo.env))
    = [Language.mk (Some "German") (Some "Native")] /\
    honors_outcome Demo.env = ok (ArrayOf [Demo.honor]) /\
    property "license" r = None /\
    property "language" r = None /\
    property "honors" r = None /\
    option_map holds_array (property "experiences" r) = Some false /\
    option_map holds_array (property "posts" r) = Some false /\
    option_map holds_array (property "comments" r) = Some false /\
    option_map holds_array (property "skills" r) = Some true.
Proof.
  eexists. eexists. split; [vm_compute; reflexivity|].
  repeat split; vm_compute; reflexivity.
Qed.

(** C4 (defect).  With [keepAlive] off, after a successful run and after a
    run that fails while navigating to the skills page, the browser is still
    open, its process is still alive and a tab is still open; with
    [keepAlive] on, the failed run leaves its tab open as well. *)
Theorem close_releases_nothing :
  (exists r s',
     run Demo.env Demo.profileUrl None Demo.scraper = (inr r, s') /\
     keepAlive s' = false /\ browser_open s' = true /\ process_alive s' = true /\
     pages s' = [7]) /\
  (exists s',
     run Demo.failing_env Demo.profileUrl None Demo.scraper = (inl (External 1), s') /\
     keepAlive s' = false /\ browser_open s' = true /\ process_alive s' = true /\
     pages s' = [3]) /\
  (exists s',
     run Demo.failing_env Demo.profileUrl None Demo.kept_scraper
     = (inl (External 1), s') /\
     keepAlive s' = true /\ pages s' = [3]).
Proof.
  split; [|split].
  - eexists. eexists. split; [vm_compute; reflexivity|]. repeat split.
  - eexists. split; [vm_compute; reflexivity|]. repeat split.
  - eexists. split; [vm_compute; reflexivity|]. repeat split.
Qed.

(** C7 (defect).  The host of [https://notlinkedin.com/in/ann-lee/] is not
    linkedin.com, yet [run] accepts the URL, opens a page and navigates to
    it: the guard that throws "The given URL to scrape is not a linkedin.com
    url." tests for the text [linkedin.com/] anywhere in the URL. *)
Theorem run_navigates_to_foreign_host :
  spec_belongs_to_linkedin Demo.foreignUrl = false /\
  exists r s',
    run Demo.env Demo.foreignUrl None Demo.scraper = (inr r, s') /\
    In (1, Demo.foreignUrl) (navigations s').
Proof.
  split; [reflexivity|].
  eexists. eexists. split; [vm_compute; reflexivity|].
  left. reflexivity.
Qed.

(** What the guard does achieve: a [profileUrl] that does not contain the
    text [linkedin.com/] makes [run] throw at once, and the scraper is left
    exactly as it was, so no page was created and no navigation took
    place. *)
Lemma run_rejects_url_without_marker (env : Env) (profileUrl : string)
    (options : option ScraperHistoryMemory.t) (s : Scraper) :
  includes "linkedin.com/" profileUrl = false ->
  exists e,
    run env profileUrl options s = (inl e, s) /\
    pages (snd (run env profileUrl options s)) = pages s /\
    navigations (snd (run env profileUrl options s)) = navigations s.
Proof.
  intros Hin.
  destruct (run_guards env profileUrl options s) as [e He]; [auto|].
  exists e. rewrite He. repeat split.
Qed.

Lemma run_rejects_url_without_marker_witness :
  includes "linkedin.com/" "https://example.org/in/ann-lee/" = false /\
  exists e,
    run Demo.env "https://example.org/in/ann-lee/" None Demo.scraper
    = (inl e, Demo.scraper).
Proof.
  split; [reflexivity|].
  destruct (run_rejects_url_without_marker Demo.env "https://example.org/in/ann-lee/"
              None Demo.scraper eq_refl) as (e & He & _).
  exists e. exact He.
Defined.

(* ================================================================== *)
(** * Rounding to a double is monotone *)

Section Rounding.

Local Open Scope N_scope.

(** The pieces of [round_to_double] for an argument of 54 bits or more. *)
Lemma round_to_double_large (n : N) :
  2 ^ 53 <= n ->
  let e := N.log2 n - 52 in
  let q := N.shiftr n e in
  let r := n mod 2 ^ e in
  N.log2 n = e + 52 /\
  n = q * 2 ^ e + r /\ r < 2 ^ e /\
  2 ^ 52 <= q /\ q < 2 ^ 53 /\
  2 ^ N.log2 n = 2 ^ 52 * 2 ^ e /\
  JSNumber.round_to_double n
  = (if r <? 2 ^ (e - 1) then q * 2 ^ e
     else if 2 ^ (e - 1) <? r then (q + 1) * 2 ^ e
     else if N.even q then q * 2 ^ e else (q + 1) * 2 ^ e).
Proof.
  intros Hn e q r.
  assert (Hpos : 0 < n).
  { eapply N.lt_le_trans; [|exact Hn]. reflexivity. }
  assert (Hlog : 53 <= N.log2 n).
  { apply N.log2_le_pow2; assumption. }
  assert (He : N.log2 n = e + 52) by (unfold e; lia).
  assert (Hpe : 0 < 2 ^ e) by (apply N.neq_0_lt_0, N.pow_nonzero; discriminate).
  assert (Hq : q = n / 2 ^ e) by (unfold q; apply N.shiftr_div_pow2).
  assert (Hdiv : n = 2 ^ e * q + r).
  { rewrite Hq. unfold r. apply N.div_mod. lia. }
  assert (Hr : r < 2 ^ e) by (unfold r; apply N.mod_lt; lia).
  assert (Hpow : 2 ^ N.log2 n = 2 ^ 52 * 2 ^ e).
  { rewrite He, N.add_comm. apply N.pow_add_r. }
  destruct (N.log2_spec n Hpos) as [Hlo Hhi].
  rewrite N.pow_succ_r', Hpow in Hhi. rewrite Hpow in Hlo.
  repeat split; try assumption.
  - lia.
  - change (2 ^ 52) with 4503599627370496 in *. nia.
  - change (2 ^ 53) with 9007199254740992.
    change (2 ^ 52) with 4503599627370496 in *. nia.
  - unfold JSNumber.round_to_double.
    apply N.ltb_ge in Hn. rewrite Hn. reflexivity.
Qed.

Lemma round_to_double_bounds (n : N) :
  2 ^ 53 <= n ->
  2 ^ N.log2 n <= JSNumber.round_to_double n /\
  JSNumber.round_to_double n <= 2 * 2 ^ N.log2 n.
Proof.
  intros Hn.
  destruct (round_to_double_large n Hn) as (_ & _ & _ & Hq1 & Hq2 & Hpow & Hround).
  rewrite Hround, Hpow. clear Hround Hpow.
  set (P := 2 ^ (N.log2 n - 52)) in *.
  set (q := N.shiftr n (N.log2 n - 52)) in *.
  change (2 ^ 52) with 4503599627370496 in *.
  change (2 ^ 53) with 9007199254740992 in *.
  repeat match goal with |- context [if ?c then _ else _] => destruct c end; nia.
Qed.

Lemma round_to_double_mono (n m : N) :
  n <= m -> JSNumber.round_to_double n <= JSNumber.round_to_double m.
Proof.
  intros Hnm.
  destruct (N.lt_ge_cases m (2 ^ 53)) as [Hm|Hm].
  { rewrite !round_to_double_small; [assumption|assumption|lia]. }
  destruct (round_to_double_bounds m Hm) as [Hlo_m _].
  assert (Hlog_m : 53 <= N.log2 m) by (apply N.log2_le_pow2; lia).
  destruct (N.lt_ge_cases n (2 ^ 53)) as [Hn|Hn].
  { rewrite (round_to_double_small n Hn).
    eapply N.le_trans; [|exact Hlo_m].
    eapply N.le_trans; [apply N.lt_le_incl; exact Hn|].
    apply N.pow_le_mono_r; [discriminate|assumption]. }
  destruct (round_to_double_bounds n Hn) as [_ Hhi_n].
  pose proof (N.log2_le_mono n m Hnm) as Hlog.
  destruct (N.eq_dec (N.log2 n) (N.log2 m)) as [Heq|Hneq].
  - (* same exponent *)
    destruct (round_to_double_large n Hn) as (_ & Hn' & Hrn & _ & _ & _ & ->).
    destruct (round_to_double_large m Hm) as (_ & Hm' & Hrm & _ & _ & _ & ->).
    rewrite <- Heq in *.
    set (e := N.log2 n - 52) in *.
    set (P := 2 ^ e) in *. set (H := 2 ^ (e - 1)) in *.
    set (qn := N.shiftr n e) in *. set (qm := N.shiftr m e) in *.
    set (rn := n mod P) in *. set (rm := m mod P) in *.
    assert (Hq : qn <= qm) by nia.
    destruct (N.eq_dec qn qm) as [Hqq|Hqq].
    + rewrite <- Hqq in *.
      assert (Hr : rn <= rm) by nia.
      destruct (rn <? H) eqn:C1; destruct (rm <? H) eqn:C2;
        destruct (H <? rn) eqn:C3; destruct (H <? rm) eqn:C4;
        destruct (N.even qn);
        try apply N.ltb_lt in C1; try apply N.ltb_ge in C1;
        try apply N.ltb_lt in C2; try apply N.ltb_ge in C2;
        try apply N.ltb_lt in C3; try apply N.ltb_ge in C3;
        try apply N.ltb_lt in C4; try apply N.ltb_ge in C4;
        nia.
    + assert (Hlt : qn + 1 <= qm) by lia.
      assert (Hstep : (qn + 1) * P <= qm * P) by (apply N.mul_le_mono_r; exact Hlt).
      repeat match goal with |- context [if ?c then _ else _] => destruct c end; nia.
  - (* a smaller exponent *)
    eapply N.le_trans; [exact Hhi_n|].
    eapply N.le_trans; [|exact Hlo_m].
    rewrite <- N.pow_succ_r'.
    apply N.pow_le_mono_r; [discriminate|lia].
Qed.

End Rounding.

(* ================================================================== *)
(** * What the Number comparison of the filter guarantees *)

Section FilterGuarantees.

Lemma is_double_round (w : Z) :
  (0 <= w)%Z -> JSNumber.is_double (Fin w) = true ->
  JSNumber.round_to_double (Z.to_N w) = Z.to_N w /\ (Z.to_N w < 2 ^ 1024)%N.
Proof.
  intros Hw Hd. cbn [JSNumber.is_double] in Hd.
  apply andb_true_iff in Hd as [Hr Hb].
  apply N.eqb_eq in Hr. apply Z.ltb_lt in Hb.
  replace (Z.abs_N w) with (Z.to_N w) in Hr by (destruct w; try reflexivity; lia).
  split; [exact Hr|].
  rewrite Z.abs_eq in Hb by assumption.
  apply N2Z.inj_lt. rewrite Z2N.id by assumption.
  rewrite N2Z.inj_pow. exact Hb.
Qed.

(** [of_N n > w] as a statement about the rounded value. *)
Lemma of_N_gt (n : N) (w : Z) :
  JSNumber.gt (JSNumber.of_N n) (Fin w) = true <->
  (JSNumber.round_to_double n < 2 ^ 1024)%N /\ (w < Z.of_N (JSNumber.round_to_double n))%Z
  \/ (2 ^ 1024 <= JSNumber.round_to_double n)%N.
Proof.
  unfold JSNumber.of_N.
  destruct (JSNumber.round_to_double n <? 2 ^ 1024)%N eqn:Hlt; cbn [JSNumber.gt].
  - apply N.ltb_lt in Hlt. rewrite Z.ltb_lt. split; [auto|].
    intros [[_ H]|H]; [exact H|lia].
  - apply N.ltb_ge in Hlt. split; [auto|reflexivity].
Qed.

(** An extracted identifier that passes a non-negative watermark denotes
    a natural number. *)
Lemma id_gt_exact (id : IdValue) (w : Z) :
  extracted_id id ->
  (0 <= w)%Z -> id_gt id (Fin w) = true -> exists n, Id.exact id = Some n.
Proof.
  intros [->|[z Hz]] Hw; unfold id_gt.
  - cbn [Id.ToNumber JSNumber.gt]. intros H. apply Z.ltb_lt in H. lia.
  - rewrite (ToBigInt_ToNumber id z Hz).
    destruct (Z.lt_ge_cases z 0) as [Hneg|Hpos].
    + replace z with (- Z.of_N (Z.abs_N z))%Z by (rewrite N2Z.inj_abs_N; lia).
      rewrite of_Z_opp_of_N, neg_of_N_gt by assumption. discriminate.
    + intros _. exists (Z.to_N z). now apply exact_nonnegative.
Qed.

Lemma id_gt_sound (id : IdValue) (w : Z) :
  extracted_id id ->
  (0 <= w)%Z -> JSNumber.is_double (Fin w) = true ->
  id_gt id (Fin w) = true -> spec_newer id w = true.
Proof.
  intros Hid Hw Hd Hgt.
  destruct (id_gt_exact id w Hid Hw Hgt) as [n Hn].
  destruct (is_double_round w Hw Hd) as [Hround Hbound].
  unfold spec_newer. rewrite Hn. apply Z.ltb_lt.
  unfold id_gt in Hgt. rewrite (exact_ToNumber id n Hn) in Hgt.
  apply of_N_gt in Hgt.
  destruct (Z.lt_ge_cases w (Z.of_N n)) as [|Hle]; [assumption|exfalso].
  assert (Hmono : (JSNumber.round_to_double n <= Z.to_N w)%N).
  { rewrite <- Hround. apply round_to_double_mono. lia. }
  destruct Hgt as [[_ H]|H]; lia.
Qed.

(** Conversion to a Number keeps the order of natural numbers, so what
    exceeds a watermark is exceeded with it. *)
Lemma of_N_gt_mono (n m : N) (watermark : Number) :
  (n <= m)%N ->
  JSNumber.gt (JSNumber.of_N n) watermark = true ->
  JSNumber.gt (JSNumber.of_N m) watermark = true.
Proof.
  intros Hnm. pose proof (round_to_double_mono n m Hnm) as Hmono.
  unfold JSNumber.of_N.
  destruct (N.ltb_spec (JSNumber.round_to_double m) (2 ^ 1024)) as [Hm|Hm].
  - replace (JSNumber.round_to_double n <? 2 ^ 1024)%N with true
      by (symmetry; apply N.ltb_lt; lia).
    destruct watermark as [|w| | |d k]; cbn [JSNumber.gt]; try (intros; assumption).
    + rewrite !Z.ltb_lt. lia.
    + rewrite !Z.ltb_lt.
      pose proof (Z.pow_pos_nonneg 2 (Zpos k) ltac:(lia) ltac:(lia)). nia.
  - destruct (JSNumber.round_to_double n <? 2 ^ 1024)%N;
      destruct watermark; cbn [JSNumber.gt]; intros; (assumption || reflexivity).
Qed.

Lemma id_gt_upward (a b : IdValue) (n m : N) (watermark : Number) :
  Id.exact a = Some n -> Id.exact b = Some m -> (n <= m)%N ->
  id_gt a watermark = true -> id_gt b watermark = true.
Proof.
  intros Ha Hb Hnm. unfold id_gt.
  rewrite (exact_ToNumber a n Ha), (exact_ToNumber b m Hb).
  now apply of_N_gt_mono.
Qed.

Lemma id_gt_missed (id : IdValue) (n : N) (w : Z) :
  (0 <= w)%Z -> JSNumber.is_double (Fin w) = true ->
  Id.exact id = Some n -> (w < Z.of_N n)%Z ->
  id_gt id (Fin w) = false ->
  JSNumber.round_to_double n = Z.to_N w.
Proof.
  intros Hw Hd Hn Hlt Hgt.
  destruct (is_double_round w Hw Hd) as [Hround Hbound].
  unfold id_gt in Hgt. rewrite (exact_ToNumber id n Hn) in Hgt.
  assert (Hmono : (Z.to_N w <= JSNumber.round_to_double n)%N).
  { rewrite <- Hround. apply round_to_double_mono. lia. }
  destruct (JSNumber.gt (JSNumber.of_N n) (Fin w)) eqn:Hc; [discriminate|].
  destruct (N.lt_ge_cases (JSNumber.round_to_double n) (2 ^ 1024)) as [Hfin|Hinf].
  - destruct (Z.lt_ge_cases w (Z.of_N (JSNumber.round_to_double n))) as [Hup|Hdown].
    + assert (JSNumber.gt (JSNumber.of_N n) (Fin w) = true) by (apply of_N_gt; auto).
      congruence.
    + lia.
  - assert (JSNumber.gt (JSNumber.of_N n) (Fin w) = true) by (apply of_N_gt; auto).
    congruence.
Qed.

End FilterGuarantees.

(** X1.  With a non-negative watermark that is a double, every item of a
    successful extraction that the filters of [getPosts] and [getComments]
    keep is strictly newer than the watermark in exact arithmetic, however
    the page writes the identifier: no stale item is ever returned. *)
Theorem filter_keeps_only_newer (toUTC : Number -> string)
    (posts : list PostElement.t) (title : string) (comments : list CommentElement.t)
    (rawUserPostData : list PostData.t) (rawComment : list CommentData.t) (w : Z) :
  (0 <= w)%Z ->
  JSNumber.is_double (Fin w) = true ->
  posts_callback toUTC posts = ok rawUserPostData ->
  comments_callback toUTC title comments = ok rawComment ->
  Forall (fun post => spec_newer (PostData.postId post) w = true)
    (filter_posts rawUserPostData (Fin w)) /\
  Forall (fun comment => spec_newer (CommentData.commentId comment) w = true)
    (filter_comments rawComment (Fin w)).
Proof.
  intros Hw Hd Hposts Hcomments.
  pose proof (posts_callback_ids toUTC posts _ Hposts) as Hp.
  pose proof (comments_callback_ids toUTC title comments _ Hcomments) as Hc.
  rewrite Forall_forall in Hp, Hc.
  split; apply Forall_forall; intros x Hx;
    apply filter_In in Hx as [Hin Hx]; eapply id_gt_sound; eauto.
Qed.

Lemma filter_keeps_only_newer_witness :
  posts_callback (fun _ => "date") Demo.mixed_post_elements = ok Demo.mixed_posts /\
  filter_posts Demo.mixed_posts (Fin 12)
  = [Demo.post_with_id "0x1F"; Demo.post_with_id "42"] /\
  Forall (fun post => spec_newer (PostData.postId post) 12 = true)
    (filter_posts Demo.mixed_posts (Fin 12)).
Proof.
  split; [vm_compute; reflexivity|]. split; [vm_compute; reflexivity|].
  apply (filter_keeps_only_newer (fun _ => "date") Demo.mixed_post_elements
           EmptyString [] Demo.mixed_posts [] 12).
  - lia.
  - vm_compute; reflexivity.
  - vm_compute; reflexivity.
  - reflexivity.
Defined.

(** X2.  The filters respect the order of identifiers: when an item is
    kept, every item of the list whose identifier is at least as large is
    kept too, whatever the watermark. *)
Theorem filter_upward_closed (rawUserPostData : list PostData.t)
    (kept other : PostData.t) (n m : N) (lastPostID : Number) :
  In kept (filter_posts rawUserPostData lastPostID) ->
  In other rawUserPostData ->
  Id.exact (PostData.postId kept) = Some n ->
  Id.exact (PostData.postId other) = Some m ->
  (n <= m)%N ->
  In other (filter_posts rawUserPostData lastPostID).
Proof.
  intros Hkept Hother Hn Hm Hnm.
  apply filter_In in Hkept as [_ Hgt].
  apply filter_In. split; [assumption|].
  exact (id_gt_upward _ _ n m lastPostID Hn Hm Hnm Hgt).
Qed.

Lemma filter_upward_closed_witness :
  In Demo.newer_post
    (filter_posts [Demo.large_id_post; Demo.newer_post] (Fin 7193453098040102912)) /\
  In Demo.newest_post
    (filter_posts [Demo.newer_post; Demo.newest_post] (Fin 7193453098040102912)).
Proof.
  assert (Hkept : In Demo.newer_post
                    (filter_posts [Demo.newer_post; Demo.newest_post]
                       (Fin 7193453098040102912)))
    by (vm_compute; left; reflexivity).
  split; [vm_compute; left; reflexivity|].
  apply (filter_upward_closed [Demo.newer_post; Demo.newest_post]
           Demo.newer_post Demo.newest_post
           7193453098040104000 7193453098040209999 (Fin 7193453098040102912)).
  - exact Hkept.
  - right; left; reflexivity.
  - vm_compute; reflexivity.
  - vm_compute; reflexivity.
  - vm_compute. discriminate.
Defined.

(** X3.  With a non-negative watermark that is a double, a strictly newer
    item is dropped by the filter only when its identifier rounds to the
    watermark itself. *)
Theorem filter_misses_only_within_rounding (post : PostData.t) (n : N) (w : Z) :
  (0 <= w)%Z ->
  JSNumber.is_double (Fin w) = true ->
  Id.exact (PostData.postId post) = Some n ->
  (w < Z.of_N n)%Z ->
  filter_posts [post] (Fin w) = [] ->
  JSNumber.round_to_double n = Z.to_N w.
Proof.
  intros Hw Hd Hn Hlt Hdrop.
  eapply id_gt_missed; eauto.
  unfold filter_posts in Hdrop. cbn [filter] in Hdrop.
  destruct (id_gt (PostData.postId post) (Fin w)); [discriminate|reflexivity].
Qed.

Lemma filter_misses_only_within_rounding_witness :
  filter_posts [Demo.large_id_post] (Fin 7193453098040102912) = [] /\
  JSNumber.round_to_double 7193453098040102913 = 7193453098040102912%N.
Proof.
  assert (Hdrop : filter_posts [Demo.large_id_post] (Fin 7193453098040102912) = [])
    by (vm_compute; reflexivity).
  split; [exact Hdrop|].
  apply (filter_misses_only_within_rounding Demo.large_id_post
           7193453098040102913 7193453098040102912).
  - lia.
  - vm_compute; reflexivity.
  - vm_compute; reflexivity.
  - lia.
  - exact Hdrop.
Defined.

(** X4.  When every identifier in the list is below 2^53, the filter of
    [getPosts] is exactly the selection of the items whose identifier is
    strictly greater than the (integer) watermark. *)
Theorem filter_exact_below_2_53 (rawUserPostData : list PostData.t) (w : Z) :
  Forall (fun post => exists n, Id.exact (PostData.postId post) = Some n /\
                                (n < 2 ^ 53)%N) rawUserPostData ->
  filter_posts rawUserPostData (Fin w)
  = filter (fun post => spec_newer (PostData.postId post) w) rawUserPostData.
Proof.
  intros Hall. unfold filter_posts.
  induction Hall as [|post l (n & Hn & Hlt) _ IH]; [reflexivity|].
  cbn [filter]. rewrite IH, (id_gt_exact_below_2_53 _ n w Hn Hlt). reflexivity.
Qed.

Lemma filter_exact_below_2_53_witness :
  filter_posts [Demo.small_id_post] (Fin 41)
  = filter (fun post => spec_newer (PostData.postId post) 41) [Demo.small_id_post].
Proof.
  apply (filter_exact_below_2_53 [Demo.small_id_post] 41).
  constructor; [|constructor].
  exists 42%N. split; [vm_compute; reflexivity|vm_compute; reflexivity].
Defined.

(* ================================================================== *)
(** * The object built by [{...array}] *)

Section Spread.

Lemma to_uint_nonnil (n : nat) : Nat.to_uint n <> Nil.
Proof.
  rewrite <- (DecimalNat.Unsigned.of_to n) at 1.
  rewrite DecimalNat.Unsigned.to_of.
  apply DecimalFacts.unorm_nonnil.
Qed.

Lemma of_nat_inj (i j : nat) : JSString.of_nat i = JSString.of_nat j -> i = j.
Proof.
  unfold JSString.of_nat. intros H.
  apply (f_equal NilZero.uint_of_string) in H.
  rewrite !NilZero.usu in H by apply to_uint_nonnil.
  injection H as H. now apply DecimalNat.Unsigned.to_uint_inj.
Qed.

Lemma of_nat_eqb (i j : nat) :
  String.eqb (JSString.of_nat i) (JSString.of_nat j) = Nat.eqb i j.
Proof.
  destruct (Nat.eqb_spec i j) as [->|Hne].
  - apply String.eqb_refl.
  - apply String.eqb_neq. intros H. apply Hne, of_nat_inj, H.
Qed.

Context {A : Type}.

Lemma find_index_from (xs : list A) (k i : nat) :
  option_map snd
    (find (fun kv => String.eqb (JSString.of_nat i) (fst kv))
       (combine (map JSString.of_nat (seq k (List.length xs))) xs))
  = if (i <? k)%nat then None else nth_error xs (i - k).
Proof.
  revert k.
  induction xs as [|x xs IH]; intros k; cbn [List.length seq map combine find].
  - destruct (i <? k)%nat; [reflexivity|]. now destruct (i - k).
  - cbn [fst]. rewrite of_nat_eqb.
    destruct (Nat.eqb_spec i k) as [->|Hne].
    + rewrite Nat.ltb_irrefl, Nat.sub_diag. reflexivity.
    + rewrite IH.
      destruct (Nat.ltb_spec i k) as [Hlt|Hge].
      * replace (i <? S k)%nat with true by (symmetry; apply Nat.ltb_lt; lia).
        reflexivity.
      * replace (i <? S k)%nat with false by (symmetry; apply Nat.ltb_ge; lia).
        replace (i - k) with (S (i - S k)) by lia. reflexivity.
Qed.

Lemma values_combine (ks : list string) (xs : list A) :
  List.length ks = List.length xs -> map snd (combine ks xs) = xs.
Proof.
  revert ks. induction xs as [|x xs IH]; intros [|k ks] Hlen;
    try discriminate; cbn [combine map snd]; [reflexivity|].
  f_equal. apply IH. now injection Hlen.
Qed.

End Spread.

(** X5.  The plain object that [{...array}] builds (returned for
    experiences, posts and comments) loses nothing: its property [i] is the
    [i]-th element of the array, an index past the end is undefined, and its
    values in key order are the array itself. *)
Theorem spread_round_trip {A : Type} (xs : list A) (i : nat) :
  at_index (spread xs) i = nth_error xs i /\
  values (spread xs) = xs /\
  (List.length xs <= i -> at_index (spread xs) i = None).
Proof.
  assert (Hat : at_index (spread xs) i = nth_error xs i).
  { unfold at_index, spread. rewrite find_index_from.
    cbn. now rewrite Nat.sub_0_r. }
  split; [exact Hat|]. split.
  - unfold values, spread. apply values_combine.
    now rewrite length_map, length_seq.
  - intros Hlen. rewrite Hat. now apply nth_error_None.
Qed.

Lemma spread_round_trip_witness :
  at_index (spread ["a"; "b"; "c"]) 3 = None /\
  at_index (spread ["a"; "b"; "c"]) 2 = Some "c".
Proof.
  split.
  - apply (proj2 (proj2 (spread_round_trip ["a"; "b"; "c"] 3))). cbn. lia.
  - reflexivity.
Defined.

(* ================================================================== *)
(** * The extraction loops, item by item *)

Section StatelessLoops.

Context {E D : Type}.
Variable f : E -> Result (option D).
Variables okb keep : E -> bool.
Variable Q : E -> D -> Prop.
Variable bad : Exn -> Prop.

Hypothesis f_bad : forall x, okb x = false -> exists e, f x = inl e /\ bad e.
Hypothesis f_skip : forall x, okb x = true -> keep x = false -> f x = ok None.
Hypothesis f_push :
  forall x, okb x = true -> keep x = true -> exists d, f x = ok (Some d) /\ Q x d.

(** A loop whose body does not look at what was pushed either throws at
    the first item its body rejects, or pushes one record for each item
    it keeps, in order. *)
Lemma for_push_stateless (items : list E) (data : list D) :
  match for_push (fun _ => f) items data with
  | inr out =>
      forallb okb items = true /\
      exists news, out = (data ++ news)%list /\ Forall2 Q (filter keep items) news
  | inl e => bad e /\ forallb okb items = false
  end.
Proof.
  revert data.
  induction items as [|x items IH]; intros data; cbn [for_push forallb filter].
  - split; [reflexivity|]. exists []. split; [now rewrite app_nil_r|constructor].
  - destruct (okb x) eqn:Hok; cbn [andb].
    + destruct (keep x) eqn:Hkeep.
      * destruct (f_push x Hok Hkeep) as (d & -> & Hq). cbn [rbind ok].
        specialize (IH (data ++ [d])%list).
        destruct (for_push (fun _ => f) items (data ++ [d])) as [e|out];
          [exact IH|].
        destruct IH as (Hall & news & -> & Hnews).
        split; [exact Hall|].
        exists (d :: news). split; [now rewrite <- app_assoc|].
        constructor; assumption.
      * rewrite (f_skip x Hok Hkeep). cbn [rbind ok]. apply IH.
    + destruct (f_bad x Hok) as (e & -> & He). cbn [rbind]. auto.
Qed.

End StatelessLoops.

Section Items.

Lemma split_from_nonempty (sep : string) (s : string) (skip : nat) (cur : string) :
  split_from sep skip cur s <> [].
Proof.
  revert skip cur.
  induction s as [|c s IH]; intros skip cur; cbn [split_from]; [discriminate|].
  destruct skip; [|apply IH].
  destruct (startsWith sep (String c s)); [discriminate|apply IH].
Qed.

Lemma split_nonempty (sep s : string) : split sep s <> [].
Proof. apply split_from_nonempty. Qed.

Lemma split_head (sep s : string) :
  nth_error (split sep s) 0 = Some (hd EmptyString (split sep s)).
Proof.
  pose proof (split_nonempty sep s) as H.
  destruct (split sep s); [congruence|reflexivity].
Qed.

Lemma fields_of_head (innerText : string) :
  nth_error (fields_of innerText) 0 = Some (primary_label innerText).
Proof.
  unfold primary_label, fields_of.
  pose proof (split_nonempty nl innerText) as H.
  destruct (split nl innerText) as [|a [|b l]]; [congruence|reflexivity|reflexivity].
Qed.

Lemma is_empty_state_label (innerText : string) :
  is_empty_state innerText = includes empty_state_marker (primary_label innerText).
Proof. unfold is_empty_state. now rewrite fields_of_head. Qed.

Lemma nth_error_short {A} (l : list A) (n : nat) :
  (S n <=? List.length l)%nat = false -> nth_error l n = None.
Proof. intros H. apply Nat.leb_gt in H. apply nth_error_None. lia. Qed.

Lemma nth_error_long {A} (l : list A) (n : nat) :
  (S n <=? List.length l)%nat = true -> exists a, nth_error l n = Some a.
Proof.
  intros H. apply Nat.leb_le in H.
  destruct (nth_error l n) eqn:Hn; [eauto|].
  apply nth_error_None in Hn. lia.
Qed.

Lemma experience_of_bad (t : string) :
  experience_item_ok t = false ->
  exists e, experience_of t = inl e /\ e = TypeError.
Proof.
  unfold experience_item_ok. intros H.
  apply orb_false_iff in H as [Hm Hlen].
  unfold experience_of. rewrite fields_of_head. cbn [defined rbind ok].
  rewrite <- is_empty_state_label, Hm. cbn [negb].
  rewrite (nth_error_short _ 2 Hlen). cbn. eauto.
Qed.

Lemma experience_of_push (t : string) :
  experience_item_ok t = true -> negb (is_empty_state t) = true ->
  exists d, experience_of t = ok (Some d) /\ experience_matches t d.
Proof.
  unfold experience_item_ok. intros H Hm.
  apply negb_true_iff in Hm. rewrite Hm in H. cbn [orb] in H.
  destruct (nth_error_long _ 2 H) as [dates Hdates].
  unfold experience_of. rewrite fields_of_head. cbn [defined rbind ok].
  rewrite <- is_empty_state_label, Hm. cbn [negb].
  rewrite Hdates. cbn [defined rbind ok].
  rewrite split_head. cbn [defined rbind ok].
  eexists. split; [reflexivity|].
  cbv delta [experience_matches volunteering_matches date_range] beta.
  rewrite (nth_error_nth _ _ EmptyString Hdates).
  repeat split.
Qed.

Lemma volunteering_of_bad (t : string) :
  experience_item_ok t = false ->
  exists e, volunteering_of t = inl e /\ e = TypeError.
Proof.
  unfold experience_item_ok. intros H.
  apply orb_false_iff in H as [Hm Hlen].
  unfold volunteering_of. rewrite fields_of_head. cbn [defined rbind ok].
  rewrite <- is_empty_state_label, Hm. cbn [negb].
  rewrite (nth_error_short _ 2 Hlen). cbn. eauto.
Qed.

Lemma volunteering_of_push (t : string) :
  experience_item_ok t = true -> negb (is_empty_state t) = true ->
  exists d, volunteering_of t = ok (Some d) /\ volunteering_matches t d.
Proof.
  unfold experience_item_ok. intros H Hm.
  apply negb_true_iff in Hm. rewrite Hm in H. cbn [orb] in H.
  destruct (nth_error_long _ 2 H) as [dates Hdates].
  unfold volunteering_of. rewrite fields_of_head. cbn [defined rbind ok].
  rewrite <- is_empty_state_label, Hm. cbn [negb].
  rewrite Hdates. cbn [defined rbind ok].
  rewrite split_head. cbn [defined rbind ok].
  eexists. split; [reflexivity|].
  cbv delta [experience_matches volunteering_matches date_range] beta.
  rewrite (nth_error_nth _ _ EmptyString Hdates).
  repeat split.
Qed.

Lemma honor_of_bad (t : string) :
  honor_item_ok t = false -> exists e, honor_of t = inl e /\ e = TypeError.
Proof.
  unfold honor_item_ok. intros H.
  apply orb_false_iff in H as [Hm Hlen].
  unfold honor_of. rewrite fields_of_head. cbn [defined rbind ok].
  rewrite <- is_empty_state_label, Hm. cbn [negb].
  rewrite (nth_error_short _ 1 Hlen). cbn. eauto.
Qed.

Lemma honor_of_push (t : string) :
  honor_item_ok t = true -> negb (is_empty_state t) = true ->
  exists d, honor_of t = ok (Some d) /\ honor_matches t d.
Proof.
  unfold honor_item_ok. intros H Hm.
  apply negb_true_iff in Hm. rewrite Hm in H. cbn [orb] in H.
  destruct (nth_error_long _ 1 H) as [h1 Hh1].
  unfold honor_of. rewrite fields_of_head. cbn [defined rbind ok].
  rewrite <- is_empty_state_label, Hm. cbn [negb].
  rewrite Hh1. cbn [defined rbind ok].
  eexists. split; [reflexivity|].
  unfold honor_matches. rewrite (nth_error_nth _ _ EmptyString Hh1).
  repeat split.
Qed.

Lemma skip_marker (t : string) : negb (is_empty_state t) = false -> is_empty_state t = true.
Proof. now intros H%negb_false_iff. Qed.

End Items.

(** X6.  The experience and volunteering extractors are all-or-nothing:
    they throw [TypeError] exactly when some list item that is not the
    empty-state placeholder has fewer than three fields; otherwise they
    return one record for each item that is not a placeholder, in document
    order, whose title, company and description are the first field, the
    second field and the fields from the fourth on joined by a comma. *)
Theorem experiences_all_or_nothing (items : list string) :
  match experiences_callback items with
  | inr out =>
      forallb experience_item_ok items = true /\
      Forall2 experience_matches (filter (fun t => negb (is_empty_state t)) items) out
  | inl e => e = TypeError /\ forallb experience_item_ok items = false
  end /\
  match volunteerings_callback items with
  | inr out =>
      forallb experience_item_ok items = true /\
      Forall2 volunteering_matches (filter (fun t => negb (is_empty_state t)) items) out
  | inl e => e = TypeError /\ forallb experience_item_ok items = false
  end.
Proof.
  split.
  - unfold experiences_callback.
    pose proof (for_push_stateless experience_of experience_item_ok
                  (fun t => negb (is_empty_state t)) experience_matches
                  (fun e => e = TypeError) experience_of_bad
                  (fun t _ H => experience_of_marker t (skip_marker t H))
                  experience_of_push items []) as H.
    destruct (for_push (fun _ => experience_of) items []) as [e|out]; [exact H|].
    destruct H as (Hall & news & -> & Hnews). auto.
  - unfold volunteerings_callback.
    pose proof (for_push_stateless volunteering_of experience_item_ok
                  (fun t => negb (is_empty_state t)) volunteering_matches
                  (fun e => e = TypeError) volunteering_of_bad
                  (fun t _ H => volunteering_of_marker t (skip_marker t H))
                  volunteering_of_push items []) as H.
    destruct (for_push (fun _ => volunteering_of) items []) as [e|out]; [exact H|].
    destruct H as (Hall & news & -> & Hnews). auto.
Qed.

(** X7.  The honors extractor is all-or-nothing in the same way, with two
    fields required: it throws [TypeError] exactly when some item that is
    not the placeholder has a single field, and otherwise returns one record
    per non-placeholder item, in order. *)
Theorem honors_all_or_nothing (items : list string) :
  match honors_callback items with
  | inr out =>
      forallb honor_item_ok items = true /\
      Forall2 honor_matches (filter (fun t => negb (is_empty_state t)) items) out
  | inl e => e = TypeError /\ forallb honor_item_ok items = false
  end.
Proof.
  unfold honors_callback.
  pose proof (for_push_stateless honor_of honor_item_ok
                (fun t => negb (is_empty_state t)) honor_matches
                (fun e => e = TypeError) honor_of_bad
                (fun t _ H => honor_of_marker t (skip_marker t H))
                honor_of_push items []) as H.
  destruct (for_push (fun _ => honor_of) items []) as [e|out]; [exact H|].
  destruct H as (Hall & news & -> & Hnews). auto.
Qed.

Section MoreItems.

Lemma skill_of_first_line (t : string) :
  skill_of t
  = ok (if String.eqb (first_line t) EmptyString then None
        else Some (Skill.mk (Some (first_line t)))).
Proof.
  unfold skill_of, first_line. rewrite split_head.
  destruct (hd EmptyString (split nl t)); reflexivity.
Qed.

Lemma skills_loop (items : list string) (data : list Skill.t) :
  for_push (fun _ => skill_of) items data
  = ok (data ++ map (fun t => Skill.mk (Some (first_line t)))
                  (filter (fun t => negb (String.eqb (first_line t) EmptyString)) items))%list.
Proof.
  revert data.
  induction items as [|t items IH]; intros data; cbn [for_push filter map].
  - now rewrite app_nil_r.
  - rewrite skill_of_first_line. cbn [rbind ok].
    destruct (String.eqb (first_line t) EmptyString); cbn [negb map].
    + apply IH.
    + rewrite IH, <- app_assoc. reflexivity.
Qed.

Variable toUTC : Number -> string.

(** A run of digits that spans the whole string, and one that does
    not. *)
Lemma digits_from_all (radix : N) (s : string) (value : N) (count : nat) :
  forallb (fun c => match Literal.digit radix c with
                    | Some _ => true
                    | None => false
                    end) (list_ascii_of_string s) = true ->
  exists v,
    Literal.digits_from radix s value count
    = (v, count + String.length s, EmptyString).
Proof.
  revert value count.
  induction s as [|c s IH]; intros value count; cbn [list_ascii_of_string forallb].
  - intros _. exists value. cbn. now rewrite Nat.add_0_r.
  - cbn [Literal.digits_from String.length].
    destruct (Literal.digit radix c) as [d|]; [|discriminate].
    cbn [andb]. intros H. destruct (IH (value * radix + d)%N (S count) H) as [v Hv].
    exists v. rewrite Hv. f_equal. f_equal. lia.
Qed.

Lemma digits_from_rest (radix : N) (s : string) (value : N) (count : nat) :
  forallb (fun c => match Literal.digit radix c with
                    | Some _ => true
                    | None => false
                    end) (list_ascii_of_string s) = false ->
  exists v n c rest,
    Literal.digits_from radix s value count = (v, n, String c rest).
Proof.
  revert value count.
  induction s as [|c s IH]; intros value count; cbn [list_ascii_of_string forallb].
  - discriminate.
  - cbn [Literal.digits_from].
    destruct (Literal.digit radix c) as [d|]; [|eauto 6].
    cbn [andb]. apply IH.
Qed.

Lemma numeral_all_digits (radix : N) (s : string) :
  if all_digits radix s
  then exists v, Literal.numeral radix s = Some v
  else Literal.numeral radix s = None.
Proof.
  unfold all_digits, Literal.numeral, Literal.digits.
  destruct s as [|c s]; [reflexivity|].
  cbn [String.eqb negb andb].
  destruct (forallb _ _) eqn:Hall.
  - destruct (digits_from_all radix (String c s) 0 0 Hall) as [v Hv].
    rewrite Hv. cbn [String.length Nat.add]. eauto.
  - destruct (digits_from_rest radix (String c s) 0 0 Hall) as (v & n & c' & rest & Hv).
    rewrite Hv. destruct n; reflexivity.
Qed.

(** [BigInt] reads exactly the integer literals, and throws
    [SyntaxError] on everything else. *)
Lemma of_string_literal (s : string) :
  if is_integer_literal s
  then exists z, BigInt.of_string s = ok z
  else BigInt.of_string s = raise SyntaxError.
Proof.
  unfold is_integer_literal, BigInt.of_string.
  destruct (trim s) as [|a t]; [cbn; eauto|].
  cbn [String.eqb orb].
  destruct (Literal.radix_prefix (String a t)) as [[radix body]|].
  - pose proof (numeral_all_digits radix body) as H.
    destruct (all_digits radix body).
    + destruct H as [v ->]. eauto.
    + now rewrite H.
  - destruct (Literal.signed (String a t)) as [negative body]. cbn [snd].
    pose proof (numeral_all_digits 10 body) as H.
    destruct (all_digits 10 body).
    + destruct H as [v ->]. eauto.
    + now rewrite H.
Qed.

Lemma post_of_bad (post : PostElement.t) :
  post_element_ok post = false ->
  exists e, post_of toUTC post = inl e /\ (e = TypeError \/ e = SyntaxError).
Proof.
  unfold post_element_ok, post_of.
  destruct (str_or_null (PostElement.data_urn post)) as [urn|]; [|discriminate].
  destruct (nth_error (split ":" urn) 3) as [postId|]; cbn [defined rbind ok raise].
  - intros Hbad. pose proof (of_string_literal postId) as H.
    rewrite Hbad in H. rewrite H. cbn [rbind raise]. eauto.
  - eauto.
Qed.

Lemma post_of_push (post : PostElement.t) :
  post_element_ok post = true -> true = true ->
  exists d, post_of toUTC post = ok (Some d) /\ post_matches post d.
Proof.
  unfold post_element_ok, post_of, post_matches. intros Hok _.
  destruct (str_or_null (PostElement.data_urn post)) as [urn|].
  - destruct (nth_error (split ":" urn) 3) as [postId|] eqn:Hseg; [|discriminate].
    rewrite (nth_error_nth _ _ EmptyString Hseg).
    cbn [defined rbind ok raise].
    pose proof (of_string_literal postId) as H. rewrite Hok in H.
    destruct H as [z ->].
    cbn [rbind ok]. eexists. split; [reflexivity|].
    cbn. repeat split; discriminate.
  - cbn [rbind ok]. eexists. split; [reflexivity|].
    cbn. repeat split; reflexivity.
Qed.

Lemma filter_all {A} (l : list A) : filter (fun _ => true) l = l.
Proof. induction l as [|a l IH]; cbn; [reflexivity|now rewrite IH]. Qed.

End MoreItems.

(** X8.  The skills extractor never throws: it returns, in document order,
    one record for each element whose first line is not empty, carrying that
    line as the skill name. *)
Theorem skills_never_throw (items : list string) :
  skills_callback items
  = ok (map (fun t => Skill.mk (Some (first_line t)))
          (filter (fun t => negb (String.eqb (first_line t) EmptyString)) items)).
Proof.
  unfold skills_callback. now rewrite skills_loop.
Qed.

(** Identifiers as a page may write them: the hexadecimal one is read and
    kept as written; the one with a fraction makes the extraction throw. *)
Example posts_callback_examples :
  posts_callback (fun _ => "date") [Demo.post_element_with_id "0x1F"]
  = ok [Demo.post_with_id "0x1F"] /\
  posts_callback (fun _ => "date")
    [Demo.post_element_with_id "42"; Demo.post_element_with_id "1.5"]
  = raise SyntaxError.
Proof. split; vm_compute; reflexivity. Qed.

(** X9.  The post extractor throws, with [TypeError] or [SyntaxError],
    exactly when some container has a [data-urn] with fewer than four
    colon-separated segments or a fourth segment that is not an integer
    literal (decimal digits with an optional sign, or a [0x], [0o] or [0b]
    literal, white space around it allowed; nothing at all counts as one);
    otherwise it returns exactly one record per container, in order: the
    identifier is the fourth segment as written, or [null] with a [null]
    date when the container has no [data-urn], and the permalink ends with
    the identifier. *)
Theorem posts_one_record_per_container (toUTC : Number -> string)
    (items : list PostElement.t) :
  match posts_callback toUTC items with
  | inr out => forallb post_element_ok items = true /\ Forall2 post_matches items out
  | inl e => (e = TypeError \/ e = SyntaxError) /\ forallb post_element_ok items = false
  end.
Proof.
  unfold posts_callback.
  pose proof (for_push_stateless (post_of toUTC) post_element_ok (fun _ => true)
                post_matches (fun e => e = TypeError \/ e = SyntaxError)
                (post_of_bad toUTC) (fun x _ H => False_ind _ (diff_true_false H))
                (post_of_push toUTC) items []) as H.
  destruct (for_push (fun _ => post_of toUTC) items []) as [e|out]; [exact H|].
  destruct H as (Hall & news & -> & Hnews).
  rewrite filter_all in Hnews. auto.
Qed.

(* ================================================================== *)
(** * The comment loop: edge cases *)

Section CommentEdges.

Context {E D : Type}.
Variable step : list D -> E -> Result (option D).

Lemma for_push_never_pushes (items : list E) (data out : list D) :
  (forall seen x d, step seen x <> ok (Some d)) ->
  for_push step items data = ok out -> out = data.
Proof.
  intros Hnever. revert data.
  induction items as [|x items IH]; intros data; cbn [for_push].
  - now intros [= <-].
  - destruct (step data x) as [e|[d|]] eqn:Hx; cbn [rbind].
    + discriminate.
    + exfalso. eapply Hnever; exact Hx.
    + apply IH.
Qed.

Lemma for_push_stops (items : list E) (data : list D) (x : E) :
  In x items ->
  (forall seen, exists e, step seen x = inl e) ->
  exists e, for_push step items data = inl e.
Proof.
  intros Hin Hbad. revert data.
  induction items as [|y items IH]; intros data; [destruct Hin|].
  cbn [for_push].
  destruct Hin as [->|Hin].
  - destruct (Hbad data) as [e ->]. cbn [rbind]. eauto.
  - destruct (step data y) as [e|[d|]]; cbn [rbind]; eauto.
Qed.

End CommentEdges.

(** X10.  The profile owner is the second [" | "]-separated part of the
    document title.  When the title has no such part, a successful comment
    extraction is empty, whatever the page shows. *)
Theorem comments_need_owner_in_title (toUTC : Number -> string)
    (document_title : string) (items : list CommentElement.t)
    (out : list CommentData.t) :
  profile_owner_of document_title = None ->
  comments_callback toUTC document_title items = ok out ->
  out = [].
Proof.
  intros Howner. unfold comments_callback. rewrite Howner.
  apply for_push_never_pushes.
  intros seen c d. unfold comment_step.
  destruct (CommentElement.author_span c); cbn [defined rbind ok raise];
    [|discriminate].
  destruct (CommentElement.main_content c); cbn [defined rbind ok raise is_owner];
    discriminate.
Qed.

Lemma comments_need_owner_in_title_witness :
  profile_owner_of "LinkedIn" = None /\
  comments_callback (fun _ => "date") "LinkedIn" Demo.repeated_comments = ok [].
Proof.
  split; [reflexivity|].
  destruct (comments_callback (fun _ => "date") "LinkedIn" Demo.repeated_comments)
    as [e|out] eqn:Hrun; [vm_compute in Hrun; discriminate|].
  rewrite (comments_need_owner_in_title (fun _ => "date") "LinkedIn"
             Demo.repeated_comments out eq_refl Hrun).
  reflexivity.
Defined.

(** X11.  One comment element without an author element or without a
    content element makes the whole comment extraction throw, even when the
    comment is not the profile owner's. *)
Theorem comments_malformed_element_aborts (toUTC : Number -> string)
    (document_title : string) (items : list CommentElement.t)
    (c : CommentElement.t) :
  In c items ->
  CommentElement.author_span c = None \/ CommentElement.main_content c = None ->
  exists e, comments_callback toUTC document_title items = inl e.
Proof.
  intros Hin Hbad. unfold comments_callback.
  apply for_push_stops with (x := c); [exact Hin|].
  intros seen. unfold comment_step.
  destruct (CommentElement.author_span c); cbn [defined rbind ok raise]; [|eauto].
  destruct Hbad as [Hbad|Hbad]; [discriminate|].
  rewrite Hbad. cbn [defined rbind raise]. eauto.
Qed.

Lemma comments_malformed_element_aborts_witness :
  exists e,
    comments_callback (fun _ => "date") "Activity | Ann Lee | LinkedIn"
      [Demo.comment_item; CommentElement.mk None (Some "hi") None] = inl e.
Proof.
  apply (comments_malformed_element_aborts (fun _ => "date")
           "Activity | Ann Lee | LinkedIn"
           [Demo.comment_item; CommentElement.mk None (Some "hi") None]
           (CommentElement.mk None (Some "hi") None)).
  - right; left; reflexivity.
  - left; reflexivity.
Defined.

(* ================================================================== *)
(** * The host block list *)

Section BlockList.

Lemma get_set (o : HostMap) (k k' : string) :
  HostMap.is_true (HostMap.set k true o) k'
  = (negb (String.eqb k "__proto__") && String.eqb k' k) || HostMap.is_true o k'.
Proof.
  unfold HostMap.set, HostMap.is_true, HostMap.get.
  destruct (String.eqb k "__proto__"); simpl; [reflexivity|].
  destruct (String.eqb k' k); reflexivity.
Qed.

Lemma is_true_app (o1 o2 : HostMap) (k : string) :
  (forall kv, In kv o1 -> snd kv = true) ->
  HostMap.is_true (o1 ++ o2)%list k
  = existsb (String.eqb k) (map fst o1) || HostMap.is_true o2 k.
Proof.
  intros Htrue. unfold HostMap.is_true, HostMap.get.
  induction o1 as [|[k1 v1] o1 IH]; simpl; [reflexivity|].
  destruct (String.eqb k k1) eqn:Hk; simpl.
  - pose proof (Htrue (k1, v1) (or_introl eq_refl)) as Hv. cbn [snd] in Hv.
    subst v1. reflexivity.
  - apply IH. intros kv Hin. apply Htrue. now right.
Qed.

Lemma blocked_line_spec (prev : HostMap) (line host : string) :
  host <> "__proto__" ->
  HostMap.is_true (blocked_line prev line) host = true <->
  line_blocks host line \/ HostMap.is_true prev host = true.
Proof.
  intros Hproto. unfold blocked_line, line_blocks.
  destruct (nth_error (split " " line) 0) as [frag0|];
    [|split; [auto|intros [(f & H & _)|H]; [discriminate|exact H]]].
  destruct (nth_error (split " " line) 1) as [frag1|];
    [|split; [auto|intros [(f & _ & H & _)|H]; [discriminate|exact H]]].
  destruct (String.eqb_spec frag0 "0.0.0.0") as [->|Hne].
  - rewrite get_set, orb_true_iff, andb_true_iff, negb_true_iff.
    split.
    + intros [[_ Heq]|H]; [left|auto].
      apply String.eqb_eq in Heq. exists frag1. auto.
    + intros [(f & _ & [= <-] & Htrim)|H]; [left|auto].
      subst host. split; [|apply String.eqb_refl].
      now apply String.eqb_neq.
  - split; [auto|].
    intros [(f & [= H] & _)|H]; [congruence|exact H].
Qed.

Lemma fold_blocked_lines (lines : list string) (prev : HostMap) (host : string) :
  host <> "__proto__" ->
  HostMap.is_true (fold_left blocked_line lines prev) host = true <->
  (exists line, In line lines /\ line_blocks host line) \/
  HostMap.is_true prev host = true.
Proof.
  intros Hproto. revert prev.
  induction lines as [|line lines IH]; intros prev; cbn [fold_left].
  - split; [auto|intros [(l & [] & _)|H]; exact H].
  - rewrite IH, (blocked_line_spec prev line host Hproto). split.
    + intros [(l & Hin & Hl)|[Hl|H]]; [left|left|auto].
      * exists l. split; [now right|exact Hl].
      * exists line. split; [now left|exact Hl].
    + intros [(l & [<-|Hin] & Hl)|H]; [auto| |auto].
      left. exists l. auto.
Qed.

End BlockList.

(** X12.  [getBlockedHosts] marks a host (other than [__proto__]) as
    blocked exactly when it is one of the ten built-in tracker hosts or some
    line of the hosts file reads [0.0.0.0 host], the host being the second
    space-separated fragment with surrounding white space trimmed; lines
    starting with anything else contribute nothing. *)
Theorem getBlockedHosts_blocks (blockedHostsList : string) (host : string) :
  host <> "__proto__" ->
  HostMap.is_true (getBlockedHosts blockedHostsList) host = true <->
  In host tracker_hosts \/
  exists line, In line (split nl blockedHostsList) /\ line_blocks host line.
Proof.
  intros Hproto. unfold getBlockedHosts.
  rewrite is_true_app.
  - rewrite orb_true_iff, (fold_blocked_lines _ [] host Hproto).
    rewrite existsb_exists. split.
    + intros [(h & Hin & Heq)|[H|H]]; [left|auto|discriminate].
      apply String.eqb_eq in Heq. subst h.
      apply in_map_iff in Hin as ([h b] & Hfst & Hin). cbn [fst] in Hfst. subst h.
      apply in_rev in Hin.
      apply in_map_iff in Hin as (h & [= <- _] & Hin). exact Hin.
    + intros [Hin|H]; [left|auto].
      exists host. split; [|apply String.eqb_refl].
      apply in_map_iff. exists (host, true). split; [reflexivity|].
      apply in_rev. rewrite List.rev_involutive.
      apply in_map_iff. exists host. auto.
  - intros kv Hin. apply in_rev in Hin.
    apply in_map_iff in Hin as (h & <- & _). reflexivity.
Qed.

Lemma getBlockedHosts_blocks_witness :
  HostMap.is_true (getBlockedHosts Demo.hosts_file) "ads.example.com" = true /\
  HostMap.is_true (getBlockedHosts Demo.hosts_file) "localhost" = false /\
  HostMap.is_true (getBlockedHosts EmptyString) "connect.facebook.net" = true.
Proof.
  split; [|split].
  - apply (getBlockedHosts_blocks Demo.hosts_file "ads.example.com").
    + vm_compute. discriminate.
    + right. exists ("0.0.0.0 ads.example.com" ++ String "013"%char EmptyString).
      split; [vm_compute; right; left; reflexivity|].
      exists ("ads.example.com" ++ String "013"%char EmptyString).
      repeat split.
  - reflexivity.
  - reflexivity.
Defined.

(** A host followed by a no-break space is blocked under its own name. *)
Example getBlockedHosts_no_break_space :
  HostMap.is_true
    (getBlockedHosts ("0.0.0.0 nbsp.example" ++ String "194" (String "160" EmptyString)))
    "nbsp.example" = true.
Proof. vm_compute. reflexivity. Qed.

(** X13.  The request handler continues every request whose resource type
    is in neither list (a stylesheet or an image, for instance), whatever
    the host; it aborts every media, font, texttrack, object, beacon,
    csp_report and imageset request; and it aborts a script, xhr, fetch or
    document request exactly when [getHostname] yields a non-empty host that
    the block list marks [true]. *)
Theorem on_request_decides (getHostname : string -> option string)
    (blockedHosts : HostMap) (resourceType url : string) :
  (In resourceType blockedResources ->
   on_request getHostname blockedHosts resourceType url = Abort) /\
  (~ In resourceType blockedResources -> ~ In resourceType blockedResourcesByHost ->
   on_request getHostname blockedHosts resourceType url = Continue) /\
  (In resourceType blockedResourcesByHost ->
   (on_request getHostname blockedHosts resourceType url = Abort <->
    exists host, getHostname url = Some host /\ host <> EmptyString /\
                 HostMap.is_true blockedHosts host = true)).
Proof.
  assert (Hincl : forall xs s, array_includes xs s = true <-> In s xs).
  { intros xs s. unfold array_includes. rewrite existsb_exists. split.
    - intros (x & Hin & Heq). apply String.eqb_eq in Heq. now subst.
    - intros Hin. exists s. split; [exact Hin|apply String.eqb_refl]. }
  unfold on_request. repeat split.
  - intros Hin. apply Hincl in Hin. now rewrite Hin.
  - intros Hn1 Hn2.
    destruct (array_includes blockedResources resourceType) eqn:H1;
      [apply Hincl in H1; contradiction|].
    destruct (array_includes blockedResourcesByHost resourceType) eqn:H2;
      [apply Hincl in H2; contradiction|reflexivity].
  - intros Habort.
    destruct (array_includes blockedResources resourceType) eqn:H1.
    { apply Hincl in H1. cbn in H, H1. intuition (subst; discriminate). }
    rewrite (proj2 (Hincl _ _) H) in Habort. cbn [andb] in Habort.
    destruct (getHostname url) as [[|c h]|]; try discriminate.
    destruct (HostMap.is_true blockedHosts (String c h)) eqn:Hb; [|discriminate].
    exists (String c h). repeat split; [discriminate|exact Hb].
  - intros (host & Hhost & Hne & Hb).
    destruct (array_includes blockedResources resourceType) eqn:H1; [reflexivity|].
    rewrite (proj2 (Hincl _ _) H), Hhost. cbn [andb].
    destruct host; [congruence|]. now rewrite Hb.
Qed.

Lemma on_request_decides_witness :
  on_request (fun _ => Some "connect.facebook.net") (getBlockedHosts EmptyString)
    "stylesheet" "https://connect.facebook.net/x.css" = Continue /\
  on_request (fun _ => Some "connect.facebook.net") (getBlockedHosts EmptyString)
    "script" "https://connect.facebook.net/x.js" = Abort.
Proof.
  split.
  - apply (proj1 (proj2 (on_request_decides (fun _ => Some "connect.facebook.net")
                           (getBlockedHosts EmptyString) "stylesheet"
                           "https://connect.facebook.net/x.css"))).
    + cbn. intuition discriminate.
    + cbn. intuition discriminate.
  - reflexivity.
Defined.

(* ================================================================== *)
(** * The constructor *)

Section OptionChecks.






End OptionChecks.



(** X15.  The session cookie is checked first: a missing or falsy cookie
    ([undefined], [null], [false], [0], [NaN], the empty string) is reported
    as required, and a truthy cookie that is not a string as needing to be a
    string, whatever the other options are. *)
Theorem new_scraper_checks_cookie_first (userDefinedOptions : UserDefinedOptions.t) :
  let cookie := prop (UserDefinedOptions.sessionCookieValue userDefinedOptions) in
  (JSValue.truthy cookie = false ->
   new_scraper userDefinedOptions
   = raise (option_error "sessionCookieValue" " is required.")) /\
  (JSValue.truthy cookie = true -> JSValue.typeof cookie <> "string" ->
   new_scraper userDefinedOptions
   = raise (option_error "sessionCookieValue" " needs to be a string.")).
Proof.
  intros cookie. unfold new_scraper. fold cookie. split.
  - intros ->. reflexivity.
  - intros -> Htype. apply String.eqb_neq in Htype. rewrite Htype. reflexivity.
Qed.

Lemma new_scraper_checks_cookie_first_witness :
  new_scraper (UserDefinedOptions.mk (Some (VNumber (Fin 0))) (Some (VString "yes"))
                 None None None)
  = raise (option_error "sessionCookieValue" " is required.") /\
  new_scraper (UserDefinedOptions.mk (Some (VBool true)) (Some (VString "yes"))
                 None None None)
  = raise (option_error "sessionCookieValue" " needs to be a string.").
Proof.
  split.
  - apply (proj1 (new_scraper_checks_cookie_first
      (UserDefinedOptions.mk (Some (VNumber (Fin 0))) (Some (VString "yes"))
         None None None))).
    reflexivity.
  - apply (proj2 (new_scraper_checks_cookie_first
      (UserDefinedOptions.mk (Some (VBool true)) (Some (VString "yes"))
         None None None))).
    + reflexivity.
    + discriminate.
Defined.

(* ================================================================== *)
(** * [autoScroll] *)

Section AutoScroll.

Variable scrollHeight : nat -> nat.

Lemma autoScroll_from_resolves (fuel tick K : nat) :
  tick <= K ->
  scrollHeight K <= 500 * (K + 1) ->
  K - tick < fuel ->
  exists n,
    autoScroll_from scrollHeight fuel tick (500 * tick) = Some n /\
    tick < n /\ n <= K + 1 /\
    scrollHeight (n - 1) <= 500 * n /\
    (forall j, tick <= j -> j + 1 < n -> 500 * (j + 1) < scrollHeight j).
Proof.
  revert tick.
  induction fuel as [|fuel IH]; intros tick Htick HK Hfuel; [lia|].
  cbn [autoScroll_from].
  destruct (Nat.leb_spec (scrollHeight tick) (500 * tick + 500)) as [Hdone|Hmore].
  - exists (S tick). split; [reflexivity|].
    replace (S tick - 1) with tick by lia.
    repeat split; try lia.
  - assert (Hlt : tick < K).
    { destruct (Nat.eq_dec tick K) as [->|]; lia. }
    replace (500 * tick + 500) with (500 * S tick) by lia.
    destruct (IH (S tick)) as (n & Hrun & Hn1 & Hn2 & Hres & Hmin); try lia.
    exists n. split; [exact Hrun|]. repeat split; try lia.
    intros j Hj1 Hj2.
    destruct (Nat.eq_dec j tick) as [->|]; [lia|apply Hmin; lia].
Qed.

Lemma autoScroll_from_pending (fuel tick : nat) :
  (forall i, 500 * (i + 1) < scrollHeight i) ->
  autoScroll_from scrollHeight fuel tick (500 * tick) = None.
Proof.
  intros Hgrow. revert tick.
  induction fuel as [|fuel IH]; intros tick; [reflexivity|].
  cbn [autoScroll_from].
  destruct (Nat.leb_spec (scrollHeight tick) (500 * tick + 500)) as [Hdone|Hmore].
  - specialize (Hgrow tick). lia.
  - replace (500 * tick + 500) with (500 * S tick) by lia. apply IH.
Qed.

End AutoScroll.

(** X16.  On a page whose height never exceeds [H], [autoScroll] resolves:
    given [H / 500 + 1] timer firings or more it stops after [n] of them,
    with [1 <= n <= H / 500 + 1]; it has then scrolled [500 * n] pixels,
    which reaches the height read at the last firing, and it had not reached
    the height read at any earlier firing. *)
Theorem autoScroll_resolves (scrollHeight : nat -> nat) (H fuel : nat) :
  (forall i, scrollHeight i <= H) ->
  H / 500 < fuel ->
  exists n,
    autoScroll scrollHeight fuel = Some n /\
    1 <= n /\ n <= H / 500 + 1 /\
    scrollHeight (n - 1) <= 500 * n /\
    (forall j, j + 1 < n -> 500 * (j + 1) < scrollHeight j).
Proof.
  intros Hbound Hfuel.
  destruct (autoScroll_from_resolves scrollHeight fuel 0 (H / 500))
    as (n & Hrun & Hn1 & Hn2 & Hres & Hmin).
  - lia.
  - specialize (Hbound (H / 500)).
    pose proof (Nat.div_mod_eq H 500) as Hdiv.
    pose proof (Nat.mod_upper_bound H 500) as Hmod. lia.
  - lia.
  - exists n. split; [exact Hrun|]. repeat split; try lia.
    intros j Hj. apply Hmin; lia.
Qed.

Lemma autoScroll_resolves_witness :
  exists n, autoScroll (fun i => if (i <? 2)%nat then 1800 else 2400) 5 = Some n /\ n = 5.
Proof.
  destruct (autoScroll_resolves (fun i => if (i <? 2)%nat then 1800 else 2400) 2400 5)
    as (n & Hrun & _).
  - intros i. destruct (i <? 2)%nat; lia.
  - cbn. lia.
  - exists n. split; [exact Hrun|].
    cbv in Hrun. now injection Hrun.
Defined.

(** X17.  On a page that keeps growing ahead of the scroll position, each
    firing reading a height above what has been scrolled, [autoScroll] never
    resolves, however many firings are observed. *)
Theorem autoScroll_never_resolves (scrollHeight : nat -> nat) (fuel : nat) :
  (forall i, 500 * (i + 1) < scrollHeight i) ->
  autoScroll scrollHeight fuel = None.
Proof.
  intros Hgrow. apply (autoScroll_from_pending scrollHeight fuel 0 Hgrow).
Qed.

Lemma autoScroll_never_resolves_witness :
  autoScroll (fun i => 500 * (i + 1) + 1) 1000 = None.
Proof.
  apply (autoScroll_never_resolves (fun i => 500 * (i + 1) + 1) 1000).
  intros i. lia.
Defined.

(* ================================================================== *)
(** * [getDate] and the dates written by the extractors *)

Section Dates.

Variable toUTC : Number -> string.

Lemma post_of_date (post : PostElement.t) (d : PostData.t) :
  post_of toUTC post = ok (Some d) ->
  match PostData.postId d with
  | IdStr postId =>
      exists unixTimestamp,
        getDate toUTC postId
        = ok (unixTimestamp, unixTimestampToHumanDate toUTC unixTimestamp) /\
        PostData.postDateDetails d
        = Some (unixTimestampToHumanDate toUTC unixTimestamp)
  | _ => PostData.postDateDetails d = None
  end.
Proof.
  unfold post_of, getDate, extractUnixTimestamp.
  destruct (str_or_null (PostElement.data_urn post)) as [urn|].
  - destruct (nth_error (split ":" urn) 3) as [postId|];
      cbn [defined rbind ok raise]; [|discriminate].
    destruct (BigInt.of_string postId) as [e|big] eqn:Hbig; cbn [rbind ok];
      [discriminate|].
    intros [= <-]. cbn [PostData.postId PostData.postDateDetails].
    rewrite Hbig. cbn [rbind ok]. eexists. split; reflexivity.
  - cbn [rbind ok]. intros [= <-]. reflexivity.
Qed.

Lemma ToBigInt_ToString (id : IdValue) :
  id <> IdNull -> Id.ToBigInt id = BigInt.of_string (Id.ToString id).
Proof. destruct id; [reflexivity|reflexivity|congruence]. Qed.

Lemma commentData_of_date (c : CommentElement.t) (text : string) (d : CommentData.t) :
  commentData_of toUTC c text = ok d ->
  exists unixTimestamp,
    getDate toUTC (Id.ToString (CommentData.commentId d))
    = ok (unixTimestamp, CommentData.commentDateDetails d).
Proof.
  unfold commentData_of, getDate, extractUnixTimestamp.
  assert (Hbuild : forall commentId commentPostId,
    commentId <> IdNull ->
    rbind (Id.ToBigInt commentId) (fun big =>
      ok (CommentData.mk commentId commentPostId text
            (humanDate toUTC (parseInt2 (slice (BigInt.toString2 big) 0 41)))
            ("https://www.linkedin.com/feed/update/urn:li:activity:"
             ++ Id.ToString commentPostId
             ++ "/?commentUrn=urn:li:comment:(activity:" ++ Id.ToString commentPostId
             ++ "," ++ Id.ToString commentId
             ++ ")&dashCommentUrn=urn:li:fsd_comment:(" ++ Id.ToString commentId
             ++ ",urn:li:activity:" ++ Id.ToString commentPostId ++ ")"))) = ok d ->
    exists unixTimestamp,
      rbind (BigInt.of_string (Id.ToString (CommentData.commentId d)))
        (fun big => ok (parseInt2 (slice (BigInt.toString2 big) 0 41)))
      = ok unixTimestamp /\
      CommentData.commentDateDetails d
      = unixTimestampToHumanDate toUTC unixTimestamp).
  { intros commentId commentPostId Hid.
    rewrite (ToBigInt_ToString commentId Hid).
    destruct (BigInt.of_string (Id.ToString commentId)) as [e|big] eqn:Hbig;
      cbn [rbind ok]; [discriminate|].
    intros [= <-]. cbn [CommentData.commentId CommentData.commentDateDetails].
    rewrite Hbig. cbn [rbind ok]. eexists. split; reflexivity. }
  assert (Hnonnull : forall s, Id.string_or_zero s <> IdNull).
  { intros s. destruct s; discriminate. }
  intros H.
  assert (Hgoal : exists unixTimestamp,
    rbind (BigInt.of_string (Id.ToString (CommentData.commentId d)))
      (fun big => ok (parseInt2 (slice (BigInt.toString2 big) 0 41)))
    = ok unixTimestamp /\
    CommentData.commentDateDetails d = unixTimestampToHumanDate toUTC unixTimestamp).
  { destruct (CommentElement.data_id c) as [data_id|].
    - repeat match type of H with
             | rbind (rbind (defined ?o) _) _ = _ =>
                 destruct o; cbn [rbind defined ok raise] in H; try discriminate
             end.
      eapply Hbuild; cycle 1; [exact H|apply Hnonnull].
    - cbn [rbind ok] in H. eapply Hbuild; cycle 1; [exact H|discriminate]. }
  destruct Hgoal as (ts & Hts & Hdate).
  exists ts.
  destruct (BigInt.of_string (Id.ToString (CommentData.commentId d)));
    cbn [rbind ok] in *; [discriminate|].
  injection Hts as <-. now rewrite Hdate.
Qed.

End Dates.

(** X18.  The dates the extractors write agree with the public [getDate]
    method: a post record with an identifier carries the [humanDateFormat]
    that [getDate] returns for that identifier (and a record without
    identifier carries no date), and every comment record carries the
    [humanDateFormat] of [getDate] applied to its comment identifier. *)
Theorem extracted_dates_agree_with_getDate (toUTC : Number -> string)
    (posts : list PostElement.t) (document_title : string)
    (comments : list CommentElement.t) :
  all_records
    (fun d =>
       match PostData.postId d with
       | IdStr postId =>
           exists unixTimestamp,
             getDate toUTC postId
             = ok (unixTimestamp, unixTimestampToHumanDate toUTC unixTimestamp) /\
             PostData.postDateDetails d
             = Some (unixTimestampToHumanDate toUTC unixTimestamp)
       | _ => PostData.postDateDetails d = None
       end)
    (posts_callback toUTC posts) /\
  all_records
    (fun d =>
       exists unixTimestamp,
         getDate toUTC (Id.ToString (CommentData.commentId d))
         = ok (unixTimestamp, CommentData.commentDateDetails d))
    (comments_callback toUTC document_title comments).
Proof.
  split.
  - apply all_records_for_push. intros post d. apply post_of_date.
  - unfold all_records.
    destruct (comments_callback toUTC document_title comments) as [e|data] eqn:Hrun;
      [exact I|].
    destruct (dedup_invariant_loop toUTC (profile_owner_of document_title)
                comments [] [] data) as (_ & Hfirst & _).
    + split; [constructor|]. split; [intros d []|intros c t []].
    + exact Hrun.
    + apply Forall_forall. intros d Hd.
      destruct (Hfirst d Hd) as (c & _ & Hmk).
      eapply commentData_of_date; exact Hmk.
Qed.
(* ================================================================== *)
(** * Tabs and navigation *)

Section Tabs.

Variable env : Env.

Lemma is_open_In (page : nat) (s : Scraper) :
  Puppeteer.is_open page s = true <-> In page (pages s).
Proof.
  unfold Puppeteer.is_open. rewrite existsb_exists. split.
  - intros (q & Hin & Heq). apply Nat.eqb_eq in Heq. now subst.
  - intros Hin. exists page. split; [exact Hin|apply Nat.eqb_refl].
Qed.

Lemma call_inr_inv (sec : SectionId) (c : Call) (s s' : Scraper) (u : unit) :
  Puppeteer.call env sec c s = (inr u, s') -> s' = s.
Proof.
  unfold Puppeteer.call. destruct (fault env sec c); [discriminate|].
  now intros [= _ <-].
Qed.

Lemma on_page_inr_inv (sec : SectionId) (c : Call) (page : nat)
    (s s' : Scraper) (u : unit) :
  Puppeteer.on_page env sec c page s = (inr u, s') ->
  s' = s /\ In page (pages s).
Proof.
  unfold Puppeteer.on_page.
  destruct (Puppeteer.is_open page s) eqn:Hopen; [|discriminate].
  intros H. apply call_inr_inv in H. split; [exact H|now apply is_open_In].
Qed.

Lemma closePage_inr_inv (sec : SectionId) (c : Call) (page : nat)
    (s s' : Scraper) (u : unit) :
  Puppeteer.closePage env sec c page s = (inr u, s') ->
  pages s' = filter (fun p => negb (Nat.eqb p page)) (pages s).
Proof.
  unfold Puppeteer.closePage. intros H.
  apply bind_inr_inv in H as (a & s1 & Hcall & H).
  apply on_page_inr_inv in Hcall as [-> _]. injection H as _ <-. reflexivity.
Qed.

(** The page a successful [createPage] returns is open, and some tab was
    open before the call. *)
Lemma createPage_inr_inv (sec : SectionId) (s s' : Scraper) (page : nat) :
  createPage env sec s = (inr page, s') ->
  In page (pages s') /\ pages s <> [].
Proof.
  unfold createPage. intros H.
  apply bind_inr_inv in H as (s0 & s1 & Hget & H).
  unfold get in Hget. injection Hget as <- <-.
  destruct (negb (browser s)); [discriminate|].
  apply try_catch_inr_inv in H; [|intros; apply close_throw_never_returns].
  apply bind_inr_inv in H as (p & s1 & Hnew & H).
  unfold Puppeteer.newPage in Hnew.
  apply bind_inr_inv in Hnew as (u & s2 & Hcall & Hnew).
  apply call_inr_inv in Hcall as ->.
  injection Hnew as <- <-.
  apply bind_inr_inv in H as (s2 & s3 & Hget & H).
  unfold get in Hget. injection Hget as <- <-.
  apply bind_inr_inv in H as (firstPage & s3 & Hfirst & H).
  unfold lift in Hfirst. cbn [pages] in Hfirst.
  apply bind_inr_inv in H as (u0 & s4 & Hclose & H).
  apply closePage_inr_inv in Hclose. cbn [pages] in Hclose.
  apply bind_inr_inv in H as (u' & s5 & Hsetup & H).
  apply on_page_inr_inv in Hsetup as [-> Hopen].
  injection H as <- <-. split; [exact Hopen|].
  intros Hnone. rewrite Hnone in Hfirst.
  cbn in Hfirst. injection Hfirst as <- <-.
  rewrite Hclose in Hopen. cbn in Hopen.
  rewrite Nat.eqb_refl in Hopen. exact Hopen.
Qed.

(** With no tab open the page [createPage] opens is the first one, and
    closing the first tab closes it: the call throws. *)
Lemma createPage_no_tab (sec : SectionId) (s : Scraper) :
  pages s = [] -> exists e s', createPage env sec s = (inl e, s').
Proof.
  intros Hnone.
  destruct (createPage env sec s) as [[e|page] s'] eqn:H; [eauto|].
  apply createPage_inr_inv in H as [_ H]. contradiction.
Qed.

End Tabs.

Section RunTrace.

Variable env : Env.

Lemma run_returns_ready (profileUrl : string)
    (options : option ScraperHistoryMemory.t) (s s' : Scraper) (r : RunResult)
    (p : nat) :
  pages s = [p] -> p < next_page s ->
  run env profileUrl options s = (inr r, s') ->
  ready s /\ profileUrl <> EmptyString /\ includes "linkedin.com/" profileUrl = true.
Proof.
  intros Hpages Hfresh Hrun.
  destruct (browser s) eqn:Hb.
  - assert (Hready : ready s) by (split; eauto).
    destruct (run_cases env profileUrl options s Hready)
      as [[e He]|(Hne & Hin & _)]; [congruence|auto].
  - destruct (run_guards env profileUrl options s (or_introl Hb)) as [e He].
    congruence.
Qed.

Lemma run_outcome_kept (options : option ScraperHistoryMemory.t) (r : RunResult) :
  run_outcome env options true <> inr r.
Proof.
  unfold run_outcome, release_outcome.
  repeat match goal with
         | |- rbind ?o _ <> _ => destruct o; cbn [rbind]; [discriminate|]
         end.
  discriminate.
Qed.

Lemma run_outcome_released (options : option ScraperHistoryMemory.t) (r : RunResult) :
  run_outcome env options false = inr r ->
  run_outcome env options true = inl TargetClosed.
Proof.
  unfold run_outcome, release_outcome.
  repeat match goal with
         | |- rbind ?o _ = _ -> _ => destruct o; cbn [rbind]; [discriminate|]
         end.
  reflexivity.
Qed.

Lemma ready_kept_alive (s : Scraper) : ready s -> ready (kept_alive s).
Proof. intros H. exact H. Qed.

End RunTrace.

(** X19.  A successful run that starts with a single open tab visits seven
    pages in a fixed order, each in a fresh tab: the profile URL, then its
    experience, skills, volunteering and honors detail pages, then
    [recent-activity/all/], then [/recent-activity/comments/] (appended with a
    slash of its own).  Every [createPage] closes the tab of the section
    before it, so at the end the only open tab is the one of the comments
    page; and the scraper was constructed with [keepAlive] off. *)
Theorem run_visits_in_order (env : Env) (profileUrl : string)
    (options : option ScraperHistoryMemory.t) (s s' : Scraper) (r : RunResult)
    (p : nat) :
  pages s = [p] -> p < next_page s ->
  run env profileUrl options s = (inr r, s') ->
  navigations s' = (navigations s ++ run_navigations profileUrl (next_page s))%list /\
  pages s' = [next_page s + 6] /\
  next_page s' = next_page s + 7 /\
  keepAlive s = false.
Proof.
  intros Hpages Hfresh Hrun.
  destruct (run_returns_ready env profileUrl options s s' r p Hpages Hfresh Hrun)
    as (Hready & Hne & Hin).
  destruct (run_spec env profileUrl options s Hready Hne Hin) as (s'' & Heq & Hfinal).
  rewrite Heq in Hrun. injection Hrun as Hout <-.
  rewrite (Hfinal r Hout).
  assert (Hkeep : keepAlive s = false).
  { destruct (keepAlive s); [|reflexivity].
    exfalso. exact (run_outcome_kept env options r Hout). }
  cbn. unfold run_navigations.
  repeat rewrite <- app_assoc. cbn.
  replace (next_page s + 1) with (S (next_page s)) by lia.
  replace (next_page s + 2) with (S (S (next_page s))) by lia.
  replace (next_page s + 3) with (S (S (S (next_page s)))) by lia.
  replace (next_page s + 4) with (S (S (S (S (next_page s))))) by lia.
  replace (next_page s + 5) with (S (S (S (S (S (next_page s)))))) by lia.
  replace (next_page s + 6) with (S (S (S (S (S (S (next_page s))))))) by lia.
  repeat split; [lia|exact Hkeep].
Qed.

Lemma run_visits_in_order_witness :
  exists r s',
    run Demo.env Demo.profileUrl None Demo.scraper = (inr r, s') /\
    pages s' = [7] /\ next_page s' = 8.
Proof.
  destruct (run Demo.env Demo.profileUrl None Demo.scraper) as [[e|r] s'] eqn:Hrun;
    [vm_compute in Hrun; discriminate|].
  exists r, s'. split; [reflexivity|].
  destruct (run_visits_in_order Demo.env Demo.profileUrl None Demo.scraper s' r 0
              eq_refl (Nat.lt_0_succ 0) Hrun) as (_ & Hpages & Hnext & _).
  split; assumption.
Defined.

(** X20.  [createPage] closes whichever tab is first, and needs one that
    is not its own: a page it returns is open afterwards, and it returns
    only when some tab was open before the call.  With no tab open the
    first tab is the new page itself, which is closed before it is set up,
    and [createPage] throws. *)
Theorem createPage_returns_open_page (env : Env) (sec : SectionId) (s : Scraper) :
  (forall page s',
     createPage env sec s = (inr page, s') ->
     In page (pages s') /\ pages s <> []) /\
  (pages s = [] -> exists e s', createPage env sec s = (inl e, s')).
Proof.
  split.
  - intros page s'. apply createPage_inr_inv.
  - apply createPage_no_tab.
Qed.

Lemma createPage_returns_open_page_witness :
  exists s',
    createPage Demo.env SProfile (mkScraper false true [] 5 true true [])
    = (inl TargetClosed, s') /\
    pages s' = [].
Proof.
  destruct (proj2 (createPage_returns_open_page Demo.env SProfile
                     (mkScraper false true [] 5 true true [])) eq_refl)
    as (e & s' & H).
  exists s'. rewrite H. vm_compute in H. injection H as <- <-. split; reflexivity.
Defined.

(** X21.  [run] needs [setup]: on a scraper whose browser is not set it
    throws "Browser is not set" before looking at the URL and changes
    nothing; a [setup] whose launch throws rethrows that error and leaves the
    scraper as it was; a [setup] whose launch succeeds leaves the scraper
    ready, with its [keepAlive] option untouched, and a run from there on a
    URL that passes the guards ends as the sections and the release step
    decide. *)
Theorem run_requires_setup (env : Env) (profileUrl : string)
    (options : option ScraperHistoryMemory.t) (s : Scraper) :
  (browser s = false ->
   run env profileUrl options s
   = (inl (Error "Browser is not set. Please run the setup method first."), s)) /\
  (forall e, setup (Some e) s = (inl e, s)) /\
  (profileUrl <> EmptyString -> includes "linkedin.com/" profileUrl = true ->
   exists s1 s',
     setup None s = (ok tt, s1) /\ ready s1 /\ keepAlive s1 = keepAlive s /\
     run env profileUrl options s1 = (run_outcome env options (keepAlive s), s')).
Proof.
  repeat split.
  - intros Hb. unfold run, bind, get. cbn [ok]. rewrite Hb. reflexivity.
  - intros Hne Hin.
    assert (Hready : ready (mkScraper (keepAlive s) true [next_page s]
                              (S (next_page s)) true true (navigations s))).
    { split; [reflexivity|]. exists (next_page s). split; [reflexivity|]. cbn. lia. }
    destruct (run_spec env profileUrl options _ Hready Hne Hin) as (s' & Hrun & _).
    eexists. exists s'. split; [reflexivity|]. split; [exact Hready|].
    split; [reflexivity|exact Hrun].
Qed.

Lemma run_requires_setup_witness :
  run Demo.env Demo.profileUrl None (mkScraper false false [] 0 false false [])
  = (inl (Error "Browser is not set. Please run the setup method first."),
     mkScraper false false [] 0 false false []).
Proof.
  apply (proj1 (run_requires_setup Demo.env Demo.profileUrl None
                  (mkScraper false false [] 0 false false []))).
  reflexivity.
Defined.

(** X24.  With [keepAlive] on, a run from a ready scraper never returns.
    When the same run with [keepAlive] off returns an object, the run with
    [keepAlive] on throws in its last step: it calls [page.close()] on the
    profile tab, which the [createPage] of [getExperiences] closed long
    before, and the object is lost. *)
Theorem run_keepAlive_never_returns (env : Env) (profileUrl : string)
    (options : option ScraperHistoryMemory.t) (s : Scraper) :
  ready s ->
  (forall r s', run env profileUrl options (kept_alive s) <> (inr r, s')) /\
  (forall r s',
     keepAlive s = false ->
     run env profileUrl options s = (inr r, s') ->
     exists s'', run env profileUrl options (kept_alive s) = (inl TargetClosed, s'')).
Proof.
  intros Hready. pose proof (ready_kept_alive s Hready) as Hkept. split.
  - intros r s' Hrun.
    destruct (run_cases env profileUrl options _ Hkept)
      as [[e He]|(_ & _ & s'' & Heq)]; [congruence|].
    rewrite Heq in Hrun. injection Hrun as Hout _.
    exact (run_outcome_kept env options r Hout).
  - intros r s' Hoff Hrun.
    destruct (run_cases env profileUrl options s Hready)
      as [[e He]|(Hne & Hin & s1 & Heq)]; [congruence|].
    rewrite Heq, Hoff in Hrun. injection Hrun as Hout _.
    destruct (run_spec env profileUrl options _ Hkept Hne Hin) as (s'' & Hs'' & _).
    exists s''. rewrite Hs''. cbn [kept_alive keepAlive].
    now rewrite (run_outcome_released env options r Hout).
Qed.

Lemma run_keepAlive_never_returns_witness :
  (exists r s', run Demo.env Demo.profileUrl None Demo.scraper = (inr r, s')) /\
  exists s'',
    run Demo.env Demo.profileUrl None Demo.kept_scraper = (inl TargetClosed, s'').
Proof.
  assert (Hready : ready Demo.scraper).
  { split; [reflexivity|]. exists 0. split; [reflexivity|]. cbn. lia. }
  destruct (run Demo.env Demo.profileUrl None Demo.scraper) as [[e|r] s'] eqn:Hrun;
    [vm_compute in Hrun; discriminate|].
  split; [eauto|].
  exact (proj2 (run_keepAlive_never_returns Demo.env Demo.profileUrl None
                  Demo.scraper Hready) r s' eq_refl Hrun).
Defined.

(** X22.  When no Puppeteer call throws, [checkIfLoggedIn] on a browser with
    a single tab navigates a fresh tab to the login page and throws
    [SessionExpired] exactly when the URL it lands on ends with [/login];
    either way it has closed the tab that was open and then its own, so no
    tab is left, and it has not touched the browser otherwise. *)
Theorem checkIfLoggedIn_verdict (env : Env) (sec : SectionId) (landed : string)
    (s : Scraper) (p : nat) :
  browser s = true -> pages s = [p] -> p < next_page s ->
  (forall c, fault env sec c = None) ->
  exists s',
    checkIfLoggedIn env sec landed s
    = (if endsWith "/login" landed
       then inl (SessionExpired session_expired_message) else ok tt, s') /\
    pages s' = [] /\
    navigations s'
    = (navigations s ++ [(next_page s, "https://www.linkedin.com/login")])%list /\
    same_session s s'.
Proof.
  intros Hb Hpages Hfresh Hf.
  destruct s as [ka br pgs np bo pa nav]. cbn in Hb, Hpages, Hfresh. subst br pgs.
  assert (Hnp : (np =? p)%nat = false) by (apply Nat.eqb_neq; lia).
  unfold checkIfLoggedIn, createPage, try_catch, bind, get, close, ret, throw, lift,
    Puppeteer.goto, Puppeteer.newPage, Puppeteer.closePage, Puppeteer.on_page,
    Puppeteer.is_open, Puppeteer.call.
  unfold bind. rewrite !Hf.
  do 6 (cbn -[Nat.eqb endsWith session_expired_message];
        rewrite ?Nat.eqb_refl, ?Hnp, ?Hf).
  cbn -[Nat.eqb endsWith session_expired_message].
  destruct (endsWith "/login" landed);
    cbn -[session_expired_message]; eexists; (split; [reflexivity|]);
    repeat split.
Qed.

Lemma checkIfLoggedIn_verdict_witness :
  exists s',
    checkIfLoggedIn Demo.env SProfile "https://www.linkedin.com/feed/" Demo.scraper
    = (ok tt, s') /\ pages s' = [].
Proof.
  destruct (checkIfLoggedIn_verdict Demo.env SProfile "https://www.linkedin.com/feed/"
              Demo.scraper 0 eq_refl eq_refl (Nat.lt_0_succ 0) (fun _ => eq_refl))
    as (s' & Hrun & Hpages & _).
  exists s'. split; [exact Hrun|exact Hpages].
Defined.

(** X23.  [checkIfLoggedIn] has no clean-up on failure: when the navigation
    to the login page throws, the error propagates and the tab opened for
    the check stays open. *)
Theorem checkIfLoggedIn_leaks_tab (env : Env) (sec : SectionId) (landed : string)
    (s : Scraper) (p : nat) (e : Exn) :
  browser s = true -> pages s = [p] -> p < next_page s ->
  createPage_succeeds env sec ->
  fault env sec CGoto = Some e ->
  exists s',
    checkIfLoggedIn env sec landed s = (inl e, s') /\
    pages s' = [next_page s].
Proof.
  intros Hb Hpages Hfresh Hcreate Hgoto.
  unfold createPage_succeeds in Hcreate.
  pose proof (proj1 (first_fault_none env sec createPage_calls) Hcreate) as Hnone.
  clear Hcreate. rename Hnone into Hcreate.
  pose proof (Hcreate CNewPage (or_introl eq_refl)) as H1.
  pose proof (Hcreate CFirstPageClose (or_intror (or_introl eq_refl))) as H2.
  pose proof (Hcreate CPageSetup (or_intror (or_intror (or_introl eq_refl)))) as H3.
  destruct s as [ka br pgs np bo pa nav]. cbn in Hb, Hpages, Hfresh. subst br pgs.
  assert (Hnp : (np =? p)%nat = false) by (apply Nat.eqb_neq; lia).
  unfold checkIfLoggedIn, createPage, try_catch, bind, get, close, ret, throw, lift,
    Puppeteer.goto, Puppeteer.newPage, Puppeteer.closePage, Puppeteer.on_page,
    Puppeteer.is_open, Puppeteer.call.
  unfold bind. rewrite H1.
  do 6 (cbn -[Nat.eqb endsWith session_expired_message];
        rewrite ?Nat.eqb_refl, ?Hnp, ?H2, ?H3, ?Hgoto).
  cbn -[Nat.eqb endsWith session_expired_message].
  eexists. split; reflexivity.
Qed.

Lemma checkIfLoggedIn_leaks_tab_witness :
  exists s',
    checkIfLoggedIn Demo.failing_env SSkills "https://www.linkedin.com/login" Demo.scraper
    = (inl (External 1), s') /\ pages s' = [1].
Proof.
  apply (checkIfLoggedIn_leaks_tab Demo.failing_env SSkills
           "https://www.linkedin.com/login" Demo.scraper 0 (External 1)).
  - reflexivity.
  - reflexivity.
  - apply Nat.lt_0_succ.
  - reflexivity.
  - reflexivity.
Defined.
(* ================================================================== *)
(** * Decimal identifiers *)

Section DecimalNumerals.

Lemma is_space2_bytes (a b : ascii) :
  is_space2 a b = true -> nat_of_ascii a = 194 /\ nat_of_ascii b = 160.
Proof.
  unfold is_space2. rewrite andb_true_iff, !Nat.eqb_eq. auto.
Qed.

Lemma is_space3_bytes (a b c : ascii) :
  is_space3 a b c = true -> 225 <= nat_of_ascii a /\ 128 <= nat_of_ascii c.
Proof.
  unfold is_space3.
  repeat first [ rewrite orb_true_iff | rewrite andb_true_iff
               | rewrite Nat.eqb_eq | rewrite Nat.leb_le ].
  lia.
Qed.

(** A string that starts with a printable ASCII character has nothing
    to drop, whichever way it is read. *)
Lemma drop_space_plain (backwards : bool) (c : ascii) (s : string) :
  32 < nat_of_ascii c < 128 ->
  drop_space backwards (String c s) = String c s.
Proof.
  intros Hc. cbn [drop_space].
  replace (is_space1 c) with false.
  2:{ symmetry. unfold is_space1. apply orb_false_iff. split.
      - apply andb_false_iff. right. apply Nat.leb_gt. lia.
      - apply Nat.eqb_neq. lia. }
  destruct s as [|b s]; [reflexivity|].
  replace (if backwards then is_space2 b c else is_space2 c b) with false.
  2:{ symmetry. destruct backwards.
      - destruct (is_space2 b c) eqn:E; [|reflexivity].
        apply is_space2_bytes in E. lia.
      - destruct (is_space2 c b) eqn:E; [|reflexivity].
        apply is_space2_bytes in E. lia. }
  destruct s as [|c' s]; [reflexivity|].
  replace (if backwards then is_space3 c' b c else is_space3 c b c') with false;
    [reflexivity|].
  symmetry. destruct backwards.
  - destruct (is_space3 c' b c) eqn:E; [|reflexivity].
    apply is_space3_bytes in E. lia.
  - destruct (is_space3 c b c') eqn:E; [|reflexivity].
    apply is_space3_bytes in E. lia.
Qed.

Lemma rev_string_involutive (s : string) : rev_string (rev_string s) = s.
Proof.
  unfold rev_string.
  now rewrite list_ascii_of_string_of_list_ascii, List.rev_involutive,
    string_of_list_ascii_of_string.
Qed.

(** [trim] leaves a string of printable ASCII characters alone. *)
Lemma trim_plain (s : string) :
  (forall c, In c (list_ascii_of_string s) -> 32 < nat_of_ascii c < 128) ->
  trim s = s.
Proof.
  intros Hs. unfold trim, trimStart, trimEnd.
  assert (Hstart : drop_space false s = s).
  { destruct s as [|c s]; [reflexivity|].
    apply drop_space_plain, Hs. now left. }
  rewrite Hstart.
  assert (Hend : drop_space true (rev_string s) = rev_string s).
  { unfold rev_string.
    destruct (List.rev (list_ascii_of_string s)) as [|c l] eqn:Hrev; [reflexivity|].
    cbn [string_of_list_ascii]. apply drop_space_plain, Hs.
    apply in_rev. rewrite Hrev. now left. }
  rewrite Hend. apply rev_string_involutive.
Qed.

Lemma uint_chars (d : uint) (c : ascii) :
  In c (list_ascii_of_string (NilEmpty.string_of_uint d)) ->
  32 < nat_of_ascii c < 128.
Proof.
  induction d as [|d IH|d IH|d IH|d IH|d IH|d IH|d IH|d IH|d IH|d IH];
    cbn [NilEmpty.string_of_uint list_ascii_of_string In];
    try (intros [<-|H]; [cbn; lia|now apply IH]).
  contradiction.
Qed.

Lemma uint_radix_prefix (d : uint) :
  Literal.radix_prefix (NilEmpty.string_of_uint d) = None.
Proof. destruct d as [|d|d|d|d|d|d|d|d|d|d]; try reflexivity; destruct d; reflexivity. Qed.

Lemma uint_signed (d : uint) :
  Literal.signed (NilEmpty.string_of_uint d) = (false, NilEmpty.string_of_uint d).
Proof. destruct d; reflexivity. Qed.

Ltac next_digit IH :=
  cbn [NilEmpty.string_of_uint Literal.digits_from String.length];
  match goal with
  | |- context [Literal.digit 10 ?c] =>
      let v := eval vm_compute in (Literal.digit 10 c) in
      change (Literal.digit 10 c) with v
  end;
  cbv iota beta.

(** Reading a numeral after a non-zero prefix. *)
Lemma digits_from_uint_acc (d : uint) (acc : positive) (count : nat) :
  Literal.digits_from 10 (NilEmpty.string_of_uint d) (Npos acc) count
  = (Npos (Pos.of_uint_acc d acc),
     count + String.length (NilEmpty.string_of_uint d), EmptyString).
Proof.
  revert acc count.
  induction d as [|d IH|d IH|d IH|d IH|d IH|d IH|d IH|d IH|d IH|d IH];
    intros acc count;
    [cbn; now rewrite Nat.add_0_r|..];
    next_digit IH; cbn [Pos.of_uint_acc];
    match goal with
    | |- Literal.digits_from 10 _ ?v _ = (N.pos (Pos.of_uint_acc _ ?a), _, _) =>
        replace v with (Npos a) by lia
    end;
    rewrite IH; do 2 f_equal; lia.
Qed.

Lemma digits_from_uint (d : uint) (count : nat) :
  Literal.digits_from 10 (NilEmpty.string_of_uint d) 0 count
  = (N.of_uint d, count + String.length (NilEmpty.string_of_uint d), EmptyString).
Proof.
  revert count.
  induction d as [|d IH|d IH|d IH|d IH|d IH|d IH|d IH|d IH|d IH|d IH];
    intros count;
    [cbn; now rewrite Nat.add_0_r|..];
    next_digit IH.
  - change (0 * 10 + 0)%N with 0%N. rewrite IH. cbn [N.of_uint Pos.of_uint].
    do 2 f_equal. lia.
  - change (0 * 10 + 1)%N with 1%N. rewrite digits_from_uint_acc.
    cbn [N.of_uint Pos.of_uint]. do 2 f_equal. lia.
  - change (0 * 10 + 2)%N with 2%N. rewrite digits_from_uint_acc.
    cbn [N.of_uint Pos.of_uint]. do 2 f_equal. lia.
  - change (0 * 10 + 3)%N with 3%N. rewrite digits_from_uint_acc.
    cbn [N.of_uint Pos.of_uint]. do 2 f_equal. lia.
  - change (0 * 10 + 4)%N with 4%N. rewrite digits_from_uint_acc.
    cbn [N.of_uint Pos.of_uint]. do 2 f_equal. lia.
  - change (0 * 10 + 5)%N with 5%N. rewrite digits_from_uint_acc.
    cbn [N.of_uint Pos.of_uint]. do 2 f_equal. lia.
  - change (0 * 10 + 6)%N with 6%N. rewrite digits_from_uint_acc.
    cbn [N.of_uint Pos.of_uint]. do 2 f_equal. lia.
  - change (0 * 10 + 7)%N with 7%N. rewrite digits_from_uint_acc.
    cbn [N.of_uint Pos.of_uint]. do 2 f_equal. lia.
  - change (0 * 10 + 8)%N with 8%N. rewrite digits_from_uint_acc.
    cbn [N.of_uint Pos.of_uint]. do 2 f_equal. lia.
  - change (0 * 10 + 9)%N with 9%N. rewrite digits_from_uint_acc.
    cbn [N.of_uint Pos.of_uint]. do 2 f_equal. lia.
Qed.

Lemma uint_numeral (d : uint) :
  d <> Nil ->
  Literal.numeral 10 (NilEmpty.string_of_uint d) = Some (N.of_uint d).
Proof.
  intros Hd. unfold Literal.numeral, Literal.digits.
  rewrite digits_from_uint. cbn [Nat.add].
  destruct d; [congruence|..]; reflexivity.
Qed.

(** [BigInt] reads a string of decimal digits, leading zeros or not, as
    the number it writes. *)
Lemma of_string_uint (d : uint) :
  d <> Nil ->
  BigInt.of_string (NilEmpty.string_of_uint d) = ok (Z.of_N (N.of_uint d)).
Proof.
  intros Hd. unfold BigInt.of_string.
  rewrite (trim_plain _ (uint_chars d)).
  rewrite uint_radix_prefix, uint_signed, (uint_numeral d Hd).
  destruct d; [congruence|..]; reflexivity.
Qed.

Lemma decimal_numeral_uint (x : N) :
  decimal_numeral x = NilEmpty.string_of_uint (N.to_uint x) /\ N.to_uint x <> Nil.
Proof.
  unfold decimal_numeral, NilZero.string_of_uint.
  destruct (N.to_uint x) eqn:Hx; try (split; [reflexivity|discriminate]).
  exfalso. destruct x as [|p]; [cbn in Hx; discriminate|].
  exact (DecimalPos.Unsigned.to_uint_nonnil p Hx).
Qed.

End DecimalNumerals.

(** X25.  The decimal numeral of every natural number, of any size, is
    read by [BigInt] as that number; the filter's conversion to a Number
    reads it as the nearest double; and [extractUnixTimestamp] decodes it to
    the leading 41 bits of the number. *)
Theorem decimal_identifier_read_exactly (x : N) :
  BigInt.of_string (decimal_numeral x) = ok (Z.of_N x) /\
  Id.exact (IdStr (decimal_numeral x)) = Some x /\
  Id.StringToNumber (decimal_numeral x) = JSNumber.of_N x /\
  extractUnixTimestamp (decimal_numeral x) = ok (Fin (Z.of_N (spec_leading41 x))).
Proof.
  destruct (decimal_numeral_uint x) as [Heq Hnil].
  assert (Hbig : BigInt.of_string (decimal_numeral x) = ok (Z.of_N x)).
  { rewrite Heq, (of_string_uint _ Hnil). now rewrite DecimalN.Unsigned.of_to. }
  split; [exact Hbig|]. split; [|split].
  - unfold Id.exact. cbn [Id.ToBigInt]. rewrite Hbig. unfold ok.
    replace (0 <=? Z.of_N x)%Z with true by (symmetry; apply Z.leb_le; lia).
    now rewrite N2Z.id.
  - rewrite (of_string_StringToNumber _ _ Hbig). apply of_Z_of_N.
  - unfold extractUnixTimestamp. rewrite Hbig. cbn [rbind ok].
    now rewrite decode_leading41.
Qed.
